(** * Business Doctor: ROI engine, bottleneck annualisation and priority tiers

    A shallow embedding of the deterministic core of the repository:

    - [core/business_doctor_engine.py]: [ProcessBottleneck.calculate_annual_impact];
    - [core/data_pipeline.py]: [DataProcessors.process_bottleneck];
    - [core/business_analyzer.py]: the [BusinessAnalyzer] class.

    Modelling conventions.

    - Monetary amounts, hours and ratios (Python [float]/[int] mixed
      arithmetic) are exact rationals [Q]; rounding and overflow of binary64
      are outside the model.  Python's numeric [==], [<], [>] become
      [Qeq_bool], [Qltb], and statements about values use [==] on [Q].
    - [float('inf')] is the constructor [PInf] of [extended].
    - The confidence level is computed from the literals [0.5], [0.1] and
      [1.0] only; it is kept as an IEEE binary64 number ([PrimFloat.float]),
      as Python computes it.
    - True division [a / b] raises [ZeroDivisionError] when [b] is zero; it
      is the fallible [py_div].
    - A Python [dict] that is used as a record (a bottleneck, the company
      metrics) is a record of optional fields, [None] standing for an absent
      key; constant lookup tables are [gmap string _].
    - [BusinessAnalyzer] has one attribute, the list [calculations]; its
      methods run in a state-and-exception monad over that attribute.
    - Formatted advisory strings are kept as the template that was chosen
      together with the numbers that are interpolated into it. *)

From Stdlib Require Import QArith ZArith List Lia Lqa Ascii String.
From Stdlib Require Import Sorting.Sorted Sorting.Permutation.
From Stdlib Require Import Floats.PrimFloat.
From stdpp Require Import gmap strings.

Import ListNotations.
Local Open Scope Q_scope.
Set Warnings "-inexact-float".

(** ** Python primitives *)

Inductive result (A : Type) : Type :=
| Ok (a : A)
| ZeroDivisionError.
Arguments Ok {A} a.
Arguments ZeroDivisionError {A}.

Inductive extended : Type :=
| Fin (q : Q)
| PInf.

Definition Qltb (x y : Q) : bool := negb (Qle_bool y x).

(** [a / b] on numbers. *)
Definition py_div (a b : Q) : result Q :=
  if Qeq_bool b 0 then ZeroDivisionError else Ok (a / b).

(** [sum(xs)]: left fold starting from the integer [0]. *)
Definition py_sum (xs : list Q) : Q := fold_left Qplus xs 0.

(** [d.get(k, default)] on a constant table. *)
Definition dict_get {V : Type} (d : gmap string V) (k : string) (dflt : V) : V :=
  default dflt (d !! k).

(** [rec.get(key, default)] on an optional field. *)
Definition get {V : Type} (field : option V) (dflt : V) : V := default dflt field.

(** Truthiness of [rec.get(key)] for a numeric and for a string field. *)
Definition truthy_num (field : option Q) : bool :=
  match field with Some q => negb (Qeq_bool q 0) | None => false end.
Definition truthy_int (field : option Z) : bool :=
  match field with Some z => negb (z =? 0)%Z | None => false end.
Definition truthy_str (field : option string) : bool :=
  match field with Some s => negb (String.eqb s "") | None => false end.

(** [str.lower()], on the ASCII letters. *)
Definition lower_ascii (c : ascii) : ascii :=
  let n := Ascii.N_of_ascii c in
  if ((65 <=? n) && (n <=? 90))%N then Ascii.ascii_of_N (n + 32) else c.

Fixpoint lower (s : string) : string :=
  match s with
  | EmptyString => EmptyString
  | String c s' => String (lower_ascii c) (lower s')
  end.

(** [l[:n]] *)
Definition slice_to {A : Type} (n : nat) (l : list A) : list A := firstn n l.

(** ** Stable descending sort: [sorted(l, key=..., reverse=True)]

    Python computes one key per element and sorts stably; with
    [reverse=True] elements with equal keys keep their original order.
    The sort is modelled by a stable insertion sort on the keyed elements. *)

Section StableSort.
Context {A : Type}.

Fixpoint insert_desc (x : Q * A) (l : list (Q * A)) : list (Q * A) :=
  match l with
  | [] => [x]
  | y :: l' =>
      if Qle_bool (fst y) (fst x) then x :: y :: l'
      else y :: insert_desc x l'
  end.

Definition sort_desc (l : list (Q * A)) : list (Q * A) :=
  fold_right insert_desc [] l.
End StableSort.

(** ** Records exchanged with the callers *)

(** The bottleneck [dict]. *)
Record Bottleneck : Type := {
  name : option string;
  frequency : option string;
  time_impact_hours : option Q;
  cost_impact : option Q;
  annual_hours_impact : option Q;
  annual_cost_impact : option Q;
  automation_potential : option Q;
  solution_complexity : option string;
  priority : option string
}.

(** The company-metrics [dict]. *)
Record CompanyMetrics : Type := {
  company_name : option string;
  industry : option string;
  employee_count : option Z;
  annual_revenue : option Q;
  average_hourly_cost : option Q;
  technology_stack : option (list string)
}.

(** ** core/business_doctor_engine.py *)

Module business_doctor_engine.

Record ProcessBottleneck : Type := {
  name : string;
  description : string;
  department : string;
  frequency : string;
  time_impact_hours : Q;
  cost_impact : Q;
  automation_potential : Q;
  priority : string
}.

Definition frequency_multiplier : gmap string Z :=
  list_to_map
    [("daily"%string, 250%Z); ("weekly"%string, 52%Z);
     ("monthly"%string, 12%Z); ("quarterly"%string, 4%Z)].

Definition calculate_annual_impact (self : ProcessBottleneck) : Q * Q :=
  let multiplier := dict_get frequency_multiplier (lower (frequency self)) 12%Z in
  let annual_hours := time_impact_hours self * inject_Z multiplier in
  let annual_cost := cost_impact self * inject_Z multiplier in
  (annual_hours, annual_cost).

End business_doctor_engine.

(** ** core/data_pipeline.py *)

Module data_pipeline.

Record DataRecord : Type := {
  id : string;
  record_type : string;
  data : Bottleneck
}.

Definition frequency_multiplier : gmap string Z :=
  list_to_map
    [("daily"%string, 250%Z); ("weekly"%string, 52%Z);
     ("monthly"%string, 12%Z); ("quarterly"%string, 4%Z)].

Definition set_annual (d : Bottleneck) (hours cost : Q) : Bottleneck :=
  {| name := name d; frequency := frequency d;
     time_impact_hours := time_impact_hours d; cost_impact := cost_impact d;
     annual_hours_impact := Some hours; annual_cost_impact := Some cost;
     automation_potential := automation_potential d;
     solution_complexity := solution_complexity d;
     priority := priority d |}.

Definition set_priority (d : Bottleneck) (p : string) : Bottleneck :=
  {| name := name d; frequency := frequency d;
     time_impact_hours := time_impact_hours d; cost_impact := cost_impact d;
     annual_hours_impact := annual_hours_impact d;
     annual_cost_impact := annual_cost_impact d;
     automation_potential := automation_potential d;
     solution_complexity := solution_complexity d;
     priority := Some p |}.

Section Processors.
(** [DataProcessors.generate_id] hashes the record type, the data and the
    clock; only its result type matters here. *)
Variable generate_id : string -> Bottleneck -> string.

Definition process_bottleneck (record : DataRecord) : DataRecord :=
  let id' :=
    if String.eqb (id record) "" then generate_id "bottleneck" (data record)
    else id record in
  let data0 := data record in
  let multiplier :=
    dict_get frequency_multiplier (get (frequency data0) "weekly"%string) 52%Z in
  let data1 :=
    set_annual data0
      (get (time_impact_hours data0) 0 * inject_Z multiplier)
      (get (cost_impact data0) 0 * inject_Z multiplier) in
  let data2 :=
    match priority data1 with
    | None =>
        let aci := get (annual_cost_impact data1) 0 in
        if Qltb 100000 aci then set_priority data1 "critical"
        else if Qltb 50000 aci then set_priority data1 "high"
        else if Qltb 10000 aci then set_priority data1 "medium"
        else set_priority data1 "low"
    | Some _ => data1
    end in
  {| id := id'; record_type := record_type record; data := data2 |}.
End Processors.

End data_pipeline.

(** ** core/business_analyzer.py *)

Module business_analyzer.

Record ROICalculation : Type := {
  description : string;
  current_cost : Q;
  improved_cost : Q;
  implementation_cost : Q;
  time_to_implement_days : Z;
  annual_savings : Q;
  roi_percentage : Q;
  payback_period_months : extended;
  confidence_level : float
}.

Record IndustryBenchmark : Type := {
  revenue_per_employee : Q;
  billable_hours_percentage : Q;
  admin_overhead_percentage : Q;
  typical_hourly_rate : Q
}.

#[export] Instance IndustryBenchmark_inhabited : Inhabited IndustryBenchmark :=
  populate {| revenue_per_employee := 0; billable_hours_percentage := 0;
              admin_overhead_percentage := 0; typical_hourly_rate := 0 |}.

Definition INDUSTRY_BENCHMARKS : gmap string IndustryBenchmark :=
  list_to_map
    [("legal"%string,
      {| revenue_per_employee := 200000; billable_hours_percentage := 0.65;
         admin_overhead_percentage := 0.35; typical_hourly_rate := 300 |});
     ("accounting"%string,
      {| revenue_per_employee := 150000; billable_hours_percentage := 0.70;
         admin_overhead_percentage := 0.30; typical_hourly_rate := 200 |});
     ("consulting"%string,
      {| revenue_per_employee := 175000; billable_hours_percentage := 0.75;
         admin_overhead_percentage := 0.25; typical_hourly_rate := 250 |});
     ("msp"%string,
      {| revenue_per_employee := 125000; billable_hours_percentage := 0.60;
         admin_overhead_percentage := 0.40; typical_hourly_rate := 150 |});
     ("default"%string,
      {| revenue_per_employee := 100000; billable_hours_percentage := 0.50;
         admin_overhead_percentage := 0.50; typical_hourly_rate := 75 |})].

(** *** The analyzer object and its monad *)

(** [self]: the only attribute is the list that [__init__] creates empty. *)
Record BusinessAnalyzer : Type := { calculations : list ROICalculation }.

Definition __init__ : BusinessAnalyzer := {| calculations := [] |}.

(** A method call: it starts from the analyzer's attributes and ends with a
    value or a raised exception, and with the attributes as it left them. *)
Definition M (A : Type) : Type := BusinessAnalyzer -> result A * BusinessAnalyzer.

Definition ret {A : Type} (a : A) : M A := fun self => (Ok a, self).

Definition bind {A B : Type} (m : M A) (k : A -> M B) : M B :=
  fun self =>
    match m self with
    | (Ok a, self') => k a self'
    | (ZeroDivisionError, self') => (ZeroDivisionError, self')
    end.

Notation "'let*' x ':=' c 'in' k" := (bind c (fun x => k))
  (at level 10, x pattern, c at level 100, k at level 200).

(** [a / b] inside a method. *)
Definition div (a b : Q) : M Q := fun self => (py_div a b, self).

(** [self.calculations.append(c)] *)
Definition calculations_append (c : ROICalculation) : M unit :=
  fun self => (Ok tt, {| calculations := calculations self ++ [c] |}).

(** [for x in xs: ys.append(f(x))], and the keys of a sort. *)
Fixpoint for_each {A B : Type} (f : A -> M B) (xs : list A) : M (list B) :=
  match xs with
  | [] => ret []
  | x :: xs' =>
      let* y := f x in
      let* ys := for_each f xs' in
      ret (y :: ys)
  end.

(** [sorted(l, key=k, reverse=True)] once the keys [k(x)] have been computed. *)
Definition sorted_reverse {A : Type} (keys : list Q) (l : list A) : list A :=
  map snd (sort_desc (combine keys l)).

(** [min(a, b)] on floats: [b] when [b < a], else [a]. *)
Definition py_min (a b : float) : float := if PrimFloat.ltb b a then b else a.

(** *** Private helpers *)

Definition _get_hourly_cost (company_metrics : CompanyMetrics) : M Q :=
  match average_hourly_cost company_metrics with
  | Some cost => ret cost
  | None =>
      let revenue := get (annual_revenue company_metrics) 0 in
      let employees := get (employee_count company_metrics) 1%Z in
      if Qltb 0 revenue && (0 <? employees)%Z then
        let annual_labor_cost := revenue * 0.6 in
        let total_hours := (employees * 2000)%Z in
        if (0 <? total_hours)%Z
        then div annual_labor_cost (inject_Z total_hours)
        else ret 75
      else
        let industry := lower (get (industry company_metrics) "default"%string) in
        let benchmarks :=
          dict_get INDUSTRY_BENCHMARKS industry (INDUSTRY_BENCHMARKS !!! "default"%string) in
        ret (typical_hourly_rate benchmarks)
  end.

Definition _calculate_confidence
    (bottleneck : Bottleneck) (company_metrics : CompanyMetrics) : M float :=
  let confidence := 0.5%float in
  let confidence :=
    if truthy_num (time_impact_hours bottleneck) then (confidence + 0.1)%float
    else confidence in
  let confidence :=
    if truthy_num (cost_impact bottleneck) then (confidence + 0.1)%float
    else confidence in
  let confidence :=
    if truthy_str (frequency bottleneck) then (confidence + 0.1)%float
    else confidence in
  let confidence :=
    if truthy_num (annual_revenue company_metrics) then (confidence + 0.1)%float
    else confidence in
  let confidence :=
    if truthy_int (employee_count company_metrics) then (confidence + 0.1)%float
    else confidence in
  ret (py_min confidence 1.0%float).

(** *** calculate_bottleneck_roi *)

Definition complexity_multiplier : gmap string Z :=
  list_to_map
    [("low"%string, 10000%Z); ("medium"%string, 25000%Z); ("high"%string, 50000%Z)].

Definition time_multiplier : gmap string Z :=
  list_to_map [("low"%string, 30%Z); ("medium"%string, 60%Z); ("high"%string, 90%Z)].

Definition calculate_bottleneck_roi
    (bottleneck : Bottleneck) (company_metrics : CompanyMetrics) : M ROICalculation :=
  let* hourly_cost := _get_hourly_cost company_metrics in
  let annual_hours := get (annual_hours_impact bottleneck) 0 in
  let current_cost := annual_hours * hourly_cost in
  let automation_potential := get (automation_potential bottleneck) 0.7 in
  let improved_cost := current_cost * (1 - automation_potential) in
  let annual_savings := current_cost - improved_cost in
  let solution_complexity := get (solution_complexity bottleneck) "medium"%string in
  let implementation_cost :=
    inject_Z (dict_get complexity_multiplier solution_complexity 25000%Z) in
  let time_to_implement := dict_get time_multiplier solution_complexity 60%Z in
  let* roi_payback :=
    if Qltb 0 annual_savings then
      let* r := div (annual_savings - implementation_cost) implementation_cost in
      let* p := div implementation_cost annual_savings in
      ret (r * 100, Fin (p * 12))
    else ret (0, PInf) in
  let* confidence := _calculate_confidence bottleneck company_metrics in
  let roi_calc :=
    {| description := "Automate " ++ get (name bottleneck) "process"%string;
       current_cost := current_cost;
       improved_cost := improved_cost;
       implementation_cost := implementation_cost;
       time_to_implement_days := time_to_implement;
       annual_savings := annual_savings;
       roi_percentage := fst roi_payback;
       payback_period_months := snd roi_payback;
       confidence_level := confidence |} in
  let* _ := calculations_append roi_calc in
  ret roi_calc.

(** *** Rows of the returned dictionaries *)

(** One entry of ["individual_projects"]. *)
Record Project : Type := {
  p_description : string;
  p_annual_savings : Q;
  p_roi_percentage : Q;
  payback_months : extended;
  confidence : float
}.

Record PortfolioSummary : Type := {
  total_current_cost : Q;
  total_improved_cost : Q;
  total_implementation_cost : Q;
  total_annual_savings : Q;
  portfolio_roi_percentage : Q;
  portfolio_payback_months : Q;
  number_of_improvements : nat
}.

(** The advisory strings, by template and interpolated numbers. *)
Inductive Recommendation : Type :=
| QuickWins (count : nat) (savings : Q)
| HighImpact (count : nat) (savings : Q)
| PhasedApproach.

Record Phase : Type := {
  phase : Z;
  phase_name : string;
  duration : string;
  projects : list string;
  investment : Q;
  expected_savings : Q
}.

Record Portfolio : Type := {
  individual_projects : list Project;
  portfolio_summary : PortfolioSummary;
  recommendations : list Recommendation;
  implementation_phases : list Phase
}.

(** *** _generate_recommendations *)

Definition _generate_recommendations
    (calculations : list ROICalculation) : M (list Recommendation) :=
  let recommendations := [] in
  let quick_wins :=
    List.filter
      (fun calc => Qltb 100 (roi_percentage calc)
                   && (time_to_implement_days calc <=? 30)%Z)
      calculations in
  let recommendations :=
    match quick_wins with
    | [] => recommendations
    | _ => recommendations
             ++ [QuickWins (length quick_wins) (py_sum (map annual_savings quick_wins))]
    end in
  let high_impact :=
    List.filter (fun calc => Qltb 50000 (annual_savings calc)) calculations in
  let recommendations :=
    match high_impact with
    | [] => recommendations
    | _ => recommendations
             ++ [HighImpact (length high_impact) (py_sum (map annual_savings high_impact))]
    end in
  let recommendations :=
    if (5 <? length calculations)%nat then recommendations ++ [PhasedApproach]
    else recommendations in
  ret recommendations.

(** *** _create_implementation_phases *)

Definition extended_eqb (a b : extended) : bool :=
  match a, b with
  | Fin x, Fin y => Qeq_bool x y
  | PInf, PInf => true
  | _, _ => false
  end.

(** The [==] that [@dataclass] generates: field by field.  (List
    membership also accepts an identical object; that differs from [==]
    only for a NaN field, which the analyzer never produces.) *)
Definition ROICalculation_eq (a b : ROICalculation) : bool :=
  String.eqb (description a) (description b)
  && Qeq_bool (current_cost a) (current_cost b)
  && Qeq_bool (improved_cost a) (improved_cost b)
  && Qeq_bool (implementation_cost a) (implementation_cost b)
  && (time_to_implement_days a =? time_to_implement_days b)%Z
  && Qeq_bool (annual_savings a) (annual_savings b)
  && Qeq_bool (roi_percentage a) (roi_percentage b)
  && extended_eqb (payback_period_months a) (payback_period_months b)
  && PrimFloat.eqb (confidence_level a) (confidence_level b).

(** [calc in l] *)
Definition py_in (calc : ROICalculation) (l : list ROICalculation) : bool :=
  existsb (fun e => ROICalculation_eq calc e) l.

Definition make_phase (n : Z) (nm dur : string) (ph : list ROICalculation) : Phase :=
  {| phase := n; phase_name := nm; duration := dur;
     projects := map description ph;
     investment := py_sum (map implementation_cost ph);
     expected_savings := py_sum (map annual_savings ph) |}.

Definition _create_implementation_phases
    (calculations : list ROICalculation) : M (list Phase) :=
  let* keys :=
    for_each
      (fun x => div (roi_percentage x) (inject_Z (Z.max (time_to_implement_days x) 1)))
      calculations in
  let sorted_calcs := sorted_reverse keys calculations in
  let phases := [] in
  let phase1 :=
    slice_to 3
      (List.filter
         (fun calc => (time_to_implement_days calc <=? 30)%Z
                      && Qltb 50 (roi_percentage calc))
         sorted_calcs) in
  let phases :=
    match phase1 with
    | [] => phases
    | _ => phases ++ [make_phase 1 "Quick Wins" "0-30 days" phase1]
    end in
  let phase2 :=
    slice_to 3
      (List.filter
         (fun calc => negb (py_in calc phase1)
                      && (time_to_implement_days calc <=? 90)%Z)
         sorted_calcs) in
  let phases :=
    match phase2 with
    | [] => phases
    | _ => phases ++ [make_phase 2 "Core Improvements" "31-90 days" phase2]
    end in
  let phase3 :=
    slice_to 3
      (List.filter (fun calc => negb (py_in calc (phase1 ++ phase2))) sorted_calcs) in
  let phases :=
    match phase3 with
    | [] => phases
    | _ => phases ++ [make_phase 3 "Full Transformation" "91-180 days" phase3]
    end in
  ret phases.

(** *** calculate_portfolio_roi *)

Definition project_of (calc : ROICalculation) : Project :=
  {| p_description := description calc;
     p_annual_savings := annual_savings calc;
     p_roi_percentage := roi_percentage calc;
     payback_months := payback_period_months calc;
     confidence := confidence_level calc |}.

Definition calculate_portfolio_roi
    (bottlenecks : list Bottleneck) (company_metrics : CompanyMetrics) : M Portfolio :=
  let* portfolio_calculations :=
    for_each (fun bottleneck => calculate_bottleneck_roi bottleneck company_metrics)
      bottlenecks in
  let portfolio_calculations :=
    sorted_reverse (map roi_percentage portfolio_calculations) portfolio_calculations in
  let total_current_cost := py_sum (map current_cost portfolio_calculations) in
  let total_improved_cost := py_sum (map improved_cost portfolio_calculations) in
  let total_implementation_cost :=
    py_sum (map implementation_cost portfolio_calculations) in
  let total_annual_savings := py_sum (map annual_savings portfolio_calculations) in
  let* roi_payback :=
    if Qltb 0 total_implementation_cost then
      let* r :=
        div (total_annual_savings - total_implementation_cost) total_implementation_cost in
      let* p := div total_implementation_cost total_annual_savings in
      ret (r * 100, p * 12)
    else ret (0, 0) in
  let* recs := _generate_recommendations portfolio_calculations in
  let* phases := _create_implementation_phases portfolio_calculations in
  ret {| individual_projects := map project_of (slice_to 10 portfolio_calculations);
         portfolio_summary :=
           {| total_current_cost := total_current_cost;
              total_improved_cost := total_improved_cost;
              total_implementation_cost := total_implementation_cost;
              total_annual_savings := total_annual_savings;
              portfolio_roi_percentage := fst roi_payback;
              portfolio_payback_months := snd roi_payback;
              number_of_improvements := length portfolio_calculations |};
         recommendations := recs;
         implementation_phases := phases |}.

(** *** benchmark_against_industry *)

Record RevenueComparison : Type := {
  company : Q;
  industry_average : Q;
  difference_percentage : Q
}.

Inductive ImprovementMessage : Type :=
| ReachingAverage (amount : Q)
| AlreadyAtAverage.

Record Comparison : Type := {
  c_revenue_per_employee : RevenueComparison;
  estimated_billable_percentage : Q;
  estimated_overhead_percentage : Q;
  industry_hourly_rate : Q;
  performance_rating : string;
  improvement_potential : Q;
  improvement_message : ImprovementMessage
}.

Definition benchmark_against_industry (company_metrics : CompanyMetrics) : M Comparison :=
  let industry := lower (get (industry company_metrics) "default"%string) in
  let benchmarks :=
    dict_get INDUSTRY_BENCHMARKS industry (INDUSTRY_BENCHMARKS !!! "default"%string) in
  let employees := get (employee_count company_metrics) 1%Z in
  let revenue := get (annual_revenue company_metrics) 0 in
  let* revenue_per_employee' :=
    if (0 <? employees)%Z then div revenue (inject_Z employees) else ret 0 in
  let* difference :=
    if Qltb 0 (revenue_per_employee benchmarks) then
      let* d :=
        div (revenue_per_employee' - revenue_per_employee benchmarks)
            (revenue_per_employee benchmarks) in
      ret (d * 100)
    else ret 0 in
  let performance :=
    if Qltb 20 difference then "Above Average"%string
    else if Qltb (-20) difference then "Average"%string
    else "Below Average"%string in
  let gap := revenue_per_employee benchmarks - revenue_per_employee' in
  let below := String.eqb performance "Below Average" in
  ret {| c_revenue_per_employee :=
           {| company := revenue_per_employee';
              industry_average := revenue_per_employee benchmarks;
              difference_percentage := difference |};
         estimated_billable_percentage := billable_hours_percentage benchmarks;
         estimated_overhead_percentage := admin_overhead_percentage benchmarks;
         industry_hourly_rate := typical_hourly_rate benchmarks;
         performance_rating := performance;
         improvement_potential := if below then gap * inject_Z employees else 0;
         improvement_message :=
           if below then ReachingAverage (gap * inject_Z employees)
           else AlreadyAtAverage |}.

(** *** generate_executive_summary *)

Inductive RecommendationTier : Type :=
| StronglyRecommended (roi payback : Q)
| Recommended (roi payback : Q)
| WorthConsidering.

(** The recommendation text: the tier sentence, and the sentence on the
    industry benchmark when it is appended. *)
Record ExecutiveRecommendation : Type := {
  tier : RecommendationTier;
  benchmark_sentence : option Q
}.

Definition _generate_executive_recommendation
    (portfolio : Portfolio) (benchmark : Comparison) (company_metrics : CompanyMetrics)
    : M ExecutiveRecommendation :=
  let roi := portfolio_roi_percentage (portfolio_summary portfolio) in
  let payback := portfolio_payback_months (portfolio_summary portfolio) in
  let performance := performance_rating benchmark in
  let recommendation :=
    if Qltb 200 roi && Qltb payback 6 then StronglyRecommended roi payback
    else if Qltb 100 roi && Qltb payback 12 then Recommended roi payback
    else WorthConsidering in
  ret {| tier := recommendation;
         benchmark_sentence :=
           if String.eqb performance "Below Average"
           then Some (improvement_potential benchmark) else None |}.

Record CompanySnapshot : Type := {
  snapshot_name : string;
  employees : Z;
  snapshot_annual_revenue : Q;
  snapshot_industry : string
}.

Record KeyFindings : Type := {
  total_inefficiency_hours_annual : Q;
  total_inefficiency_cost_annual : Q;
  number_of_bottlenecks : nat;
  automation_opportunity : Q
}.

Record RoiHighlights : Type := {
  total_investment_required : Q;
  annual_savings_potential : Q;
  h_roi_percentage : Q;
  h_payback_period_months : Q
}.

Record Summary : Type := {
  company_snapshot : CompanySnapshot;
  key_findings : KeyFindings;
  roi_highlights : RoiHighlights;
  industry_comparison : Comparison;
  top_3_opportunities : list Project;
  executive_recommendation : ExecutiveRecommendation
}.

Definition generate_executive_summary
    (company_metrics : CompanyMetrics) (bottlenecks : list Bottleneck) : M Summary :=
  let* portfolio := calculate_portfolio_roi bottlenecks company_metrics in
  let* benchmark := benchmark_against_industry company_metrics in
  let total_hours_wasted :=
    py_sum (map (fun b => get (annual_hours_impact b) 0) bottlenecks) in
  let total_cost_impact :=
    py_sum (map (fun b => get (annual_cost_impact b) 0) bottlenecks) in
  let* recommendation :=
    _generate_executive_recommendation portfolio benchmark company_metrics in
  ret {| company_snapshot :=
           {| snapshot_name := get (company_name company_metrics) "Company"%string;
              employees := get (employee_count company_metrics) 0%Z;
              snapshot_annual_revenue := get (annual_revenue company_metrics) 0;
              snapshot_industry := get (industry company_metrics) "Unknown"%string |};
         key_findings :=
           {| total_inefficiency_hours_annual := total_hours_wasted;
              total_inefficiency_cost_annual := total_cost_impact;
              number_of_bottlenecks := length bottlenecks;
              automation_opportunity :=
                total_annual_savings (portfolio_summary portfolio) |};
         roi_highlights :=
           {| total_investment_required :=
                total_implementation_cost (portfolio_summary portfolio);
              annual_savings_potential :=
                total_annual_savings (portfolio_summary portfolio);
              h_roi_percentage := portfolio_roi_percentage (portfolio_summary portfolio);
              h_payback_period_months :=
                portfolio_payback_months (portfolio_summary portfolio) |};
         industry_comparison := benchmark;
         top_3_opportunities := slice_to 3 (individual_projects portfolio);
         executive_recommendation := recommendation |}.

End business_analyzer.

(** ** core/business_analyzer.py, the metric analysis

    The remaining methods of [BusinessAnalyzer]: [analyze_business_metrics]
    and the helpers it calls. *)

Module business_analyzer_metrics.
Import business_analyzer.

Definition _categorize_company_size (employee_count : Z) : M string :=
  if (employee_count <? 20)%Z then ret "Micro"%string
  else if (employee_count <? 50)%Z then ret "Small"%string
  else if (employee_count <? 250)%Z then ret "Medium"%string
  else if (employee_count <? 500)%Z then ret "Mid-Market"%string
  else ret "Enterprise"%string.

Definition _calculate_revenue_per_employee (metrics : CompanyMetrics) : M Q :=
  let revenue := get (annual_revenue metrics) 0 in
  let employees := get (employee_count metrics) 1%Z in
  if (0 <? employees)%Z then div revenue (inject_Z employees) else ret 0.

Definition _compare_to_industry (metrics : CompanyMetrics) : M string :=
  let industry := lower (get (industry metrics) "default"%string) in
  let benchmarks :=
    dict_get INDUSTRY_BENCHMARKS industry (INDUSTRY_BENCHMARKS !!! "default"%string) in
  let* revenue_per_employee' := _calculate_revenue_per_employee metrics in
  let benchmark_revenue := revenue_per_employee benchmarks in
  if Qltb (benchmark_revenue * 1.2) revenue_per_employee'
  then ret "Outperforming industry"%string
  else if Qltb (benchmark_revenue * 0.8) revenue_per_employee'
  then ret "Industry average"%string
  else ret "Below industry average"%string.

Definition _assess_automation_readiness (metrics : CompanyMetrics) : M string :=
  let score := 0%Z in
  let employees := get (employee_count metrics) 0%Z in
  let score :=
    if (20 <=? employees)%Z then (score + 2)%Z
    else if (10 <=? employees)%Z then (score + 1)%Z
    else score in
  let revenue := get (annual_revenue metrics) 0 in
  let score :=
    if Qle_bool 5000000 revenue then (score + 2)%Z
    else if Qle_bool 1000000 revenue then (score + 1)%Z
    else score in
  let tech_stack := get (technology_stack metrics) [] in
  let score :=
    if (3 <=? length tech_stack)%nat then (score + 2)%Z
    else if (1 <=? length tech_stack)%nat then (score + 1)%Z
    else score in
  if (5 <=? score)%Z then ret "High - Ready for comprehensive automation"%string
  else if (3 <=? score)%Z then ret "Medium - Ready for targeted automation"%string
  else ret "Low - Start with basic automation"%string.

Definition _assess_growth_potential (metrics : CompanyMetrics) : M string :=
  let employees := get (employee_count metrics) 0%Z in
  if (employees <? 50)%Z then ret "High - Can scale 2-3x with same headcount"%string
  else if (employees <? 200)%Z
  then ret "Medium - Can scale 1.5-2x with same headcount"%string
  else ret "Moderate - Can improve efficiency 20-50%"%string.

Record Analysis : Type := {
  company_size_category : string;
  a_revenue_per_employee : Q;
  a_industry_comparison : string;
  automation_readiness : string;
  growth_potential : string
}.

Definition analyze_business_metrics (metrics : CompanyMetrics) : M Analysis :=
  let* size := _categorize_company_size (get (employee_count metrics) 0%Z) in
  let* rpe := _calculate_revenue_per_employee metrics in
  let* comparison := _compare_to_industry metrics in
  let* readiness := _assess_automation_readiness metrics in
  let* growth := _assess_growth_potential metrics in
  ret {| company_size_category := size;
         a_revenue_per_employee := rpe;
         a_industry_comparison := comparison;
         automation_readiness := readiness;
         growth_potential := growth |}.

End business_analyzer_metrics.

(** ** core/data_pipeline.py, insights

    [DataProcessors.process_insight] and [DataValidators.validate_insight].
    The [data] of an insight record is a dictionary of its own; the record
    around it is the same [DataRecord] class. *)

Module data_pipeline_insights.

Record Insight : Type := {
  consultation_id : option string;
  category : option string;
  insight : option string;
  confidence : option Q;
  potential_value : option Q;
  implementation_effort : option string;
  priority_score : option Q
}.

Record InsightRecord : Type := {
  id : string;
  record_type : string;
  data : Insight
}.

Definition effort_multiplier : gmap string Q :=
  list_to_map [("low"%string, 1.5); ("medium"%string, 1.0); ("high"%string, 0.5)].

Definition set_priority_score (d : Insight) (score : Q) : Insight :=
  {| consultation_id := consultation_id d; category := category d;
     insight := insight d; confidence := confidence d;
     potential_value := potential_value d;
     implementation_effort := implementation_effort d;
     priority_score := Some score |}.

Section Processors.
Variable generate_id : string -> Insight -> string.

Definition process_insight (record : InsightRecord) : InsightRecord :=
  let id' :=
    if String.eqb (id record) "" then generate_id "insight" (data record)
    else id record in
  let data0 := data record in
  let confidence' := get (confidence data0) 0.5 in
  let value := get (potential_value data0) 0 in
  let effort := get (implementation_effort data0) "medium"%string in
  let data1 :=
    set_priority_score data0
      (value * confidence' * dict_get effort_multiplier effort 1.0) in
  {| id := id'; record_type := record_type record; data := data1 |}.
End Processors.

Definition is_present {V : Type} (field : option V) : bool :=
  match field with Some _ => true | None => false end.

Definition validate_insight (record : InsightRecord) : bool :=
  let data0 := data record in
  if negb (is_present (consultation_id data0)) then false
  else if negb (is_present (insight data0)) then false
  else if negb (is_present (confidence data0)) then false
  else
    let confidence' := get (confidence data0) 0 in
    if negb (Qle_bool 0 confidence' && Qle_bool confidence' 1) then false
    else true.

End data_pipeline_insights.

(** ** core/business_doctor_engine.py, the consultation engine

    [BusinessDoctorEngine] without its language model: what the model
    answers (the extracted data, the reply) and the clock are arguments of
    [process_input].  The extracted data is typed as the prompt asks for
    it; of its keys only those that [_update_business_data] reads are
    kept, and an absent key stands for an empty value as well (both are
    skipped by [if x := d.get(key)]).  A call that would raise
    ([list.index], an index out of range) returns [None]. *)

Module business_doctor_session.
Import business_doctor_engine.

Inductive ConversationStage : Type :=
| OPENING
| COMPANY_OVERVIEW
| PAIN_POINTS
| PROCESS_DISCOVERY
| BOTTLENECK_ANALYSIS
| FINANCIAL_IMPACT
| SOLUTION_EXPLORATION
| CLOSING.

(** [stage.value] *)
Definition stage_value (stage : ConversationStage) : string :=
  match stage with
  | OPENING => "opening"
  | COMPANY_OVERVIEW => "company_overview"
  | PAIN_POINTS => "pain_points"
  | PROCESS_DISCOVERY => "process_discovery"
  | BOTTLENECK_ANALYSIS => "bottleneck_analysis"
  | FINANCIAL_IMPACT => "financial_impact"
  | SOLUTION_EXPLORATION => "solution_exploration"
  | CLOSING => "closing"
  end.

(** [list(ConversationStage)]: the members in definition order. *)
Definition stage_order : list ConversationStage :=
  [OPENING; COMPANY_OVERVIEW; PAIN_POINTS; PROCESS_DISCOVERY;
   BOTTLENECK_ANALYSIS; FINANCIAL_IMPACT; SOLUTION_EXPLORATION; CLOSING].

Definition stage_eqb (a b : ConversationStage) : bool :=
  String.eqb (stage_value a) (stage_value b).

(** [l.index(x)] *)
Fixpoint list_index (x : ConversationStage) (l : list ConversationStage) : option nat :=
  match l with
  | [] => None
  | y :: l' => if stage_eqb y x then Some O else option_map S (list_index x l')
  end.

Record BusinessMetrics : Type := {
  company_name : string;
  industry : string;
  employee_count : Z;
  annual_revenue : Q;
  main_services : list string;
  technology_stack : list string;
  current_challenges : list string
}.

Record AIInsight : Type := {
  category : string;
  insight : string;
  confidence : Q;
  supporting_data : list string;
  potential_value : Q;
  implementation_effort : string
}.

Record Message : Type := {
  role : string;
  content : string;
  timestamp : string
}.

Record Engine : Type := {
  metrics : BusinessMetrics;
  bottlenecks : list ProcessBottleneck;
  insights : list AIInsight;
  conversation_history : list Message;
  current_stage : ConversationStage
}.

Definition __init__ : Engine :=
  {| metrics :=
       {| company_name := ""; industry := ""; employee_count := 0; annual_revenue := 0;
          main_services := []; technology_stack := []; current_challenges := [] |};
     bottlenecks := [];
     insights := [];
     conversation_history := [];
     current_stage := OPENING |}.

(** *** The extracted data *)

Record CompanyInfo : Type := {
  ci_name : option string;
  ci_employee_count : option Z;
  ci_industry : option string
}.

Record FinancialData : Type := { fd_revenue : option Q }.

(** An element of the ["challenges"] list: a string, or some other value. *)
Inductive Challenge : Type :=
| ChallengeText (text : string)
| ChallengeOther.

Record ExtractedData : Type := {
  company_info : option CompanyInfo;
  financial_data : option FinancialData;
  challenges : option (list Challenge)
}.

(** *** Attribute assignments *)

Definition set_metrics (self : Engine) (m : BusinessMetrics) : Engine :=
  {| metrics := m; bottlenecks := bottlenecks self; insights := insights self;
     conversation_history := conversation_history self;
     current_stage := current_stage self |}.

Definition set_company_name (m : BusinessMetrics) (v : string) : BusinessMetrics :=
  {| company_name := v; industry := industry m; employee_count := employee_count m;
     annual_revenue := annual_revenue m; main_services := main_services m;
     technology_stack := technology_stack m;
     current_challenges := current_challenges m |}.

Definition set_employee_count (m : BusinessMetrics) (v : Z) : BusinessMetrics :=
  {| company_name := company_name m; industry := industry m; employee_count := v;
     annual_revenue := annual_revenue m; main_services := main_services m;
     technology_stack := technology_stack m;
     current_challenges := current_challenges m |}.

Definition set_industry (m : BusinessMetrics) (v : string) : BusinessMetrics :=
  {| company_name := company_name m; industry := v; employee_count := employee_count m;
     annual_revenue := annual_revenue m; main_services := main_services m;
     technology_stack := technology_stack m;
     current_challenges := current_challenges m |}.

Definition set_annual_revenue (m : BusinessMetrics) (v : Q) : BusinessMetrics :=
  {| company_name := company_name m; industry := industry m;
     employee_count := employee_count m; annual_revenue := v;
     main_services := main_services m; technology_stack := technology_stack m;
     current_challenges := current_challenges m |}.

Definition bottlenecks_append (self : Engine) (b : ProcessBottleneck) : Engine :=
  {| metrics := metrics self; bottlenecks := bottlenecks self ++ [b];
     insights := insights self; conversation_history := conversation_history self;
     current_stage := current_stage self |}.

Definition history_append (self : Engine) (msg : Message) : Engine :=
  {| metrics := metrics self; bottlenecks := bottlenecks self;
     insights := insights self;
     conversation_history := conversation_history self ++ [msg];
     current_stage := current_stage self |}.

Definition set_current_stage (self : Engine) (stage : ConversationStage) : Engine :=
  {| metrics := metrics self; bottlenecks := bottlenecks self;
     insights := insights self; conversation_history := conversation_history self;
     current_stage := stage |}.

(** *** _update_business_data *)

Definition challenge_bottleneck (challenge : string) : ProcessBottleneck :=
  {| name := "Challenge: " ++ substring 0 50 challenge;
     description := challenge;
     department := "TBD";
     frequency := "daily";
     time_impact_hours := 5;
     cost_impact := 375;
     automation_potential := 0.7;
     priority := "medium" |}.

Definition _update_business_data (extracted_data : ExtractedData) (self : Engine) : Engine :=
  let self :=
    match company_info extracted_data with
    | Some info =>
        let self :=
          match ci_name info with
          | Some v => set_metrics self (set_company_name (metrics self) v)
          | None => self
          end in
        let self :=
          match ci_employee_count info with
          | Some v => set_metrics self (set_employee_count (metrics self) v)
          | None => self
          end in
        match ci_industry info with
        | Some v => set_metrics self (set_industry (metrics self) v)
        | None => self
        end
    | None => self
    end in
  let self :=
    match financial_data extracted_data with
    | Some fin =>
        match fd_revenue fin with
        | Some v => set_metrics self (set_annual_revenue (metrics self) v)
        | None => self
        end
    | None => self
    end in
  match challenges extracted_data with
  | Some cs =>
      fold_left
        (fun self challenge =>
           match challenge with
           | ChallengeText text =>
               if (10 <? String.length text)%nat
               then bottlenecks_append self (challenge_bottleneck text)
               else self
           | ChallengeOther => self
           end)
        cs self
  | None => self
  end.

(** *** _advance_conversation_stage *)

Definition _advance_conversation_stage (self : Engine) : option Engine :=
  match list_index (current_stage self) stage_order with
  | None => None
  | Some current_index =>
      if stage_eqb (current_stage self) OPENING
         && negb (String.eqb (company_name (metrics self)) "")
      then Some (set_current_stage self COMPANY_OVERVIEW)
      else if stage_eqb (current_stage self) COMPANY_OVERVIEW
              && (0 <? employee_count (metrics self))%Z
      then Some (set_current_stage self PAIN_POINTS)
      else if stage_eqb (current_stage self) PAIN_POINTS
              && (0 <? length (bottlenecks self))%nat
      then Some (set_current_stage self PROCESS_DISCOVERY)
      else if (20 <? length (conversation_history self))%nat then
        if (current_index <? length stage_order - 1)%nat then
          match stage_order !! (current_index + 1)%nat with
          | Some next => Some (set_current_stage self next)
          | None => None
          end
        else Some self
      else Some self
  end.

(** *** process_input *)

Record MetricsSummary : Type := {
  ms_company_name : string;
  ms_employee_count : Z;
  ms_industry : string;
  ms_revenue : Q;
  challenges_identified : nat;
  ms_bottlenecks_found : nat
}.

Definition _get_metrics_summary (self : Engine) : MetricsSummary :=
  {| ms_company_name := company_name (metrics self);
     ms_employee_count := employee_count (metrics self);
     ms_industry := industry (metrics self);
     ms_revenue := annual_revenue (metrics self);
     challenges_identified := length (current_challenges (metrics self));
     ms_bottlenecks_found := length (bottlenecks self) |}.

(** What the outside supplies during one call: the clock at the two
    appends, the data extracted from the input and the reply. *)
Record Environment : Type := {
  now_user : string;
  extracted : ExtractedData;
  ai_response : string;
  now_assistant : string
}.

Record ProcessResult : Type := {
  response : string;
  extracted_data : ExtractedData;
  pr_current_stage : string;
  metrics_updated : MetricsSummary;
  bottlenecks_found : nat;
  insights_generated : nat
}.

Definition process_input (user_input : string) (env : Environment) (self : Engine)
    : option (ProcessResult * Engine) :=
  let self :=
    history_append self
      {| role := "user"; content := user_input; timestamp := now_user env |} in
  let extracted_data' := extracted env in
  let self := _update_business_data extracted_data' self in
  let ai_response' := ai_response env in
  let self :=
    history_append self
      {| role := "assistant"; content := ai_response';
         timestamp := now_assistant env |} in
  match _advance_conversation_stage self with
  | None => None
  | Some self =>
      Some ({| response := ai_response';
               extracted_data := extracted_data';
               pr_current_stage := stage_value (current_stage self);
               metrics_updated := _get_metrics_summary self;
               bottlenecks_found := length (bottlenecks self);
               insights_generated := length (insights self) |},
            self)
  end.

(** *** generate_diagnostic_report *)

Record BottleneckRow : Type := {
  row_name : string;
  row_description : string;
  annual_hours_impact : Q;
  annual_cost_impact : Q;
  row_automation_potential : Q;
  row_priority : string
}.

Record TotalImpact : Type := {
  annual_hours_wasted : Q;
  total_annual_cost_impact : Q;
  potential_roi : Q
}.

(** One recommendation; the two formatted savings are kept as the numbers
    that are formatted. *)
Record EngineRecommendation : Type := {
  rec_priority : nat;
  rec_bottleneck : string;
  solution : string;
  expected_time_savings : Q;
  expected_cost_savings : Q;
  rec_implementation_effort : Q
}.

Record RoadmapPhase : Type := {
  rm_phase : Z;
  days : string;
  title : string;
  activities : list string
}.

Record DiagnosticReport : Type := {
  company_overview : BusinessMetrics;
  bottlenecks_identified : list BottleneckRow;
  total_impact : TotalImpact;
  recommendations : list EngineRecommendation;
  implementation_roadmap : list RoadmapPhase;
  conversation_duration : nat;
  report_generated : string
}.

Definition _generate_recommendations (self : Engine) : list EngineRecommendation :=
  let sorted_bottlenecks :=
    business_analyzer.sorted_reverse
      (map (fun b => snd (calculate_annual_impact b)) (bottlenecks self))
      (bottlenecks self) in
  imap
    (fun i bottleneck =>
       {| rec_priority := (i + 1)%nat;
          rec_bottleneck := name bottleneck;
          solution := "Implement AI-powered automation for " ++ name bottleneck;
          expected_time_savings := fst (calculate_annual_impact bottleneck);
          expected_cost_savings := snd (calculate_annual_impact bottleneck);
          rec_implementation_effort := automation_potential bottleneck |})
    (slice_to 5 sorted_bottlenecks).

Definition _generate_roadmap (self : Engine) : list RoadmapPhase :=
  [{| rm_phase := 1; days := "1-30"; title := "Quick Wins";
      activities := ["Implement automated email responses";
                     "Set up basic workflow automation";
                     "Deploy initial AI assistants"]%string |};
   {| rm_phase := 2; days := "31-60"; title := "Core Systems";
      activities := ["Integrate AI with existing tools";
                     "Automate primary bottlenecks";
                     "Train team on new systems"]%string |};
   {| rm_phase := 3; days := "61-90"; title := "Scale & Optimize";
      activities := ["Expand automation across departments";
                     "Measure and optimize performance";
                     "Plan next phase of transformation"]%string |}].

Definition generate_diagnostic_report (now : string) (self : Engine) : DiagnosticReport :=
  let total_hours_impact :=
    py_sum
      (map (fun b => time_impact_hours b * 52)
         (List.filter (fun b => String.eqb (frequency b) "weekly") (bottlenecks self))) in
  let total_cost_impact :=
    py_sum
      (map (fun b => cost_impact b * 52)
         (List.filter (fun b => String.eqb (frequency b) "weekly") (bottlenecks self))) in
  {| company_overview := metrics self;
     bottlenecks_identified :=
       map (fun b =>
              {| row_name := name b;
                 row_description := description b;
                 annual_hours_impact := fst (calculate_annual_impact b);
                 annual_cost_impact := snd (calculate_annual_impact b);
                 row_automation_potential := automation_potential b;
                 row_priority := priority b |})
         (bottlenecks self);
     total_impact :=
       {| annual_hours_wasted := total_hours_impact;
          total_annual_cost_impact := total_cost_impact;
          potential_roi := total_cost_impact * 0.7 |};
     recommendations := _generate_recommendations self;
     implementation_roadmap := _generate_roadmap self;
     conversation_duration := length (conversation_history self);
     report_generated := now |}.

End business_doctor_session.

(** * Vocabulary of the statements

    What the theorems below are stated with: the spec's own wording of a
    table and of a selection, the closed forms of what the methods compute,
    and sample inputs. *)

Import business_analyzer.

(** ** The spec's wording *)

(** The frequency table as the spec words it, with the fallback left open. *)
Definition spec_occurrences (fallback : Z) (f : string) : Z :=
  if String.eqb f "daily" then 250
  else if String.eqb f "weekly" then 52
  else if String.eqb f "monthly" then 12
  else if String.eqb f "quarterly" then 4
  else fallback.

(** The spec's wording of the selection: go through the list in order and
    keep the first [n] elements that qualify. *)
Fixpoint first_qualifying {A : Type} (n : nat) (p : A -> bool) (l : list A) : list A :=
  match n, l with
  | O, _ => []
  | _, [] => []
  | S n', x :: l' =>
      if p x then x :: first_qualifying n' p l' else first_qualifying n p l'
  end.

(** The spec's wording of the result: the phases in order, a phase without
    projects left out. *)
Definition phase_if_any (n : Z) (nm dur : string) (ph : list ROICalculation)
    : list Phase :=
  match ph with
  | [] => []
  | _ => [make_phase n nm dur ph]
  end.

Definition spec_phases (phase1 phase2 phase3 : list ROICalculation) : list Phase :=
  phase_if_any 1 "Quick Wins" "0-30 days" phase1
  ++ phase_if_any 2 "Core Improvements" "31-90 days" phase2
  ++ phase_if_any 3 "Full Transformation" "91-180 days" phase3.



(** ** Sorted lists *)

(** Keys in non-increasing order, every element against all later ones. *)
Definition descending {A : Type} (l : list (Q * A)) : Prop :=
  StronglySorted (fun x y => fst y <= fst x) l.

(** A list with the sort key of each element. *)
Definition keyed {A : Type} (key : A -> Q) (l : list A) : list (Q * A) :=
  map (fun x => (key x, x)) l.

(** ** Method calls

    [runs m r ext]: from every state of the analyzer, the call [m] ends
    with [r] (a value, or the exception) and has appended [ext] to
    [self.calculations], whatever the list held before. *)

Definition runs {A : Type} (m : M A) (r : result A) (ext : list ROICalculation) : Prop :=
  forall self : BusinessAnalyzer,
    m self = (r, {| calculations := calculations self ++ ext |}).

(** How a call uses the analyzer: its outcome [r] and the records [ext] that
    it appends to [self.calculations] are the same from every state, and
    [ext] has [n] entries. *)
Definition appends_only {A : Type} (m : M A) (n : nat) : Prop :=
  exists (r : result A) (ext : list ROICalculation),
    length ext = n
    /\ forall self : BusinessAnalyzer,
         m self = (r, {| calculations := calculations self ++ ext |}).

(** ** Closed forms

    What a method returns, with the divisions that are shown below never
    to raise written as quotients. *)

Definition hourly_cost_of (company_metrics : CompanyMetrics) : Q :=
  match average_hourly_cost company_metrics with
  | Some cost => cost
  | None =>
      let revenue := get (annual_revenue company_metrics) 0 in
      let employees := get (employee_count company_metrics) 1%Z in
      if Qltb 0 revenue && (0 <? employees)%Z
      then revenue * 0.6 / inject_Z (employees * 2000)
      else
        typical_hourly_rate
          (dict_get INDUSTRY_BENCHMARKS
             (lower (get (industry company_metrics) "default"%string))
             (INDUSTRY_BENCHMARKS !!! "default"%string))
  end.

(** The confidence for given truth values of the five data fields. *)
Definition confidence_from (t c f r e : bool) : float :=
  let confidence := 0.5%float in
  let confidence := if t then (confidence + 0.1)%float else confidence in
  let confidence := if c then (confidence + 0.1)%float else confidence in
  let confidence := if f then (confidence + 0.1)%float else confidence in
  let confidence := if r then (confidence + 0.1)%float else confidence in
  let confidence := if e then (confidence + 0.1)%float else confidence in
  py_min confidence 1.0%float.

Definition confidence_of (bottleneck : Bottleneck) (company_metrics : CompanyMetrics) : float :=
  confidence_from
    (truthy_num (time_impact_hours bottleneck))
    (truthy_num (cost_impact bottleneck))
    (truthy_str (frequency bottleneck))
    (truthy_num (annual_revenue company_metrics))
    (truthy_int (employee_count company_metrics)).

(** The record that [calculate_bottleneck_roi] builds, with the divisions
    that are known to succeed written as quotients. *)
Definition roi_of (bottleneck : Bottleneck) (company_metrics : CompanyMetrics)
    : ROICalculation :=
  let hourly_cost := hourly_cost_of company_metrics in
  let current_cost := get (annual_hours_impact bottleneck) 0 * hourly_cost in
  let improved_cost := current_cost * (1 - get (automation_potential bottleneck) 0.7) in
  let annual_savings := current_cost - improved_cost in
  let solution_complexity := get (solution_complexity bottleneck) "medium"%string in
  let implementation_cost :=
    inject_Z (dict_get complexity_multiplier solution_complexity 25000%Z) in
  {| description := "Automate " ++ get (name bottleneck) "process"%string;
     current_cost := current_cost;
     improved_cost := improved_cost;
     implementation_cost := implementation_cost;
     time_to_implement_days := dict_get time_multiplier solution_complexity 60%Z;
     annual_savings := annual_savings;
     roi_percentage :=
       if Qltb 0 annual_savings
       then (annual_savings - implementation_cost) / implementation_cost * 100
       else 0;
     payback_period_months :=
       if Qltb 0 annual_savings
       then Fin (implementation_cost / annual_savings * 12)
       else PInf;
     confidence_level := confidence_of bottleneck company_metrics |}.

(** The key of the phase ordering: roi_percentage / max(time_to_implement_days, 1). *)
Definition phase_key (calc : ROICalculation) : Q :=
  roi_percentage calc / inject_Z (Z.max (time_to_implement_days calc) 1).

(** The per-item records of a portfolio, in input order, and their ranking. *)
Definition portfolio_calcs (bottlenecks : list Bottleneck) (company_metrics : CompanyMetrics)
    : list ROICalculation :=
  map (fun b => roi_of b company_metrics) bottlenecks.

Definition ranked_calcs (bottlenecks : list Bottleneck) (company_metrics : CompanyMetrics)
    : list ROICalculation :=
  sorted_reverse
    (map roi_percentage (portfolio_calcs bottlenecks company_metrics))
    (portfolio_calcs bottlenecks company_metrics).

(** ** Sample inputs

    The company of the module's own test run, and bottleneck dictionaries
    as the presentation layer builds them. *)

Definition smith_law_firm : CompanyMetrics :=
  {| company_name := Some "Smith Law Firm"%string; industry := Some "legal"%string;
     employee_count := Some 45%Z; annual_revenue := Some 8500000;
     average_hourly_cost := None; technology_stack := None |}.

Definition bottleneck_dict (nm : string) (hours potential : Q) (complexity : string)
    : Bottleneck :=
  {| name := Some nm; frequency := None; time_impact_hours := None;
     cost_impact := None; annual_hours_impact := Some hours;
     annual_cost_impact := None; automation_potential := Some potential;
     solution_complexity := Some complexity; priority := None |}.

(** Twelve candidate automations; "p03" and "p07" have the same figures,
    "p05" and "p09" save nothing. *)
Definition twelve_bottlenecks : list Bottleneck :=
  [bottleneck_dict "p01" 1040 0.8 "medium"; bottleneck_dict "p02" 520 0.7 "low";
   bottleneck_dict "p03" 800 0.5 "medium"; bottleneck_dict "p04" 2000 0.9 "high";
   bottleneck_dict "p05" 300 0 "low"; bottleneck_dict "p06" 1400 0.6 "medium";
   bottleneck_dict "p07" 800 0.5 "medium"; bottleneck_dict "p08" 250 0.7 "low";
   bottleneck_dict "p09" 0 0.7 "high"; bottleneck_dict "p10" 1200 0.4 "low";
   bottleneck_dict "p11" 100 0.3 "medium"; bottleneck_dict "p12" 640 0.8 "low"].

(** Per-item records: a quick win (30 days, ROI 180) under a given name, a
    slower project (60 days, ROI 60), and a list in which the first quick win
    occurs twice. *)
Definition quick_win (nm : string) : ROICalculation :=
  {| description := "Automate " ++ nm; current_cost := 40000;
     improved_cost := 12000; implementation_cost := 10000;
     time_to_implement_days := 30; annual_savings := 28000;
     roi_percentage := 180; payback_period_months := Fin (30 # 7);
     confidence_level := 0.5%float |}.



(** A bottleneck record as the pipeline receives it. *)
Definition observed (f : option string) (hours cost : Q) : data_pipeline.DataRecord :=
  {| data_pipeline.id := "b-1"; data_pipeline.record_type := "bottleneck";
     data_pipeline.data := {| name := Some "Manual client intake"%string; frequency := f;
                time_impact_hours := Some hours; cost_impact := Some cost;
                annual_hours_impact := None; annual_cost_impact := None;
                automation_potential := None; solution_complexity := None;
                priority := None |} |}.

(** ** Consultation sessions *)

(** The position of a stage in the definition order of
    [ConversationStage], as [stage_order.index] finds it. *)
Definition stage_index (stage : business_doctor_session.ConversationStage) : nat :=
  default O
    (business_doctor_session.list_index stage business_doctor_session.stage_order).

(** The challenges that become bottlenecks: the strings of more than ten
    characters, in order. *)
Definition bottleneck_challenges (cs : list business_doctor_session.Challenge)
    : list string :=
  flat_map
    (fun c =>
       match c with
       | business_doctor_session.ChallengeText text =>
           if (10 <? String.length text)%nat then [text] else []
       | business_doctor_session.ChallengeOther => []
       end)
    cs.

(** A session: [process_input] called on each input in turn, each call
    with what the outside supplied during it. *)
Fixpoint run_inputs (inputs : list (string * business_doctor_session.Environment))
    (self : business_doctor_session.Engine)
    : option business_doctor_session.Engine :=
  match inputs with
  | [] => Some self
  | (user_input, env) :: rest =>
      match business_doctor_session.process_input user_input env self with
      | None => None
      | Some (_, self') => run_inputs rest self'
      end
  end.

(** The challenges extracted during a session, in order. *)
Definition session_challenges
    (inputs : list (string * business_doctor_session.Environment)) : list string :=
  flat_map
    (fun input =>
       bottleneck_challenges
         (default []
            (business_doctor_session.challenges
               (business_doctor_session.extracted (snd input)))))
    inputs.

(** * Verification *)

(** ** Numbers and tables *)

Lemma Qltb_true (x y : Q) : Qltb x y = true <-> x < y.
Proof.
  unfold Qltb. rewrite negb_true_iff.
  split; intros H.
  - apply Qnot_le_lt. intros Hle. apply Qle_bool_iff in Hle. congruence.
  - destruct (Qle_bool y x) eqn:E; [|reflexivity].
    apply Qle_bool_iff in E. exfalso. exact (Qlt_not_le _ _ H E).
Qed.

Lemma Qltb_false (x y : Q) : Qltb x y = false <-> y <= x.
Proof.
  unfold Qltb. rewrite negb_false_iff. apply Qle_bool_iff.
Qed.

Lemma py_div_ok (a b : Q) : ~ b == 0 -> py_div a b = Ok (a / b).
Proof.
  intros Hb. unfold py_div.
  destruct (Qeq_bool b 0) eqn:E; [|reflexivity].
  apply Qeq_bool_iff in E. contradiction.
Qed.

Lemma py_div_zero (a b : Q) : b == 0 -> py_div a b = ZeroDivisionError.
Proof.
  intros Hb. unfold py_div. apply Qeq_bool_iff in Hb. now rewrite Hb.
Qed.

Lemma inject_Z_nonzero (z : Z) : z <> 0%Z -> ~ inject_Z z == 0.
Proof.
  intros Hz H. apply Hz. unfold Qeq in H. simpl in H. lia.
Qed.

Lemma engine_frequency_get (k : string) (d : Z) :
  dict_get business_doctor_engine.frequency_multiplier k d = spec_occurrences d k.
Proof.
  unfold dict_get, spec_occurrences, business_doctor_engine.frequency_multiplier.
  cbn [list_to_map foldr uncurry fst snd].
  destruct (String.eqb_spec k "daily") as [->|?]; [reflexivity|].
  destruct (String.eqb_spec k "weekly") as [->|?]; [reflexivity|].
  destruct (String.eqb_spec k "monthly") as [->|?]; [reflexivity|].
  destruct (String.eqb_spec k "quarterly") as [->|?]; [reflexivity|].
  rewrite !lookup_insert_ne by congruence. now rewrite lookup_empty.
Qed.

Lemma pipeline_frequency_get (k : string) (d : Z) :
  dict_get data_pipeline.frequency_multiplier k d = spec_occurrences d k.
Proof. exact (engine_frequency_get k d). Qed.

Lemma spec_occurrences_unrecognized (fallback : Z) (f : string) :
  f <> "daily"%string -> f <> "weekly"%string ->
  f <> "monthly"%string -> f <> "quarterly"%string ->
  spec_occurrences fallback f = fallback.
Proof.
  intros H1 H2 H3 H4. unfold spec_occurrences.
  apply String.eqb_neq in H1, H2, H3, H4. now rewrite H1, H2, H3, H4.
Qed.

(** ** Annualisation and default priority *)

Section Annualize.
Import data_pipeline.

(** C2 (as amended).  [ProcessBottleneck.calculate_annual_impact] returns
    (time_impact_hours * m, cost_impact * m) where m is 250, 52, 12, 4 for
    the lower-cased frequency "daily", "weekly", "monthly", "quarterly" and
    12 for every other string; [DataProcessors.process_bottleneck] stores
    the same two products with the same four multipliers, but with m = 52
    for every unrecognized frequency and for a missing one (missing hours
    or cost count as 0). *)
Theorem annualize_scales_by_frequency :
  (forall self : business_doctor_engine.ProcessBottleneck,
     let m :=
       inject_Z (spec_occurrences 12 (lower (business_doctor_engine.frequency self))) in
     business_doctor_engine.calculate_annual_impact self
     = (business_doctor_engine.time_impact_hours self * m,
        business_doctor_engine.cost_impact self * m))
  /\
  (forall (generate_id : string -> Bottleneck -> string) (record : DataRecord),
     let d := data record in
     let m :=
       inject_Z
         (match frequency d with
          | Some f => spec_occurrences 52 f
          | None => 52%Z
          end) in
     let d' := data (process_bottleneck generate_id record) in
     annual_hours_impact d' = Some (get (time_impact_hours d) 0 * m)
     /\ annual_cost_impact d' = Some (get (cost_impact d) 0 * m)).
Proof.
  split.
  - intros self. cbv zeta. unfold business_doctor_engine.calculate_annual_impact.
    now rewrite engine_frequency_get.
  - intros generate_id record. cbv zeta.
    unfold process_bottleneck. cbv zeta. rewrite pipeline_frequency_get.
    assert (Hm : spec_occurrences 52 (get (frequency (data record)) "weekly"%string)
                 = match frequency (data record) with
                   | Some f => spec_occurrences 52 f
                   | None => 52%Z
                   end)
      by (destruct (frequency (data record)); reflexivity).
    rewrite Hm.
    destruct (priority (set_annual _ _ _)) eqn:Ep; [split; reflexivity|].
    repeat match goal with |- context [if ?c then _ else _] => destruct c end;
      split; reflexivity.
Qed.

(** C2, counterexample to the claim as stated: in the pipeline a bottleneck
    of 1 hour and 1 unit of cost per occurrence with the unrecognized
    frequency "yearly" is annualised to 52 hours and 52 units, not to 12. *)
Lemma annualize_pipeline_unrecognized_is_weekly :
  let d' := data (process_bottleneck (fun _ _ => ""%string) (observed (Some "yearly"%string) 1 1)) in
  annual_hours_impact d' = Some 52
  /\ annual_cost_impact d' = Some 52
  /\ Qeq_bool 52 (1 * 12) = false.
Proof. repeat split. Qed.

(** C9.  When the record carries no priority, the priority that
    [process_bottleneck] derives from the annual cost impact it has just
    stored is "critical" iff the impact exceeds 100,000, "high" iff it is
    in (50,000, 100,000], "medium" iff it is in (10,000, 50,000], and "low"
    iff it is at most 10,000. *)
Theorem default_priority_tiers
    (generate_id : string -> Bottleneck -> string) (record : DataRecord) :
  priority (data record) = None ->
  let d' := data (process_bottleneck generate_id record) in
  exists aci : Q,
    annual_cost_impact d' = Some aci
    /\ (priority d' = Some "critical"%string <-> 100000 < aci)
    /\ (priority d' = Some "high"%string <-> 50000 < aci <= 100000)
    /\ (priority d' = Some "medium"%string <-> 10000 < aci <= 50000)
    /\ (priority d' = Some "low"%string <-> aci <= 10000).
Proof.
  intros Hp. cbv zeta. unfold process_bottleneck. cbv zeta.
  set (m := inject_Z _).
  set (d1 := set_annual _ _ _).
  assert (Hp1 : priority d1 = None) by exact Hp.
  rewrite Hp1.
  set (aci := get (annual_cost_impact d1) 0).
  exists aci. split.
  { destruct (Qltb 100000 aci), (Qltb 50000 aci), (Qltb 10000 aci); reflexivity. }
  destruct (Qltb 100000 aci) eqn:E1;
    [apply Qltb_true in E1 | apply Qltb_false in E1];
    (destruct (Qltb 50000 aci) eqn:E2;
       [apply Qltb_true in E2 | apply Qltb_false in E2]);
    (destruct (Qltb 10000 aci) eqn:E3;
       [apply Qltb_true in E3 | apply Qltb_false in E3]);
    cbn [priority set_priority];
    repeat split; intros; try discriminate; try lra; try reflexivity;
    try (exfalso; lra).
Qed.

(** C9, witness: 25,000 per quarter is exactly 100,000 a year. *)
Lemma default_priority_tiers_witness :
  priority (data (observed (Some "quarterly"%string) 8 25000)) = None
  /\ exists aci : Q,
       annual_cost_impact
         (data (process_bottleneck (fun _ _ => ""%string)
                  (observed (Some "quarterly"%string) 8 25000))) = Some aci
       /\ (priority (data (process_bottleneck (fun _ _ => ""%string)
                     (observed (Some "quarterly"%string) 8 25000)))
            = Some "critical"%string <-> 100000 < aci)
       /\ (priority (data (process_bottleneck (fun _ _ => ""%string)
                     (observed (Some "quarterly"%string) 8 25000)))
            = Some "high"%string <-> 50000 < aci <= 100000)
       /\ (priority (data (process_bottleneck (fun _ _ => ""%string)
                     (observed (Some "quarterly"%string) 8 25000)))
            = Some "medium"%string <-> 10000 < aci <= 50000)
       /\ (priority (data (process_bottleneck (fun _ _ => ""%string)
                     (observed (Some "quarterly"%string) 8 25000)))
            = Some "low"%string <-> aci <= 10000).
Proof.
  split; [reflexivity|].
  apply (default_priority_tiers (fun _ _ => ""%string)
           (observed (Some "quarterly"%string) 8 25000)).
  reflexivity.
Defined.

(** An annual cost impact of exactly 100,000 is "high"; 120,000 is
    "critical" and 5,000 is "low". *)
Example default_priority_boundary :
  priority (data (process_bottleneck (fun _ _ => ""%string)
              (observed (Some "quarterly"%string) 8 25000))) = Some "high"%string
  /\ priority (data (process_bottleneck (fun _ _ => ""%string)
                 (observed (Some "monthly"%string) 8 10000))) = Some "critical"%string
  /\ priority (data (process_bottleneck (fun _ _ => ""%string)
                 (observed (Some "quarterly"%string) 8 1250))) = Some "low"%string.
Proof. repeat split. Qed.

(** The spec's scenario: 20 hours and 3,000 a week are 1,040 hours and
    156,000 a year, a "critical" bottleneck. *)
Example weekly_client_intake :
  let d' := data (process_bottleneck (fun _ _ => ""%string)
                    (observed (Some "weekly"%string) 20 3000)) in
  annual_hours_impact d' = Some 1040
  /\ annual_cost_impact d' = Some 156000
  /\ priority d' = Some "critical"%string.
Proof. repeat split. Qed.

End Annualize.

(** ** The analyzer's methods, run

    [runs m r ext]: from every state of the analyzer, the call [m] ends
    with [r] (a value, or the exception) and has appended [ext] to
    [self.calculations], whatever the list held before. *)

Lemma runs_ret {A : Type} (a : A) : runs (ret a) (Ok a) [].
Proof. intros [cs]. unfold ret. cbn. now rewrite app_nil_r. Qed.

Lemma runs_div (a b : Q) : runs (div a b) (py_div a b) [].
Proof. intros [cs]. unfold div. cbn. now rewrite app_nil_r. Qed.

Lemma runs_div_ok (a b : Q) : ~ b == 0 -> runs (div a b) (Ok (a / b)) [].
Proof. intros Hb. rewrite <- (py_div_ok a b Hb). apply runs_div. Qed.

Lemma runs_append (c : ROICalculation) : runs (calculations_append c) (Ok tt) [c].
Proof. intros self. reflexivity. Qed.

Lemma runs_bind {A B : Type} (m : M A) (k : A -> M B) a e1 r e2 :
  runs m (Ok a) e1 -> runs (k a) r e2 -> runs (bind m k) r (e1 ++ e2).
Proof.
  intros Hm Hk self. unfold bind. rewrite Hm, Hk. cbn. now rewrite app_assoc.
Qed.

Lemma runs_bind_raise {A B : Type} (m : M A) (k : A -> M B) e1 :
  runs m ZeroDivisionError e1 -> runs (bind m k) ZeroDivisionError e1.
Proof. intros Hm self. unfold bind. now rewrite Hm. Qed.

Lemma runs_bind_pure {A B : Type} (m : M A) (k : A -> M B) a r e :
  runs m (Ok a) [] -> runs (k a) r e -> runs (bind m k) r e.
Proof. intros Hm Hk. exact (runs_bind m k a [] r e Hm Hk). Qed.

Lemma runs_for_each {A B : Type} (f : A -> M B) (g : A -> B)
    (e : A -> list ROICalculation) (xs : list A) :
  (forall x, runs (f x) (Ok (g x)) (e x)) ->
  runs (for_each f xs) (Ok (map g xs)) (concat (map e xs)).
Proof.
  intros Hf. induction xs as [|x xs IH]; cbn [for_each map concat].
  - apply runs_ret.
  - eapply runs_bind; [apply Hf|].
    rewrite <- (app_nil_r (concat (map e xs))).
    eapply runs_bind; [apply IH|]. apply runs_ret.
Qed.

(** *** Hourly cost and confidence *)

Lemma _get_hourly_cost_runs (company_metrics : CompanyMetrics) :
  runs (_get_hourly_cost company_metrics) (Ok (hourly_cost_of company_metrics)) [].
Proof.
  unfold _get_hourly_cost, hourly_cost_of.
  destruct (average_hourly_cost company_metrics) as [cost|]; [apply runs_ret|].
  cbv zeta.
  destruct (Qltb 0 _ && _) eqn:E; [|apply runs_ret].
  apply andb_true_iff in E as [_ He]. apply Z.ltb_lt in He.
  assert (Ht : (0 <? get (employee_count company_metrics) 1 * 2000)%Z = true)
    by (apply Z.ltb_lt; lia).
  rewrite Ht.
  apply runs_div_ok, inject_Z_nonzero. lia.
Qed.

Lemma _calculate_confidence_runs (b : Bottleneck) (cm : CompanyMetrics) :
  runs (_calculate_confidence b cm) (Ok (confidence_of b cm)) [].
Proof. apply runs_ret. Qed.

Lemma confidence_from_bounds (t c f r e : bool) :
  PrimFloat.leb 0.5 (confidence_from t c f r e) = true
  /\ PrimFloat.leb (confidence_from t c f r e) 1.0 = true.
Proof. destruct t, c, f, r, e; split; vm_compute; reflexivity. Qed.

(** *** calculate_bottleneck_roi, run *)

Lemma complexity_multiplier_get (k : string) :
  dict_get complexity_multiplier k 25000%Z
  = if String.eqb k "low" then 10000%Z
    else if String.eqb k "high" then 50000%Z else 25000%Z.
Proof.
  unfold dict_get, complexity_multiplier. cbn [list_to_map foldr uncurry fst snd].
  destruct (String.eqb_spec k "low") as [->|?]; [reflexivity|].
  destruct (String.eqb_spec k "high") as [->|?]; [reflexivity|].
  destruct (String.eqb_spec k "medium") as [->|?]; [reflexivity|].
  rewrite !lookup_insert_ne by congruence. now rewrite lookup_empty.
Qed.

Lemma complexity_multiplier_pos (k : string) :
  (0 < dict_get complexity_multiplier k 25000)%Z.
Proof.
  rewrite complexity_multiplier_get.
  destruct (String.eqb k "low"); [lia|]. destruct (String.eqb k "high"); lia.
Qed.

Lemma calculate_bottleneck_roi_runs (b : Bottleneck) (cm : CompanyMetrics) :
  runs (calculate_bottleneck_roi b cm) (Ok (roi_of b cm)) [roi_of b cm].
Proof.
  assert (Hend : forall c : ROICalculation,
             c = roi_of b cm ->
             runs (bind (calculations_append c) (fun _ => ret c))
               (Ok (roi_of b cm)) [roi_of b cm]).
  { intros c ->.
    eapply (runs_bind _ _ tt [_] _ []); [apply runs_append|apply runs_ret]. }
  unfold calculate_bottleneck_roi.
  eapply runs_bind_pure; [apply _get_hourly_cost_runs|]. cbv zeta.
  set (savings := _ - _).
  set (cost := inject_Z _).
  assert (Hcost : ~ cost == 0).
  { apply inject_Z_nonzero.
    pose proof (complexity_multiplier_pos (get (solution_complexity b) "medium"%string)).
    lia. }
  destruct (Qltb 0 savings) eqn:E.
  - assert (Hs : ~ savings == 0).
    { apply Qltb_true in E. intros H0. rewrite H0 in E. lra. }
    eapply runs_bind_pure.
    { eapply runs_bind_pure; [apply (runs_div_ok _ cost Hcost)|].
      eapply runs_bind_pure; [apply (runs_div_ok _ savings Hs)|].
      apply runs_ret. }
    eapply runs_bind_pure; [apply _calculate_confidence_runs|].
    apply Hend. unfold roi_of. cbv zeta. fold savings. fold cost. now rewrite E.
  - eapply runs_bind_pure; [apply runs_ret|].
    eapply runs_bind_pure; [apply _calculate_confidence_runs|].
    apply Hend. unfold roi_of. cbv zeta. fold savings. fold cost. now rewrite E.
Qed.

(** ** Per-item ROI *)

(** C7.  Every call of [calculate_bottleneck_roi] returns a record (it
    raises nothing and appends that record to [self.calculations]); when the
    record's annual_savings is not positive, its roi_percentage is 0 and its
    payback_period_months is +infinity, whatever the solution complexity
    (hence the implementation cost) is.  This is the case in particular when
    automation_potential is 0 and when the annualized hours are 0. *)
Theorem roi_without_savings
    (bottleneck : Bottleneck) (company_metrics : CompanyMetrics) (self : BusinessAnalyzer) :
  exists c : ROICalculation,
    calculate_bottleneck_roi bottleneck company_metrics self
    = (Ok c, {| calculations := calculations self ++ [c] |})
    /\ (annual_savings c <= 0 ->
        roi_percentage c = 0 /\ payback_period_months c = PInf)
    /\ (forall p : Q, automation_potential bottleneck = Some p -> p == 0 ->
        annual_savings c == 0)
    /\ (get (annual_hours_impact bottleneck) 0 == 0 -> annual_savings c == 0).
Proof.
  exists (roi_of bottleneck company_metrics).
  split; [apply calculate_bottleneck_roi_runs|].
  unfold roi_of. cbv zeta. cbn [annual_savings roi_percentage payback_period_months].
  repeat split.
  - apply Qltb_false in H. now rewrite H.
  - apply Qltb_false in H. now rewrite H.
  - intros p Hp H0. rewrite Hp. change (get (Some p) 0.7) with p. rewrite H0. ring.
  - intros H0. rewrite H0. ring.
Qed.

(** C10.  The confidence level of every returned [ROICalculation] lies in
    the closed interval [0.5, 1.0], as binary64 numbers. *)
Theorem confidence_level_bounds
    (bottleneck : Bottleneck) (company_metrics : CompanyMetrics) (self : BusinessAnalyzer) :
  exists c : ROICalculation,
    calculate_bottleneck_roi bottleneck company_metrics self
    = (Ok c, {| calculations := calculations self ++ [c] |})
    /\ _calculate_confidence bottleneck company_metrics self
       = (Ok (confidence_level c), self)
    /\ PrimFloat.leb 0.5 (confidence_level c) = true
    /\ PrimFloat.leb (confidence_level c) 1.0 = true.
Proof.
  exists (roi_of bottleneck company_metrics).
  split; [apply calculate_bottleneck_roi_runs|].
  split; [reflexivity|].
  apply confidence_from_bounds.
Qed.

(** C7, witness: a bottleneck of 1040 annual hours whose automation
    potential is 0, with a high-complexity solution. *)
Lemma roi_without_savings_witness :
  exists c : ROICalculation,
    calculate_bottleneck_roi
      (bottleneck_dict "Manual client intake" 1040 0 "high") smith_law_firm __init__
    = (Ok c, {| calculations := [c] |})
    /\ roi_percentage c = 0 /\ payback_period_months c = PInf.
Proof.
  destruct (roi_without_savings
              (bottleneck_dict "Manual client intake" 1040 0 "high")
              smith_law_firm __init__) as (c & Hrun & Hroi & Hpot & _).
  exists c. split; [exact Hrun|].
  apply Hroi. rewrite (Hpot 0 eq_refl (Qeq_refl 0)). apply Qle_refl.
Defined.

(** The two ends of the interval: no data field at all gives 0.5; all five
    give the sum 0.5 + 5 * 0.1 as binary64 computes it, just below 1.0. *)
Example confidence_extremes :
  confidence_from false false false false false = 0.5%float
  /\ confidence_from true true true true true = 0.99999999999999989%float.
Proof. split; reflexivity. Qed.

(** ** Industry benchmark *)

Lemma benchmark_against_industry_runs (company_metrics : CompanyMetrics) :
  exists cmp : Comparison,
    runs (benchmark_against_industry company_metrics) (Ok cmp) []
    /\ company (c_revenue_per_employee cmp)
       = (let employees := get (employee_count company_metrics) 1%Z in
          let revenue := get (annual_revenue company_metrics) 0 in
          if (0 <? employees)%Z then revenue / inject_Z employees else 0).
Proof.
  unfold benchmark_against_industry. cbv zeta.
  set (benchmarks := dict_get INDUSTRY_BENCHMARKS _ _).
  set (employees := get (employee_count company_metrics) 1%Z).
  set (revenue := get (annual_revenue company_metrics) 0).
  set (rpe := if (0 <? employees)%Z then revenue / inject_Z employees else 0).
  assert (Hrpe : runs (if (0 <? employees)%Z
                       then div revenue (inject_Z employees) else ret 0)
                   (Ok rpe) []).
  { unfold rpe. destruct (0 <? employees)%Z eqn:E; [|apply runs_ret].
    apply Z.ltb_lt in E. apply runs_div_ok, inject_Z_nonzero. lia. }
  destruct (Qltb 0 (revenue_per_employee benchmarks)) eqn:Eb.
  - apply Qltb_true in Eb.
    assert (Hb : ~ revenue_per_employee benchmarks == 0)
      by (intros H0; rewrite H0 in Eb; lra).
    eexists. split.
    + eapply runs_bind_pure; [exact Hrpe|].
      eapply runs_bind_pure.
      { eapply runs_bind_pure; [apply (runs_div_ok _ _ Hb)|]. apply runs_ret. }
      apply runs_ret.
    + reflexivity.
  - eexists. split.
    + eapply runs_bind_pure; [exact Hrpe|].
      eapply runs_bind_pure; [apply runs_ret|]. apply runs_ret.
    + reflexivity.
Qed.

(** C3 (as amended).  [benchmark_against_industry] always returns, leaves
    the analyzer unchanged, and reports as the company's
    revenue_per_employee: annual_revenue / employee_count when
    employee_count is positive, 0 when employee_count is 0 (or negative),
    and annual_revenue itself when employee_count is absent (then it counts
    as 1); a missing annual_revenue counts as 0. *)
Theorem benchmark_revenue_per_employee
    (company_metrics : CompanyMetrics) (self : BusinessAnalyzer) :
  exists cmp : Comparison,
    benchmark_against_industry company_metrics self = (Ok cmp, self)
    /\ company (c_revenue_per_employee cmp)
       = match employee_count company_metrics with
         | Some employees =>
             if (0 <? employees)%Z
             then get (annual_revenue company_metrics) 0 / inject_Z employees
             else 0
         | None => get (annual_revenue company_metrics) 0 / 1
         end.
Proof.
  destruct (benchmark_against_industry_runs company_metrics) as (cmp & Hrun & Hc).
  exists cmp. split.
  - rewrite Hrun. destruct self as [cs]. cbn. now rewrite app_nil_r.
  - rewrite Hc. destruct (employee_count company_metrics); reflexivity.
Qed.

(** C3, counterexample to the claim as stated: with employee_count = 0 and
    annual_revenue = 500,000 the reported revenue_per_employee is 0, not
    500,000 / max(0, 1) = 500,000. *)
Lemma benchmark_zero_employees_reports_zero :
  exists cmp : Comparison,
    benchmark_against_industry
      {| company_name := Some "Solo"%string; industry := Some "msp"%string;
         employee_count := Some 0%Z; annual_revenue := Some 500000;
         average_hourly_cost := None; technology_stack := None |} __init__
    = (Ok cmp, __init__)
    /\ company (c_revenue_per_employee cmp) = 0
    /\ Qeq_bool 0 (500000 / inject_Z (Z.max 0 1)) = false.
Proof. eexists. split; [vm_compute; reflexivity|]. split; reflexivity. Qed.

(** ** The stable descending sort *)

Section SortFacts.
Context {A : Type}.
Implicit Types (x y : Q * A) (l : list (Q * A)).

Lemma insert_desc_perm x l : Permutation (insert_desc x l) (x :: l).
Proof.
  induction l as [|y l IH]; cbn [insert_desc]; [reflexivity|].
  destruct (Qle_bool (fst y) (fst x)); [reflexivity|].
  rewrite IH. apply perm_swap.
Qed.

Lemma sort_desc_perm l : Permutation (sort_desc l) l.
Proof.
  induction l as [|x l IH]; cbn; [reflexivity|].
  fold (sort_desc l). rewrite insert_desc_perm. now rewrite IH.
Qed.

Lemma insert_desc_descending x l : descending l -> descending (insert_desc x l).
Proof.
  unfold descending.
  induction l as [|y l IH]; intros Hl; cbn [insert_desc].
  - repeat constructor.
  - destruct (Qle_bool (fst y) (fst x)) eqn:E.
    + apply Qle_bool_iff in E. constructor; [exact Hl|].
      constructor; [exact E|].
      apply StronglySorted_inv in Hl as [_ Hy].
      eapply Forall_impl; [exact Hy|]. cbn. intros z Hz. lra.
    + assert (Hxy : fst x <= fst y).
      { apply Qlt_le_weak, Qnot_le_lt. intros Hle.
        apply Qle_bool_iff in Hle. congruence. }
      pose proof (StronglySorted_inv Hl) as [Hl' Hy].
      constructor; [apply IH, Hl'|].
      eapply Permutation_Forall; [symmetry; apply insert_desc_perm|].
      constructor; assumption.
Qed.

Lemma sort_desc_descending l : descending (sort_desc l).
Proof.
  induction l as [|x l IH]; cbn; [constructor|].
  fold (sort_desc l). now apply insert_desc_descending.
Qed.

(** Stability: the elements of any one key value keep their order. *)
Lemma insert_desc_stable (k : Q) x l :
  List.filter (fun y => Qeq_bool (fst y) k) (insert_desc x l)
  = List.filter (fun y => Qeq_bool (fst y) k) (x :: l).
Proof.
  induction l as [|y l IH]; cbn [insert_desc]; [reflexivity|].
  destruct (Qle_bool (fst y) (fst x)) eqn:E; [reflexivity|].
  cbn [List.filter] in *. rewrite IH.
  destruct (Qeq_bool (fst y) k) eqn:Ey, (Qeq_bool (fst x) k) eqn:Ex; try reflexivity.
  apply Qeq_bool_iff in Ey, Ex.
  assert (Hle : fst y <= fst x) by (rewrite Ey, Ex; apply Qle_refl).
  apply Qle_bool_iff in Hle. congruence.
Qed.

Lemma sort_desc_stable (k : Q) l :
  List.filter (fun y => Qeq_bool (fst y) k) (sort_desc l)
  = List.filter (fun y => Qeq_bool (fst y) k) l.
Proof.
  induction l as [|x l IH]; cbn [sort_desc fold_right]; [reflexivity|].
  fold (sort_desc l). rewrite insert_desc_stable. cbn [List.filter].
  now rewrite IH.
Qed.

End SortFacts.

(** [sorted(l, key=f, reverse=True)] for a key function [f]: a
    rearrangement of [l], in non-increasing order of [f], in which the
    elements of equal key stand in their original order. *)
Section SortedReverse.
Context {A : Type} (key : A -> Q).

Lemma combine_keys (l : list A) : combine (map key l) l = keyed key l.
Proof. induction l as [|x l IH]; cbn; [reflexivity|]. now rewrite IH. Qed.

Lemma keyed_sorted_fst (l : list A) :
  Forall (fun p => fst p = key (snd p)) (sort_desc (keyed key l)).
Proof.
  eapply Permutation_Forall; [symmetry; apply sort_desc_perm|].
  unfold keyed. apply Forall_map. apply Forall_forall. reflexivity.
Qed.

Lemma sorted_reverse_perm (l : list A) :
  Permutation (sorted_reverse (map key l) l) l.
Proof.
  unfold sorted_reverse. rewrite combine_keys.
  rewrite (Permutation_map snd (sort_desc_perm (keyed key l))).
  unfold keyed. rewrite map_map. cbn. now rewrite map_id.
Qed.

Lemma sorted_reverse_length (l : list A) :
  length (sorted_reverse (map key l) l) = length l.
Proof. apply Permutation_length, sorted_reverse_perm. Qed.

Lemma sorted_reverse_descending (l : list A) :
  StronglySorted (fun a b => key b <= key a) (sorted_reverse (map key l) l).
Proof.
  unfold sorted_reverse. rewrite combine_keys.
  pose proof (sort_desc_descending (keyed key l)) as Hs.
  pose proof (keyed_sorted_fst l) as Hk.
  unfold descending in Hs.
  induction Hs as [|p s Hs IH Hp]; cbn [map]; [constructor|].
  apply Forall_cons_iff in Hk as [Hkp Hk].
  constructor; [apply IH, Hk|].
  apply Forall_map. rewrite Forall_forall in *.
  intros q Hq. rewrite <- Hkp, <- (Hk q Hq). now apply Hp.
Qed.

Lemma sorted_reverse_stable (k : Q) (l : list A) :
  List.filter (fun x => Qeq_bool (key x) k) (sorted_reverse (map key l) l)
  = List.filter (fun x => Qeq_bool (key x) k) l.
Proof.
  unfold sorted_reverse. rewrite combine_keys.
  assert (Hmap : forall s : list (Q * A),
             Forall (fun p => fst p = key (snd p)) s ->
             List.filter (fun x => Qeq_bool (key x) k) (map snd s)
             = map snd (List.filter (fun p => Qeq_bool (fst p) k) s)).
  { induction s as [|p s IH]; intros Hs; cbn; [reflexivity|].
    apply Forall_cons_iff in Hs as [Hp Hs]. rewrite <- Hp.
    destruct (Qeq_bool (fst p) k); cbn; now rewrite IH. }
  rewrite Hmap by apply keyed_sorted_fst.
  rewrite sort_desc_stable.
  rewrite <- Hmap by (unfold keyed; apply Forall_map, Forall_forall; reflexivity).
  unfold keyed. rewrite map_map. cbn. now rewrite map_id.
Qed.

End SortedReverse.

(** ** Implementation phases *)

Lemma runs_bind_ext {A B : Type} (m : M A) (k : A -> M B) a e r :
  runs m (Ok a) e -> runs (k a) r [] -> runs (bind m k) r e.
Proof.
  intros Hm Hk. rewrite <- (app_nil_r e). exact (runs_bind m k a e r [] Hm Hk).
Qed.

Lemma concat_map_nil {A B : Type} (l : list A) :
  concat (map (fun _ : A => @nil B) l) = [].
Proof. induction l as [|x l IH]; cbn; [reflexivity|exact IH]. Qed.

Lemma concat_map_singleton {A B : Type} (g : A -> B) (l : list A) :
  concat (map (fun x => [g x]) l) = map g l.
Proof. induction l as [|x l IH]; cbn; [reflexivity|]. now rewrite IH. Qed.

Lemma phase_keys_run (calculations : list ROICalculation) :
  runs
    (for_each
       (fun x => div (roi_percentage x) (inject_Z (Z.max (time_to_implement_days x) 1)))
       calculations)
    (Ok (map phase_key calculations)) [].
Proof.
  rewrite <- (concat_map_nil (B := ROICalculation) calculations).
  apply (runs_for_each _ phase_key (fun _ => [])).
  intros x. apply runs_div_ok, inject_Z_nonzero. lia.
Qed.

Lemma first_qualifying_slice {A : Type} (n : nat) (p : A -> bool) (l : list A) :
  slice_to n (List.filter p l) = first_qualifying n p l.
Proof.
  unfold slice_to. revert n.
  induction l as [|x l IH]; intros n; cbn [List.filter].
  - destruct n; reflexivity.
  - destruct n as [|n]; [reflexivity|]. cbn [first_qualifying].
    destruct (p x); [cbn [firstn]; now rewrite IH|].
    exact (IH (S n)).
Qed.


Lemma _create_implementation_phases_runs (calculations : list ROICalculation) :
  let ranked := sorted_reverse (map phase_key calculations) calculations in
  let phase1 :=
    first_qualifying 3
      (fun calc => (time_to_implement_days calc <=? 30)%Z
                   && Qltb 50 (roi_percentage calc)) ranked in
  let phase2 :=
    first_qualifying 3
      (fun calc => negb (py_in calc phase1)
                   && (time_to_implement_days calc <=? 90)%Z) ranked in
  let phase3 :=
    first_qualifying 3 (fun calc => negb (py_in calc (phase1 ++ phase2))) ranked in
  runs (_create_implementation_phases calculations)
    (Ok (spec_phases phase1 phase2 phase3)) [].
Proof.
  intros ranked phase1 phase2 phase3.
  unfold _create_implementation_phases.
  eapply runs_bind_pure; [apply phase_keys_run|].
  cbv zeta. fold ranked. rewrite !first_qualifying_slice.
  fold phase1. fold phase2. fold phase3.
  unfold spec_phases, phase_if_any.
  destruct phase1, phase2, phase3; apply runs_ret.
Qed.

Lemma runs_pure_eq {A : Type} (m : M A) (r : result A) (self : BusinessAnalyzer) :
  runs m r [] -> m self = (r, self).
Proof.
  intros H. rewrite H. destruct self as [cs]. cbn. now rewrite app_nil_r.
Qed.


(** Membership is equality of records: of four equal quick wins the first
    three form phase 1, and the fourth, equal to a member of phase 1, is in
    no phase. *)
Example equal_records_share_a_phase :
  let quick_win :=
    {| description := "Automate intake"; current_cost := 40000;
       improved_cost := 12000; implementation_cost := 10000;
       time_to_implement_days := 30; annual_savings := 28000;
       roi_percentage := 180; payback_period_months := Fin (30 # 7);
       confidence_level := 0.5%float |} in
  fst (_create_implementation_phases [quick_win; quick_win; quick_win; quick_win] __init__)
  = Ok [make_phase 1 "Quick Wins" "0-30 days" [quick_win; quick_win; quick_win]].
Proof. reflexivity. Qed.


(** ** Portfolio *)

Lemma portfolio_loop_runs (bottlenecks : list Bottleneck) (company_metrics : CompanyMetrics) :
  runs
    (for_each (fun bottleneck => calculate_bottleneck_roi bottleneck company_metrics)
       bottlenecks)
    (Ok (portfolio_calcs bottlenecks company_metrics))
    (portfolio_calcs bottlenecks company_metrics).
Proof.
  unfold portfolio_calcs at 2.
  rewrite <- (concat_map_singleton (fun b => roi_of b company_metrics)).
  apply (runs_for_each _ (fun b => roi_of b company_metrics)
           (fun b => [roi_of b company_metrics])).
  intros b. apply calculate_bottleneck_roi_runs.
Qed.

(** The call raises exactly when the summed implementation cost is positive
    and the summed savings are zero; otherwise it returns.  Either way the
    per-item records have been appended to [self.calculations]. *)
Lemma calculate_portfolio_roi_raises
    (bottlenecks : list Bottleneck) (company_metrics : CompanyMetrics) :
  let ranked := ranked_calcs bottlenecks company_metrics in
  0 < py_sum (map implementation_cost ranked) ->
  py_sum (map annual_savings ranked) == 0 ->
  runs (calculate_portfolio_roi bottlenecks company_metrics) ZeroDivisionError
    (portfolio_calcs bottlenecks company_metrics).
Proof.
  intros ranked Hcost Hsav. unfold calculate_portfolio_roi.
  rewrite <- (app_nil_r (portfolio_calcs _ _)).
  eapply runs_bind; [apply portfolio_loop_runs|].
  cbv zeta. fold (ranked_calcs bottlenecks company_metrics). fold ranked.
  apply Qltb_true in Hcost. rewrite Hcost. apply Qltb_true in Hcost.
  apply runs_bind_raise.
  eapply runs_bind_pure.
  { apply runs_div_ok. intros H0. rewrite H0 in Hcost. lra. }
  apply runs_bind_raise.
  rewrite <- (py_div_zero (py_sum (map implementation_cost ranked)) _ Hsav).
  apply runs_div.
Qed.

Lemma calculate_portfolio_roi_returns
    (bottlenecks : list Bottleneck) (company_metrics : CompanyMetrics) :
  let ranked := ranked_calcs bottlenecks company_metrics in
  (0 < py_sum (map implementation_cost ranked) ->
   ~ py_sum (map annual_savings ranked) == 0) ->
  exists pf : Portfolio,
    runs (calculate_portfolio_roi bottlenecks company_metrics) (Ok pf)
      (portfolio_calcs bottlenecks company_metrics)
    /\ individual_projects pf = map project_of (slice_to 10 ranked).
Proof.
  intros ranked Hsav. unfold calculate_portfolio_roi.
  destruct (Qltb 0 (py_sum (map implementation_cost ranked))) eqn:Ecost.
  - apply Qltb_true in Ecost. specialize (Hsav Ecost).
    eexists. split.
    + eapply runs_bind_ext; [apply portfolio_loop_runs|].
      cbv zeta. fold (ranked_calcs bottlenecks company_metrics). fold ranked.
      apply Qltb_true in Ecost. rewrite Ecost. apply Qltb_true in Ecost.
      eapply runs_bind_pure.
      { eapply runs_bind_pure.
        { apply runs_div_ok. intros H0. rewrite H0 in Ecost. lra. }
        eapply runs_bind_pure; [apply (runs_div_ok _ _ Hsav)|]. apply runs_ret. }
      eapply runs_bind_pure; [apply runs_ret|].
      eapply runs_bind_pure; [apply _create_implementation_phases_runs|].
      apply runs_ret.
    + reflexivity.
  - eexists. split.
    + eapply runs_bind_ext; [apply portfolio_loop_runs|].
      cbv zeta. fold (ranked_calcs bottlenecks company_metrics). fold ranked.
      rewrite Ecost.
      eapply runs_bind_pure; [apply runs_ret|].
      eapply runs_bind_pure; [apply runs_ret|].
      eapply runs_bind_pure; [apply _create_implementation_phases_runs|].
      apply runs_ret.
    + reflexivity.
Qed.

Lemma StronglySorted_firstn {A : Type} (R : A -> A -> Prop) (n : nat) (l : list A) :
  StronglySorted R l -> StronglySorted R (firstn n l).
Proof.
  intros Hl. revert n. induction Hl as [|x l Hl IH Hx]; intros [|n]; cbn [firstn];
    try constructor.
  - apply IH.
  - apply Forall_forall. intros y Hy. rewrite Forall_forall in Hx. apply Hx.
    apply list_elem_of_In in Hy. apply list_elem_of_In.
    rewrite <- (firstn_skipn n l). apply in_or_app. now left.
Qed.

Lemma StronglySorted_map {A B : Type} (f : A -> B) (R : B -> B -> Prop) (l : list A) :
  StronglySorted (fun a b => R (f a) (f b)) l -> StronglySorted R (map f l).
Proof.
  induction 1 as [|x l Hl IH Hx]; cbn [map]; constructor; [exact IH|].
  apply Forall_map. exact Hx.
Qed.

(** C5.  Whenever [calculate_portfolio_roi] returns, its individual-projects
    list is the first ten entries of [ranked], where [ranked] rearranges the
    per-item records (one per bottleneck, in input order) in non-increasing
    roi_percentage with records of equal roi_percentage in input order; it
    is therefore itself in non-increasing roi_percentage, and its length is
    min(10, number of bottlenecks): exactly 10 for 11 or more. *)
Theorem portfolio_projects_ranked
    (bottlenecks : list Bottleneck) (company_metrics : CompanyMetrics)
    (self self' : BusinessAnalyzer) (pf : Portfolio) :
  calculate_portfolio_roi bottlenecks company_metrics self = (Ok pf, self') ->
  exists calcs ranked : list ROICalculation,
    Forall2
      (fun b c => calculate_bottleneck_roi b company_metrics __init__
                  = (Ok c, {| calculations := [c] |}))
      bottlenecks calcs
    /\ Permutation ranked calcs
    /\ StronglySorted (fun a b => roi_percentage b <= roi_percentage a) ranked
    /\ (forall k : Q,
          List.filter (fun x => Qeq_bool (roi_percentage x) k) ranked
          = List.filter (fun x => Qeq_bool (roi_percentage x) k) calcs)
    /\ individual_projects pf = map project_of (firstn 10 ranked)
    /\ StronglySorted (fun p q => p_roi_percentage q <= p_roi_percentage p)
         (individual_projects pf)
    /\ length (individual_projects pf) = Nat.min 10 (length bottlenecks)
    /\ ((11 <= length bottlenecks)%nat -> length (individual_projects pf) = 10%nat).
Proof.
  intros Hrun.
  set (calcs := portfolio_calcs bottlenecks company_metrics).
  set (ranked := ranked_calcs bottlenecks company_metrics).
  assert (Hpf : individual_projects pf = map project_of (firstn 10 ranked)).
  { destruct (Qlt_le_dec 0 (py_sum (map implementation_cost ranked))) as [Hc|Hc];
      [destruct (Qeq_dec (py_sum (map annual_savings ranked)) 0) as [Hs|Hs]|].
    - pose proof (calculate_portfolio_roi_raises bottlenecks company_metrics Hc Hs self)
        as Hraise.
      rewrite Hraise in Hrun. discriminate.
    - destruct (calculate_portfolio_roi_returns bottlenecks company_metrics
                  (fun _ => Hs)) as (pf' & Hret & Hproj).
      rewrite Hret in Hrun. now inversion Hrun; subst.
    - destruct (calculate_portfolio_roi_returns bottlenecks company_metrics)
        as (pf' & Hret & Hproj).
      { intros Hpos. exfalso. fold ranked in Hpos. lra. }
      rewrite Hret in Hrun. now inversion Hrun; subst. }
  assert (Hsorted : StronglySorted (fun a b => roi_percentage b <= roi_percentage a) ranked)
    by apply sorted_reverse_descending.
  assert (Hlen : length (individual_projects pf) = Nat.min 10 (length bottlenecks)).
  { rewrite Hpf, length_map, length_firstn. unfold ranked, ranked_calcs.
    rewrite sorted_reverse_length. unfold portfolio_calcs. now rewrite length_map. }
  exists calcs, ranked. repeat split.
  - unfold calcs, portfolio_calcs. induction bottlenecks as [|b bs IH]; constructor.
    + exact (calculate_bottleneck_roi_runs b company_metrics __init__).
    + apply Forall2_fmap_r, Forall_Forall2_diag, Forall_forall. intros b' _.
      exact (calculate_bottleneck_roi_runs b' company_metrics __init__).
  - apply sorted_reverse_perm.
  - exact Hsorted.
  - intros k. apply sorted_reverse_stable.
  - exact Hpf.
  - rewrite Hpf. apply StronglySorted_map. cbn [project_of p_roi_percentage].
    now apply StronglySorted_firstn.
  - exact Hlen.
  - intros H11. rewrite Hlen. lia.
Qed.

(** C5, witness: the twelve sample bottlenecks for the sample company. *)
Lemma portfolio_projects_ranked_witness :
  exists (pf : Portfolio) (self' : BusinessAnalyzer),
    calculate_portfolio_roi twelve_bottlenecks smith_law_firm __init__ = (Ok pf, self')
    /\ exists calcs ranked : list ROICalculation,
         Forall2
           (fun b c => calculate_bottleneck_roi b smith_law_firm __init__
                       = (Ok c, {| calculations := [c] |}))
           twelve_bottlenecks calcs
         /\ Permutation ranked calcs
         /\ StronglySorted (fun a b => roi_percentage b <= roi_percentage a) ranked
         /\ (forall k : Q,
               List.filter (fun x => Qeq_bool (roi_percentage x) k) ranked
               = List.filter (fun x => Qeq_bool (roi_percentage x) k) calcs)
         /\ individual_projects pf = map project_of (firstn 10 ranked)
         /\ StronglySorted (fun p q => p_roi_percentage q <= p_roi_percentage p)
              (individual_projects pf)
         /\ length (individual_projects pf) = Nat.min 10 (length twelve_bottlenecks)
         /\ ((11 <= length twelve_bottlenecks)%nat ->
             length (individual_projects pf) = 10%nat).
Proof.
  destruct (calculate_portfolio_roi twelve_bottlenecks smith_law_firm __init__)
    as [[pf|] self'] eqn:E.
  - exists pf, self'. split; [reflexivity|].
    exact (portfolio_projects_ranked twelve_bottlenecks smith_law_firm
             __init__ self' pf E).
  - vm_compute in E. discriminate E.
Defined.

(** The ranking of the sample: ten of the twelve; "p05" and "p09", both
    with roi_percentage 0, stay in input order, ahead of the projects whose
    savings do not cover the implementation cost; of the equal "p03" and
    "p07" the earlier one takes the tenth place. *)
Example portfolio_twelve_descriptions :
  exists (pf : Portfolio) (self' : BusinessAnalyzer),
    calculate_portfolio_roi twelve_bottlenecks smith_law_firm __init__ = (Ok pf, self')
    /\ map p_description (individual_projects pf)
       = ["Automate p12"; "Automate p10"; "Automate p02"; "Automate p04";
          "Automate p06"; "Automate p01"; "Automate p05"; "Automate p09";
          "Automate p08"; "Automate p03"]%string.
Proof. eexists. eexists. split; vm_compute; reflexivity. Qed.

(** C8.  For the empty bottleneck list [calculate_portfolio_roi] returns,
    leaves the analyzer as it was, and reports: the four totals 0, portfolio
    ROI 0 and payback 0 (not infinity), no improvement, and empty lists of
    individual projects, of recommendations and of phases. *)
Theorem empty_portfolio (company_metrics : CompanyMetrics) (self : BusinessAnalyzer) :
  calculate_portfolio_roi [] company_metrics self
  = (Ok {| individual_projects := [];
           portfolio_summary :=
             {| total_current_cost := 0;
                total_improved_cost := 0;
                total_implementation_cost := 0;
                total_annual_savings := 0;
                portfolio_roi_percentage := 0;
                portfolio_payback_months := 0;
                number_of_improvements := 0 |};
           recommendations := [];
           implementation_phases := [] |},
     self).
Proof. destruct self as [cs]. reflexivity. Qed.

(** C1: the claim fails on the code.  One bottleneck whose
    automation_potential is 0 has annual_savings 0 and implementation cost
    25,000; the portfolio step then divides the total implementation cost by
    the total savings, and the call ends with ZeroDivisionError, the
    per-item record already appended to [self.calculations]. *)
Theorem portfolio_zero_savings_raises :
  exists c : ROICalculation,
    calculate_bottleneck_roi
      (bottleneck_dict "Manual client intake" 1040 0 "medium") smith_law_firm __init__
    = (Ok c, {| calculations := [c] |})
    /\ implementation_cost c = 25000
    /\ Qeq_bool (annual_savings c) 0 = true
    /\ calculate_portfolio_roi
         [bottleneck_dict "Manual client intake" 1040 0 "medium"] smith_law_firm __init__
       = (ZeroDivisionError, {| calculations := [c] |}).
Proof. eexists. repeat split; vm_compute; reflexivity. Qed.

(** In general: a non-empty portfolio whose items save nothing raises. *)
Lemma portfolio_without_savings_raises
    (bottlenecks : list Bottleneck) (company_metrics : CompanyMetrics)
    (self : BusinessAnalyzer) :
  let ranked := ranked_calcs bottlenecks company_metrics in
  0 < py_sum (map implementation_cost ranked) ->
  py_sum (map annual_savings ranked) == 0 ->
  fst (calculate_portfolio_roi bottlenecks company_metrics self) = ZeroDivisionError.
Proof.
  intros ranked Hc Hs.
  now rewrite (calculate_portfolio_roi_raises bottlenecks company_metrics Hc Hs self).
Qed.

(** ** The analyzer's state *)

Lemma calculate_portfolio_roi_runs
    (bottlenecks : list Bottleneck) (company_metrics : CompanyMetrics) :
  exists r : result Portfolio,
    runs (calculate_portfolio_roi bottlenecks company_metrics) r
      (portfolio_calcs bottlenecks company_metrics).
Proof.
  set (ranked := ranked_calcs bottlenecks company_metrics).
  destruct (Qlt_le_dec 0 (py_sum (map implementation_cost ranked))) as [Hc|Hc];
    [destruct (Qeq_dec (py_sum (map annual_savings ranked)) 0) as [Hs|Hs]|].
  - exists ZeroDivisionError. now apply calculate_portfolio_roi_raises.
  - destruct (calculate_portfolio_roi_returns bottlenecks company_metrics
                (fun _ => Hs)) as (pf & Hret & _).
    now exists (Ok pf).
  - destruct (calculate_portfolio_roi_returns bottlenecks company_metrics)
      as (pf & Hret & _).
    { intros Hpos. exfalso. fold ranked in Hpos. lra. }
    now exists (Ok pf).
Qed.

Lemma generate_executive_summary_runs
    (company_metrics : CompanyMetrics) (bottlenecks : list Bottleneck) :
  exists r : result Summary,
    runs (generate_executive_summary company_metrics bottlenecks) r
      (portfolio_calcs bottlenecks company_metrics).
Proof.
  unfold generate_executive_summary.
  destruct (calculate_portfolio_roi_runs bottlenecks company_metrics) as ([pf|] & Hpf).
  - destruct (benchmark_against_industry_runs company_metrics) as (cmp & Hcmp & _).
    eexists.
    eapply runs_bind_ext; [exact Hpf|].
    eapply runs_bind_pure; [exact Hcmp|].
    cbv zeta.
    eapply runs_bind_pure; [apply runs_ret|]. apply runs_ret.
  - exists ZeroDivisionError. now apply runs_bind_raise.
Qed.

(** C4 (as amended).  The analyzer keeps one piece of mutable state, the
    list [calculations]: [calculate_bottleneck_roi] appends the record it
    returns, [calculate_portfolio_roi] and [generate_executive_summary]
    append one record per bottleneck, [benchmark_against_industry] appends
    nothing.  The list is never read: the outcome of every call, and what it
    appends, are the same whatever the list holds, hence independent of the
    calls that preceded it. *)
Theorem analyzer_appends_only
    (bottleneck : Bottleneck) (bottlenecks : list Bottleneck)
    (company_metrics : CompanyMetrics) :
  appends_only (calculate_bottleneck_roi bottleneck company_metrics) 1
  /\ appends_only (calculate_portfolio_roi bottlenecks company_metrics)
       (length bottlenecks)
  /\ appends_only (benchmark_against_industry company_metrics) 0
  /\ appends_only (generate_executive_summary company_metrics bottlenecks)
       (length bottlenecks)
  /\ forall self1 self2 : BusinessAnalyzer,
       fst (calculate_bottleneck_roi bottleneck company_metrics self1)
       = fst (calculate_bottleneck_roi bottleneck company_metrics self2)
       /\ fst (calculate_portfolio_roi bottlenecks company_metrics self1)
          = fst (calculate_portfolio_roi bottlenecks company_metrics self2)
       /\ fst (benchmark_against_industry company_metrics self1)
          = fst (benchmark_against_industry company_metrics self2)
       /\ fst (generate_executive_summary company_metrics bottlenecks self1)
          = fst (generate_executive_summary company_metrics bottlenecks self2).
Proof.
  pose proof (calculate_bottleneck_roi_runs bottleneck company_metrics) as H1.
  destruct (calculate_portfolio_roi_runs bottlenecks company_metrics) as (r2 & H2).
  destruct (benchmark_against_industry_runs company_metrics) as (r3 & H3 & _).
  destruct (generate_executive_summary_runs company_metrics bottlenecks) as (r4 & H4).
  assert (Hlen : length (portfolio_calcs bottlenecks company_metrics)
                 = length bottlenecks) by apply length_map.
  split; [|split; [|split; [|split]]].
  - exists (Ok (roi_of bottleneck company_metrics)), [roi_of bottleneck company_metrics].
    split; [reflexivity|exact H1].
  - exists r2, (portfolio_calcs bottlenecks company_metrics). split; [exact Hlen|exact H2].
  - exists (Ok r3), []. split; [reflexivity|exact H3].
  - exists r4, (portfolio_calcs bottlenecks company_metrics). split; [exact Hlen|exact H4].
  - intros self1 self2.
    now rewrite (H1 self1), (H1 self2), (H2 self1), (H2 self2),
      (H3 self1), (H3 self2), (H4 self1), (H4 self2).
Qed.

(** C4, counterexample to the claim as stated: a call does modify the
    analyzer, and the records accumulate from call to call. *)
Lemma calculations_accumulate :
  exists c : ROICalculation,
    calculate_bottleneck_roi
      (bottleneck_dict "Document management" 520 0.7 "low") smith_law_firm __init__
    = (Ok c, {| calculations := [c] |})
    /\ calculate_bottleneck_roi
         (bottleneck_dict "Document management" 520 0.7 "low") smith_law_firm
         {| calculations := [c] |}
       = (Ok c, {| calculations := [c; c] |})
    /\ length (calculations __init__) = 0%nat.
Proof. eexists. repeat split; vm_compute; reflexivity. Qed.

(** * Further properties of the code *)

(** ** Per-item ROI: identities and bounds *)

Lemma calculate_bottleneck_roi_inv
    (b : Bottleneck) (cm : CompanyMetrics) (self self' : BusinessAnalyzer)
    (c : ROICalculation) :
  calculate_bottleneck_roi b cm self = (Ok c, self') ->
  c = roi_of b cm /\ self' = {| calculations := calculations self ++ [c] |}.
Proof.
  rewrite (calculate_bottleneck_roi_runs b cm self). intros H.
  inversion H; subst. split; reflexivity.
Qed.

Lemma roi_of_cost_positive (b : Bottleneck) (cm : CompanyMetrics) :
  10000 <= implementation_cost (roi_of b cm).
Proof.
  unfold roi_of. cbv zeta. cbn [implementation_cost].
  rewrite complexity_multiplier_get.
  destruct (String.eqb _ "low"); [|destruct (String.eqb _ "high")];
    unfold Qle; cbn; lia.
Qed.

(** X2.  The implementation cost and the time to implement of every
    returned record form one of three pairs: (10,000, 30) for complexity
    "low", (50,000, 90) for "high", and (25,000, 60) for "medium", for any
    other string and for a missing solution_complexity. *)
Theorem roi_cost_time_pairs
    (bottleneck : Bottleneck) (company_metrics : CompanyMetrics) (self : BusinessAnalyzer) :
  exists c : ROICalculation,
    calculate_bottleneck_roi bottleneck company_metrics self
    = (Ok c, {| calculations := calculations self ++ [c] |})
    /\ ((solution_complexity bottleneck = Some "low"%string
         /\ implementation_cost c = 10000 /\ time_to_implement_days c = 30%Z)
        \/ (solution_complexity bottleneck = Some "high"%string
            /\ implementation_cost c = 50000 /\ time_to_implement_days c = 90%Z)
        \/ (solution_complexity bottleneck <> Some "low"%string
            /\ solution_complexity bottleneck <> Some "high"%string
            /\ implementation_cost c = 25000 /\ time_to_implement_days c = 60%Z)).
Proof.
  exists (roi_of bottleneck company_metrics).
  split; [apply calculate_bottleneck_roi_runs|].
  unfold roi_of. cbv zeta. cbn [implementation_cost time_to_implement_days].
  rewrite complexity_multiplier_get.
  assert (Ht : forall k : string,
             dict_get time_multiplier k 60%Z
             = if String.eqb k "low" then 30%Z
               else if String.eqb k "high" then 90%Z else 60%Z).
  { intros k. unfold dict_get, time_multiplier.
    cbn [list_to_map foldr uncurry fst snd].
    destruct (String.eqb_spec k "low") as [->|?]; [reflexivity|].
    destruct (String.eqb_spec k "high") as [->|?]; [reflexivity|].
    destruct (String.eqb_spec k "medium") as [->|?]; [reflexivity|].
    rewrite !lookup_insert_ne by congruence. now rewrite lookup_empty. }
  rewrite Ht.
  destruct (solution_complexity bottleneck) as [k|]; cbn [get default from_option id].
  - destruct (String.eqb_spec k "low") as [->|Hl]; [left; repeat split|].
    destruct (String.eqb_spec k "high") as [->|Hh]; [right; left; repeat split|].
    right; right. repeat split; congruence.
  - right; right. repeat split; discriminate.
Qed.

(** ** Sums *)

Lemma fold_left_Qplus (l : list Q) (a : Q) :
  fold_left Qplus l a == a + fold_right Qplus 0 l.
Proof.
  revert a. induction l as [|x l IH]; intros a; cbn [fold_left fold_right].
  - ring.
  - rewrite IH. ring.
Qed.

Lemma py_sum_cons (x : Q) (l : list Q) : py_sum (x :: l) == x + py_sum l.
Proof.
  unfold py_sum. rewrite !fold_left_Qplus. cbn [fold_right]. ring.
Qed.

Lemma py_sum_perm (l l' : list Q) : Permutation l l' -> py_sum l == py_sum l'.
Proof.
  induction 1 as [|x l l' _ IH|x y l|l l' l'' _ IH1 _ IH2].
  - reflexivity.
  - now rewrite !py_sum_cons, IH.
  - rewrite !py_sum_cons. ring.
  - now rewrite IH1.
Qed.

Lemma py_sum_map_perm {A : Type} (f : A -> Q) (l l' : list A) :
  Permutation l l' -> py_sum (map f l) == py_sum (map f l').
Proof. intros H. apply py_sum_perm, Permutation_map, H. Qed.

Lemma py_sum_lower_bound (m : Q) (l : list Q) :
  Forall (fun x => m <= x) l -> inject_Z (Z.of_nat (length l)) * m <= py_sum l.
Proof.
  induction 1 as [|x l Hx _ IH].
  - change (0 * m <= 0). lra.
  - rewrite py_sum_cons. cbn [length]. rewrite Nat2Z.inj_succ.
    unfold Z.succ. rewrite inject_Z_plus.
    set (n := inject_Z (Z.of_nat (length l))) in *.
    assert (Hn : (n + inject_Z 1) * m == n * m + m) by (change (inject_Z 1) with 1; ring).
    rewrite Hn. lra.
Qed.

Lemma py_sum_map_split {A : Type} (f g h : A -> Q) (l : list A) :
  (forall x, f x == g x + h x) ->
  py_sum (map f l) == py_sum (map g l) + py_sum (map h l).
Proof.
  intros Hf. induction l as [|x l IH]; cbn [map].
  - reflexivity.
  - rewrite !py_sum_cons, IH, Hf. ring.
Qed.

(** ** Portfolio: totals, the exception, ROI and payback *)

Lemma calculate_portfolio_roi_returns_summary
    (bottlenecks : list Bottleneck) (company_metrics : CompanyMetrics) :
  let ranked := ranked_calcs bottlenecks company_metrics in
  let ti := py_sum (map implementation_cost ranked) in
  let ts := py_sum (map annual_savings ranked) in
  (0 < ti -> ~ ts == 0) ->
  exists pf : Portfolio,
    runs (calculate_portfolio_roi bottlenecks company_metrics) (Ok pf)
      (portfolio_calcs bottlenecks company_metrics)
    /\ portfolio_summary pf
       = {| total_current_cost := py_sum (map current_cost ranked);
            total_improved_cost := py_sum (map improved_cost ranked);
            total_implementation_cost := ti;
            total_annual_savings := ts;
            portfolio_roi_percentage :=
              if Qltb 0 ti then (ts - ti) / ti * 100 else 0;
            portfolio_payback_months := if Qltb 0 ti then ti / ts * 12 else 0;
            number_of_improvements := length ranked |}.
Proof.
  intros ranked ti ts Hsav. unfold calculate_portfolio_roi.
  destruct (Qltb 0 ti) eqn:Ecost.
  - apply Qltb_true in Ecost. specialize (Hsav Ecost).
    eexists. split.
    + eapply runs_bind_ext; [apply portfolio_loop_runs|].
      cbv zeta. fold (ranked_calcs bottlenecks company_metrics). fold ranked.
      fold ti. fold ts.
      apply Qltb_true in Ecost. rewrite Ecost. apply Qltb_true in Ecost.
      eapply runs_bind_pure.
      { eapply runs_bind_pure.
        { apply runs_div_ok. intros H0. rewrite H0 in Ecost. lra. }
        eapply runs_bind_pure; [apply (runs_div_ok _ _ Hsav)|]. apply runs_ret. }
      eapply runs_bind_pure; [apply runs_ret|].
      eapply runs_bind_pure; [apply _create_implementation_phases_runs|].
      apply runs_ret.
    + reflexivity.
  - eexists. split.
    + eapply runs_bind_ext; [apply portfolio_loop_runs|].
      cbv zeta. fold (ranked_calcs bottlenecks company_metrics). fold ranked.
      fold ti. rewrite Ecost.
      eapply runs_bind_pure; [apply runs_ret|].
      eapply runs_bind_pure; [apply runs_ret|].
      eapply runs_bind_pure; [apply _create_implementation_phases_runs|].
      apply runs_ret.
    + reflexivity.
Qed.

Lemma calculate_portfolio_roi_inv
    (bottlenecks : list Bottleneck) (company_metrics : CompanyMetrics)
    (self self' : BusinessAnalyzer) (pf : Portfolio) :
  calculate_portfolio_roi bottlenecks company_metrics self = (Ok pf, self') ->
  let ranked := ranked_calcs bottlenecks company_metrics in
  let ti := py_sum (map implementation_cost ranked) in
  let ts := py_sum (map annual_savings ranked) in
  (0 < ti -> ~ ts == 0)
  /\ portfolio_summary pf
     = {| total_current_cost := py_sum (map current_cost ranked);
          total_improved_cost := py_sum (map improved_cost ranked);
          total_implementation_cost := ti;
          total_annual_savings := ts;
          portfolio_roi_percentage := if Qltb 0 ti then (ts - ti) / ti * 100 else 0;
          portfolio_payback_months := if Qltb 0 ti then ti / ts * 12 else 0;
          number_of_improvements := length ranked |}.
Proof.
  intros Hrun ranked ti ts.
  assert (Hsav : 0 < ti -> ~ ts == 0).
  { intros Hc Hs.
    pose proof (calculate_portfolio_roi_raises bottlenecks company_metrics Hc Hs self)
      as Hraise.
    rewrite Hraise in Hrun. discriminate. }
  split; [exact Hsav|].
  destruct (calculate_portfolio_roi_returns_summary bottlenecks company_metrics Hsav)
    as (pf' & Hret & Hsum).
  rewrite Hret in Hrun. inversion Hrun; subst. exact Hsum.
Qed.

Lemma ranked_calcs_perm (bottlenecks : list Bottleneck) (company_metrics : CompanyMetrics) :
  Permutation (ranked_calcs bottlenecks company_metrics)
    (portfolio_calcs bottlenecks company_metrics).
Proof. apply sorted_reverse_perm. Qed.

Lemma per_item_records
    (bottlenecks : list Bottleneck) (company_metrics : CompanyMetrics)
    (calcs : list ROICalculation) :
  Forall2
    (fun b c => calculate_bottleneck_roi b company_metrics __init__
                = (Ok c, {| calculations := [c] |}))
    bottlenecks calcs ->
  calcs = portfolio_calcs bottlenecks company_metrics.
Proof.
  unfold portfolio_calcs.
  induction 1 as [|b c bs cs Hbc _ IH]; cbn [map]; [reflexivity|].
  apply calculate_bottleneck_roi_inv in Hbc as [-> _]. now rewrite IH.
Qed.

Lemma per_item_records_exist
    (bottlenecks : list Bottleneck) (company_metrics : CompanyMetrics) :
  Forall2
    (fun b c => calculate_bottleneck_roi b company_metrics __init__
                = (Ok c, {| calculations := [c] |}))
    bottlenecks (portfolio_calcs bottlenecks company_metrics).
Proof.
  unfold portfolio_calcs.
  induction bottlenecks as [|b bs IH]; cbn [map]; constructor; [|exact IH].
  exact (calculate_bottleneck_roi_runs b company_metrics __init__).
Qed.

Lemma ranked_cost_positive (bottlenecks : list Bottleneck) (company_metrics : CompanyMetrics) :
  bottlenecks <> [] ->
  0 < py_sum (map implementation_cost (ranked_calcs bottlenecks company_metrics)).
Proof.
  intros Hne.
  rewrite (py_sum_map_perm implementation_cost _ _
             (ranked_calcs_perm bottlenecks company_metrics)).
  assert (Hall : Forall (fun x => 10000 <= x)
                   (map implementation_cost (portfolio_calcs bottlenecks company_metrics))).
  { unfold portfolio_calcs. rewrite map_map. apply Forall_map, Forall_forall.
    intros b _. apply roi_of_cost_positive. }
  apply py_sum_lower_bound in Hall.
  rewrite !length_map in Hall. unfold portfolio_calcs in Hall. rewrite length_map in Hall.
  destruct bottlenecks as [|b bs]; [contradiction|].
  cbn [length] in Hall. rewrite Nat2Z.inj_succ in Hall. unfold Z.succ in Hall.
  rewrite inject_Z_plus in Hall.
  assert (Hn : 0 <= inject_Z (Z.of_nat (length bs))).
  { change 0 with (inject_Z 0). rewrite <- Zle_Qle. lia. }
  change (inject_Z 1) with 1 in Hall.
  set (n := inject_Z (Z.of_nat (length bs))) in *.
  assert (Hm : (n + 1) * 10000 == n * 10000 + 10000) by ring.
  rewrite Hm in Hall.
  unfold portfolio_calcs. lra.
Qed.

Lemma ranked_calcs_nil (company_metrics : CompanyMetrics) :
  ranked_calcs [] company_metrics = [].
Proof. reflexivity. Qed.

(** X4.  [calculate_portfolio_roi] raises ZeroDivisionError exactly when the
    bottleneck list is not empty and the per-item annual savings sum to
    zero; on every other input it returns. *)
Theorem portfolio_raises_iff
    (bottlenecks : list Bottleneck) (company_metrics : CompanyMetrics)
    (self : BusinessAnalyzer) (calcs : list ROICalculation) :
  Forall2
    (fun b c => calculate_bottleneck_roi b company_metrics __init__
                = (Ok c, {| calculations := [c] |}))
    bottlenecks calcs ->
  (fst (calculate_portfolio_roi bottlenecks company_metrics self) = ZeroDivisionError
   <-> bottlenecks <> [] /\ py_sum (map annual_savings calcs) == 0)
  /\ (~ (bottlenecks <> [] /\ py_sum (map annual_savings calcs) == 0) ->
      exists pf : Portfolio,
        fst (calculate_portfolio_roi bottlenecks company_metrics self) = Ok pf).
Proof.
  intros Hcalcs. apply per_item_records in Hcalcs. subst calcs.
  pose proof (py_sum_map_perm annual_savings _ _
                (ranked_calcs_perm bottlenecks company_metrics)) as Hts.
  assert (Hret : ~ (bottlenecks <> [] /\
                    py_sum (map annual_savings (portfolio_calcs bottlenecks company_metrics)) == 0) ->
                 exists pf : Portfolio,
                   fst (calculate_portfolio_roi bottlenecks company_metrics self) = Ok pf).
  { intros Hno.
    destruct (calculate_portfolio_roi_returns_summary bottlenecks company_metrics)
      as (pf & Hrun & _).
    - intros Hc Hs. apply Hno. split; [|now rewrite <- Hts].
      intros ->. rewrite ranked_calcs_nil in Hc. cbn in Hc. lra.
    - exists pf. now rewrite Hrun. }
  split; [split|exact Hret].
  - intros Hraise.
    destruct (list_eq_nil_dec bottlenecks) as [->|Hne].
    { destruct (Hret ltac:(intros [H _]; now apply H)) as (pf & Hpf).
      rewrite Hpf in Hraise. discriminate. }
    split; [exact Hne|].
    destruct (Qeq_dec (py_sum (map annual_savings (portfolio_calcs bottlenecks company_metrics))) 0)
      as [Hs|Hs]; [exact Hs|].
    destruct (Hret ltac:(intros [_ H]; now apply Hs)) as (pf & Hpf).
    rewrite Hpf in Hraise. discriminate.
  - intros [Hne Hs].
    rewrite (calculate_portfolio_roi_raises bottlenecks company_metrics
               (ranked_cost_positive _ _ Hne) ltac:(now rewrite Hts) self).
    reflexivity.
Qed.

(** X4, witness: the per-item records of the twelve sample bottlenecks. *)
Lemma portfolio_raises_iff_witness :
  (fst (calculate_portfolio_roi twelve_bottlenecks smith_law_firm __init__)
   = ZeroDivisionError
   <-> twelve_bottlenecks <> []
       /\ py_sum (map annual_savings (portfolio_calcs twelve_bottlenecks smith_law_firm))
          == 0)
  /\ (~ (twelve_bottlenecks <> []
         /\ py_sum (map annual_savings (portfolio_calcs twelve_bottlenecks smith_law_firm))
            == 0) ->
      exists pf : Portfolio,
        fst (calculate_portfolio_roi twelve_bottlenecks smith_law_firm __init__) = Ok pf).
Proof.
  exact (portfolio_raises_iff twelve_bottlenecks smith_law_firm __init__
           (portfolio_calcs twelve_bottlenecks smith_law_firm)
           (per_item_records_exist twelve_bottlenecks smith_law_firm)).
Defined.

(** X5.  In every returned portfolio of at least one bottleneck the guard
    on the total implementation cost is passed, that total being at least
    10,000 per bottleneck; the total savings are not zero; and ROI and
    payback are the two quotients, (savings - cost) / cost * 100 and
    cost / savings * 12.  The zero fallback for both is therefore used for
    the empty list only. *)
Theorem portfolio_ratios
    (bottlenecks : list Bottleneck) (company_metrics : CompanyMetrics)
    (self self' : BusinessAnalyzer) (pf : Portfolio) :
  calculate_portfolio_roi bottlenecks company_metrics self = (Ok pf, self') ->
  bottlenecks <> [] ->
  let s := portfolio_summary pf in
  inject_Z (Z.of_nat (length bottlenecks)) * 10000 <= total_implementation_cost s
  /\ 0 < total_implementation_cost s
  /\ ~ total_annual_savings s == 0
  /\ portfolio_roi_percentage s
     = (total_annual_savings s - total_implementation_cost s)
       / total_implementation_cost s * 100
  /\ portfolio_payback_months s
     = total_implementation_cost s / total_annual_savings s * 12.
Proof.
  intros Hrun Hne.
  pose proof (calculate_portfolio_roi_inv _ _ _ _ _ Hrun) as [Hsav Hsum].
  pose proof (ranked_cost_positive bottlenecks company_metrics Hne) as Hpos.
  cbv zeta in *. rewrite Hsum.
  cbn [total_implementation_cost total_annual_savings portfolio_roi_percentage
       portfolio_payback_months].
  specialize (Hsav Hpos).
  set (ti := py_sum (map implementation_cost _)) in *.
  set (ts := py_sum (map annual_savings _)) in *.
  assert (Eti : Qltb 0 ti = true) by now apply Qltb_true.
  rewrite Eti.
  repeat split; try reflexivity; try assumption.
  unfold ti.
  rewrite (py_sum_map_perm implementation_cost _ _
             (ranked_calcs_perm bottlenecks company_metrics)).
  assert (Hall : Forall (fun x => 10000 <= x)
                   (map implementation_cost
                      (portfolio_calcs bottlenecks company_metrics))).
  { unfold portfolio_calcs. rewrite map_map. apply Forall_map, Forall_forall.
    intros b _. apply roi_of_cost_positive. }
  apply py_sum_lower_bound in Hall.
  rewrite length_map in Hall. unfold portfolio_calcs in Hall at 1.
  rewrite length_map in Hall. exact Hall.
Qed.

(** X5, witness. *)
Lemma portfolio_ratios_witness :
  exists (pf : Portfolio) (self' : BusinessAnalyzer),
    calculate_portfolio_roi twelve_bottlenecks smith_law_firm __init__ = (Ok pf, self')
    /\ twelve_bottlenecks <> []
    /\ 120000 <= total_implementation_cost (portfolio_summary pf)
    /\ ~ total_annual_savings (portfolio_summary pf) == 0.
Proof.
  destruct (calculate_portfolio_roi twelve_bottlenecks smith_law_firm __init__)
    as [[pf|] self'] eqn:E.
  - exists pf, self'. split; [reflexivity|]. split; [discriminate|].
    destruct (portfolio_ratios twelve_bottlenecks smith_law_firm
                __init__ self' pf E) as (Hcost & _ & Hsav & _).
    + discriminate.
    + split; [exact Hcost|exact Hsav].
  - vm_compute in E. discriminate E.
Defined.

(** ** Executive summary *)

Lemma calculate_portfolio_roi_projects
    (bottlenecks : list Bottleneck) (company_metrics : CompanyMetrics)
    (self self' : BusinessAnalyzer) (pf : Portfolio) :
  calculate_portfolio_roi bottlenecks company_metrics self = (Ok pf, self') ->
  individual_projects pf
  = map project_of (slice_to 10 (ranked_calcs bottlenecks company_metrics)).
Proof.
  intros Hrun.
  pose proof (calculate_portfolio_roi_inv _ _ _ _ _ Hrun) as [Hsav _].
  destruct (calculate_portfolio_roi_returns bottlenecks company_metrics Hsav)
    as (pf' & Hret & Hproj).
  rewrite Hret in Hrun. now inversion Hrun; subst.
Qed.

Lemma benchmark_never_raises (company_metrics : CompanyMetrics) (self : BusinessAnalyzer) :
  exists cmp : Comparison,
    benchmark_against_industry company_metrics self = (Ok cmp, self).
Proof.
  destruct (benchmark_against_industry_runs company_metrics) as (cmp & Hrun & _).
  exists cmp. now apply runs_pure_eq.
Qed.

(** The summary, unfolded into the two calls it makes. *)
Lemma generate_executive_summary_inv
    (company_metrics : CompanyMetrics) (bottlenecks : list Bottleneck)
    (self self' : BusinessAnalyzer) (sm : Summary) :
  generate_executive_summary company_metrics bottlenecks self = (Ok sm, self') ->
  exists (pf : Portfolio) (cmp : Comparison),
    calculate_portfolio_roi bottlenecks company_metrics self = (Ok pf, self')
    /\ benchmark_against_industry company_metrics self' = (Ok cmp, self')
    /\ industry_comparison sm = cmp
    /\ top_3_opportunities sm = slice_to 3 (individual_projects pf)
    /\ roi_highlights sm
       = {| total_investment_required :=
              total_implementation_cost (portfolio_summary pf);
            annual_savings_potential := total_annual_savings (portfolio_summary pf);
            h_roi_percentage := portfolio_roi_percentage (portfolio_summary pf);
            h_payback_period_months :=
              portfolio_payback_months (portfolio_summary pf) |}
    /\ number_of_bottlenecks (key_findings sm) = length bottlenecks
    /\ automation_opportunity (key_findings sm)
       = total_annual_savings (portfolio_summary pf)
    /\ tier (executive_recommendation sm)
       = (let roi := portfolio_roi_percentage (portfolio_summary pf) in
          let payback := portfolio_payback_months (portfolio_summary pf) in
          if Qltb 200 roi && Qltb payback 6 then StronglyRecommended roi payback
          else if Qltb 100 roi && Qltb payback 12 then Recommended roi payback
          else WorthConsidering).
Proof.
  unfold generate_executive_summary, bind.
  destruct (calculate_portfolio_roi bottlenecks company_metrics self)
    as [[pf|] s1] eqn:Epf; [|discriminate].
  destruct (benchmark_never_raises company_metrics s1) as (cmp & Ecmp).
  rewrite Ecmp. cbv zeta. unfold _generate_executive_recommendation, ret.
  intros H. inversion H; subst. clear H.
  exists pf, cmp. repeat split; try reflexivity. exact Ecmp.
Qed.

Lemma roi_above_100_payback (ti ts : Q) :
  0 < ti -> 100 < (ts - ti) / ti * 100 -> 0 < ts /\ ti / ts * 12 < 6.
Proof.
  intros Hti Hroi.
  assert (Hq : (ts - ti) / ti * ti == ts - ti).
  { field. intros H0. rewrite H0 in Hti. lra. }
  assert (H1 : 1 < (ts - ti) / ti) by lra.
  assert (H2 : 1 * ti < (ts - ti) / ti * ti) by (apply Qmult_lt_compat_r; assumption).
  assert (Hts : 2 * ti < ts) by lra.
  split; [lra|].
  assert (Hd : ti / ts < 1 # 2).
  { apply Qlt_shift_div_r; [lra|]. lra. }
  lra.
Qed.

(** X6.  In every returned executive summary the recommendation tier is
    decided by the portfolio ROI alone: "strongly recommended" iff it
    exceeds 200, "recommended" iff it is in (100, 200], "worth considering"
    otherwise.  The payback tests of the code never change the outcome,
    because an ROI above 100 already means a payback below 6 months. *)
Theorem executive_tier_by_roi
    (company_metrics : CompanyMetrics) (bottlenecks : list Bottleneck)
    (self self' : BusinessAnalyzer) (sm : Summary) :
  generate_executive_summary company_metrics bottlenecks self = (Ok sm, self') ->
  let roi := h_roi_percentage (roi_highlights sm) in
  let payback := h_payback_period_months (roi_highlights sm) in
  tier (executive_recommendation sm)
  = (if Qltb 200 roi then StronglyRecommended roi payback
     else if Qltb 100 roi then Recommended roi payback
     else WorthConsidering)
  /\ (100 < roi -> payback < 6).
Proof.
  intros Hrun.
  destruct (generate_executive_summary_inv _ _ _ _ _ Hrun)
    as (pf & cmp & Hpf & _ & _ & _ & Hhl & _ & _ & Htier).
  cbv zeta in *. rewrite Hhl, Htier.
  cbn [h_roi_percentage h_payback_period_months].
  pose proof (calculate_portfolio_roi_inv _ _ _ _ _ Hpf) as [Hsav Hsum].
  cbv zeta in *. rewrite Hsum.
  cbn [portfolio_roi_percentage portfolio_payback_months].
  set (ti := py_sum (map implementation_cost _)) in *.
  set (ts := py_sum (map annual_savings _)) in *.
  assert (Himp : 100 < (if Qltb 0 ti then (ts - ti) / ti * 100 else 0) ->
                 (if Qltb 0 ti then ti / ts * 12 else 0) < 6).
  { destruct (Qltb 0 ti) eqn:Eti; [|intros; lra].
    apply Qltb_true in Eti. intros H. now apply roi_above_100_payback. }
  set (r := if Qltb 0 ti then (ts - ti) / ti * 100 else 0) in *.
  set (pb := if Qltb 0 ti then ti / ts * 12 else 0) in *.
  clearbody r pb.
  split; [|exact Himp].
  destruct (Qltb 200 r) eqn:E200.
  - apply Qltb_true in E200.
    assert (Hp : Qltb pb 6 = true).
    { apply Qltb_true, Himp. lra. }
    now rewrite Hp.
  - cbn [andb]. destruct (Qltb 100 r) eqn:E100; [|reflexivity].
    apply Qltb_true in E100.
    assert (Hp : Qltb pb 12 = true).
    { apply Qltb_true. specialize (Himp E100). lra. }
    now rewrite Hp.
Qed.

(** X6, witness. *)
Lemma executive_tier_by_roi_witness :
  exists (sm : Summary) (self' : BusinessAnalyzer),
    generate_executive_summary smith_law_firm twelve_bottlenecks __init__ = (Ok sm, self')
    /\ tier (executive_recommendation sm)
       = (if Qltb 200 (h_roi_percentage (roi_highlights sm))
          then StronglyRecommended (h_roi_percentage (roi_highlights sm))
                 (h_payback_period_months (roi_highlights sm))
          else if Qltb 100 (h_roi_percentage (roi_highlights sm))
          then Recommended (h_roi_percentage (roi_highlights sm))
                 (h_payback_period_months (roi_highlights sm))
          else WorthConsidering).
Proof.
  destruct (generate_executive_summary smith_law_firm twelve_bottlenecks __init__)
    as [[sm|] self'] eqn:E.
  - exists sm, self'. split; [reflexivity|].
    exact (proj1 (executive_tier_by_roi smith_law_firm twelve_bottlenecks
                    __init__ self' sm E)).
  - vm_compute in E. discriminate E.
Defined.

(** X7.  [generate_executive_summary] raises exactly when
    [calculate_portfolio_roi] does (the benchmark never raises).  When it
    returns, its ROI highlights are the portfolio's summary figures, its
    industry comparison is the benchmark's result, and its top
    opportunities are the first three individual projects of the portfolio:
    min(3, number of bottlenecks) entries in non-increasing roi_percentage. *)
Theorem executive_summary_composes
    (company_metrics : CompanyMetrics) (bottlenecks : list Bottleneck)
    (self : BusinessAnalyzer) :
  (fst (generate_executive_summary company_metrics bottlenecks self) = ZeroDivisionError
   <-> fst (calculate_portfolio_roi bottlenecks company_metrics self) = ZeroDivisionError)
  /\ forall (sm : Summary) (self' : BusinessAnalyzer),
       generate_executive_summary company_metrics bottlenecks self = (Ok sm, self') ->
       exists (pf : Portfolio) (cmp : Comparison),
         calculate_portfolio_roi bottlenecks company_metrics self = (Ok pf, self')
         /\ benchmark_against_industry company_metrics self' = (Ok cmp, self')
         /\ industry_comparison sm = cmp
         /\ h_roi_percentage (roi_highlights sm)
            = portfolio_roi_percentage (portfolio_summary pf)
         /\ h_payback_period_months (roi_highlights sm)
            = portfolio_payback_months (portfolio_summary pf)
         /\ top_3_opportunities sm = firstn 3 (individual_projects pf)
         /\ length (top_3_opportunities sm) = Nat.min 3 (length bottlenecks)
         /\ StronglySorted (fun p q => p_roi_percentage q <= p_roi_percentage p)
              (top_3_opportunities sm).
Proof.
  split.
  - unfold generate_executive_summary, bind.
    destruct (calculate_portfolio_roi bottlenecks company_metrics self)
      as [[pf|] s1] eqn:Epf.
    + destruct (benchmark_never_raises company_metrics s1) as (cmp & Ecmp).
      rewrite Ecmp. cbn. split; discriminate.
    + cbn. split; reflexivity.
  - intros sm self' Hrun.
    destruct (generate_executive_summary_inv _ _ _ _ _ Hrun)
      as (pf & cmp & Hpf & Hcmp & Hic & Htop & Hhl & _).
    exists pf, cmp.
    pose proof (calculate_portfolio_roi_projects _ _ _ _ _ Hpf) as Hproj.
    assert (Hsorted : StronglySorted
                        (fun p q => p_roi_percentage q <= p_roi_percentage p)
                        (individual_projects pf)).
    { rewrite Hproj. apply StronglySorted_map. cbn [project_of p_roi_percentage].
      apply StronglySorted_firstn, sorted_reverse_descending. }
    rewrite Hhl, Htop. cbn [h_roi_percentage h_payback_period_months].
    repeat split; try assumption.
    + unfold slice_to. rewrite length_firstn, Hproj, length_map.
      unfold slice_to. rewrite length_firstn.
      unfold ranked_calcs. rewrite sorted_reverse_length.
      unfold portfolio_calcs. rewrite length_map. lia.
    + now apply StronglySorted_firstn.
Qed.

(** ** Industry benchmark: rating bands *)

Lemma benchmark_row_cases (k : string) :
  let row :=
    dict_get INDUSTRY_BENCHMARKS k (INDUSTRY_BENCHMARKS !!! "default"%string) in
  revenue_per_employee row = 200000 \/ revenue_per_employee row = 150000
  \/ revenue_per_employee row = 175000 \/ revenue_per_employee row = 125000
  \/ revenue_per_employee row = 100000.
Proof.
  cbv zeta. unfold dict_get.
  set (dflt := INDUSTRY_BENCHMARKS !!! "default"%string).
  assert (Hd : revenue_per_employee dflt = 100000) by reflexivity.
  clearbody dflt. unfold INDUSTRY_BENCHMARKS.
  cbn [list_to_map foldr uncurry fst snd].
  destruct (String.eqb_spec k "legal") as [->|?]; [left; reflexivity|].
  destruct (String.eqb_spec k "accounting") as [->|?]; [right; left; reflexivity|].
  destruct (String.eqb_spec k "consulting") as [->|?];
    [right; right; left; reflexivity|].
  destruct (String.eqb_spec k "msp") as [->|?];
    [right; right; right; left; reflexivity|].
  destruct (String.eqb_spec k "default") as [->|?];
    [right; right; right; right; reflexivity|].
  rewrite !lookup_insert_ne by congruence. rewrite lookup_empty.
  right; right; right; right. exact Hd.
Qed.

Lemma benchmark_row_positive (k : string) :
  0 < revenue_per_employee
        (dict_get INDUSTRY_BENCHMARKS k (INDUSTRY_BENCHMARKS !!! "default"%string)).
Proof.
  destruct (benchmark_row_cases k) as [H|[H|[H|[H|H]]]]; cbv zeta in H; rewrite H;
    reflexivity.
Qed.

Lemma difference_band (a c t : Q) :
  0 < a -> (t < (c - a) / a * 100 <-> a * (1 + t / 100) < c).
Proof.
  intros Ha.
  assert (Hq : (c - a) / a * a == c - a).
  { field. intros H0. rewrite H0 in Ha. lra. }
  assert (Ht : a * (1 + t / 100) == a + t * (1 # 100) * a) by field.
  rewrite Ht. set (q := (c - a) / a) in *. clearbody q.
  split; intros H.
  - assert (H1 : t * (1 # 100) < q) by lra.
    apply (Qmult_lt_compat_r _ _ a) in H1; [|exact Ha]. lra.
  - assert (H1 : t * (1 # 100) * a < q * a) by lra.
    apply Qmult_lt_r in H1; [|exact Ha]. lra.
Qed.

(** What [benchmark_against_industry] returns, field by field. *)
Lemma benchmark_against_industry_inv
    (company_metrics : CompanyMetrics) (self : BusinessAnalyzer) :
  let a :=
    revenue_per_employee
      (dict_get INDUSTRY_BENCHMARKS
         (lower (get (industry company_metrics) "default"%string))
         (INDUSTRY_BENCHMARKS !!! "default"%string)) in
  let employees := get (employee_count company_metrics) 1%Z in
  let c :=
    if (0 <? employees)%Z
    then get (annual_revenue company_metrics) 0 / inject_Z employees else 0 in
  let rating :=
    if Qltb 20 ((c - a) / a * 100) then "Above Average"%string
    else if Qltb (-20) ((c - a) / a * 100) then "Average"%string
    else "Below Average"%string in
  exists cmp : Comparison,
    benchmark_against_industry company_metrics self = (Ok cmp, self)
    /\ company (c_revenue_per_employee cmp) = c
    /\ industry_average (c_revenue_per_employee cmp) = a
    /\ difference_percentage (c_revenue_per_employee cmp) = (c - a) / a * 100
    /\ performance_rating cmp = rating
    /\ improvement_potential cmp
       = (if String.eqb rating "Below Average" then (a - c) * inject_Z employees else 0).
Proof.
  intros a employees c rating.
  pose proof (benchmark_row_positive
                (lower (get (industry company_metrics) "default"%string))) as Ha.
  fold a in Ha.
  assert (Hc : runs (if (0 <? employees)%Z
                     then div (get (annual_revenue company_metrics) 0) (inject_Z employees)
                     else ret 0) (Ok c) []).
  { unfold c. destruct (0 <? employees)%Z eqn:E; [|apply runs_ret].
    apply Z.ltb_lt in E. apply runs_div_ok, inject_Z_nonzero. lia. }
  assert (Ea : Qltb 0 a = true) by now apply Qltb_true.
  assert (Hna : ~ a == 0) by (intros H0; rewrite H0 in Ha; lra).
  eexists. split.
  - apply runs_pure_eq. unfold benchmark_against_industry. cbv zeta.
    fold a. fold employees.
    eapply runs_bind_pure; [exact Hc|].
    rewrite Ea.
    eapply runs_bind_pure.
    { eapply runs_bind_pure; [apply (runs_div_ok _ _ Hna)|]. apply runs_ret. }
    apply runs_ret.
  - repeat split.
Qed.

(** X8.  [benchmark_against_industry] rates by the ratio of the company's
    revenue per employee c to the industry average a (which is positive for
    every industry): "Above Average" iff c > 1.2 a, "Below Average" iff
    c <= 0.8 a, "Average" in between; c = a is "Average" with improvement
    potential 0.  When the rating is "Below Average" the improvement
    potential is (a - c) * employee_count; with employee_count = 0 the
    rating is always "Below Average" and the potential is 0. *)
Theorem benchmark_rating_bands
    (company_metrics : CompanyMetrics) (self : BusinessAnalyzer) :
  exists cmp : Comparison,
    benchmark_against_industry company_metrics self = (Ok cmp, self)
    /\ let c := company (c_revenue_per_employee cmp) in
       let a := industry_average (c_revenue_per_employee cmp) in
       let employees := get (employee_count company_metrics) 1%Z in
       0 < a
       /\ (performance_rating cmp = "Above Average"%string <-> a * 1.2 < c)
       /\ (performance_rating cmp = "Average"%string <-> a * 0.8 < c <= a * 1.2)
       /\ (performance_rating cmp = "Below Average"%string <-> c <= a * 0.8)
       /\ (c == a ->
           performance_rating cmp = "Average"%string /\ improvement_potential cmp = 0)
       /\ (performance_rating cmp = "Below Average"%string ->
           improvement_potential cmp = (a - c) * inject_Z employees)
       /\ (performance_rating cmp <> "Below Average"%string ->
           improvement_potential cmp = 0)
       /\ (employees = 0%Z ->
           performance_rating cmp = "Below Average"%string
           /\ improvement_potential cmp == 0).
Proof.
  destruct (benchmark_against_industry_inv company_metrics self)
    as (cmp & Hrun & Hc & Ha & _ & Hr & Hp).
  exists cmp. split; [exact Hrun|]. cbv zeta in *.
  rewrite Hc, Ha, Hr, Hp. clear Hrun Hc Ha Hr Hp cmp.
  set (a := revenue_per_employee _).
  set (employees := get (employee_count company_metrics) 1%Z).
  set (c := if (0 <? employees)%Z then _ else 0).
  assert (Hc0 : employees = 0%Z -> c = 0) by (intros H; unfold c; now rewrite H).
  clearbody c employees.
  pose proof (benchmark_row_positive
                (lower (get (industry company_metrics) "default"%string))) as Hapos.
  fold a in Hapos. clearbody a.
  pose proof (difference_band a c 20 Hapos) as H20.
  pose proof (difference_band a c (-20) Hapos) as Hm20.
  assert (E1 : a * (1 + 20 / 100) == a * 1.2) by field.
  assert (E2 : a * (1 + -20 / 100) == a * 0.8) by field.
  rewrite E1 in H20. rewrite E2 in Hm20. clear E1 E2.
  set (d := (c - a) / a * 100) in *. clearbody d.
  split; [exact Hapos|].
  assert (Hcases :
            (Qltb 20 d = true /\ a * 1.2 < c)
            \/ (Qltb 20 d = false /\ Qltb (-20) d = true
                /\ c <= a * 1.2 /\ a * 0.8 < c)
            \/ (Qltb 20 d = false /\ Qltb (-20) d = false /\ c <= a * 0.8)).
  { destruct (Qltb 20 d) eqn:Ed1.
    - left. split; [reflexivity|]. apply H20. now apply Qltb_true.
    - right. apply Qltb_false in Ed1.
      assert (Hle : c <= a * 1.2).
      { apply Qnot_lt_le. intros Hx. apply H20 in Hx. lra. }
      destruct (Qltb (-20) d) eqn:Ed2.
      + left. repeat split; try assumption. apply Hm20. now apply Qltb_true.
      + right. repeat split. apply Qltb_false in Ed2.
        apply Qnot_lt_le. intros Hx. apply Hm20 in Hx. lra. }
  clear H20 Hm20.
  destruct Hcases as [[E1 Hc]|[(E1 & E2 & Hc1 & Hc2)|(E1 & E2 & Hc)]];
    rewrite E1; try rewrite E2; cbn [String.eqb Ascii.eqb Bool.eqb];
    repeat split; intros; try discriminate; try reflexivity; try lra;
    try (exfalso; lra); try congruence;
    match goal with
    | H : employees = 0%Z |- _ =>
        rewrite (Hc0 H) in *; rewrite ?H; try (exfalso; lra); cbn; ring
    end.
Qed.

(** ** The metric analysis *)

Section MetricAnalysis.
Import business_analyzer_metrics.

Lemma _categorize_company_size_runs (e : Z) :
  runs (_categorize_company_size e)
    (Ok (if (e <? 20)%Z then "Micro"
         else if (e <? 50)%Z then "Small"
         else if (e <? 250)%Z then "Medium"
         else if (e <? 500)%Z then "Mid-Market" else "Enterprise")%string) [].
Proof.
  unfold _categorize_company_size.
  repeat match goal with |- context [if ?b then _ else _] => destruct b end;
    apply runs_ret.
Qed.

Lemma _calculate_revenue_per_employee_runs (metrics : CompanyMetrics) :
  runs (_calculate_revenue_per_employee metrics)
    (Ok (if (0 <? get (employee_count metrics) 1)%Z
         then get (annual_revenue metrics) 0
              / inject_Z (get (employee_count metrics) 1%Z)
         else 0)) [].
Proof.
  unfold _calculate_revenue_per_employee. cbv zeta.
  destruct (0 <? _)%Z eqn:E; [|apply runs_ret].
  apply Z.ltb_lt in E. apply runs_div_ok, inject_Z_nonzero. lia.
Qed.

Lemma _compare_to_industry_runs (metrics : CompanyMetrics) :
  let a :=
    revenue_per_employee
      (dict_get INDUSTRY_BENCHMARKS (lower (get (industry metrics) "default"%string))
         (INDUSTRY_BENCHMARKS !!! "default"%string)) in
  let c :=
    if (0 <? get (employee_count metrics) 1)%Z
    then get (annual_revenue metrics) 0 / inject_Z (get (employee_count metrics) 1%Z)
    else 0 in
  runs (_compare_to_industry metrics)
    (Ok (if Qltb (a * 1.2) c then "Outperforming industry"
         else if Qltb (a * 0.8) c then "Industry average"
         else "Below industry average")%string) [].
Proof.
  intros a c. unfold _compare_to_industry. cbv zeta. fold a.
  eapply runs_bind_pure; [apply _calculate_revenue_per_employee_runs|].
  fold c.
  destruct (Qltb (a * 1.2) c); [apply runs_ret|].
  destruct (Qltb (a * 0.8) c); apply runs_ret.
Qed.

Lemma _assess_automation_readiness_runs (metrics : CompanyMetrics) :
  exists r : string,
    runs (_assess_automation_readiness metrics) (Ok r) []
    /\ let e := get (employee_count metrics) 0%Z in
       let rev := get (annual_revenue metrics) 0 in
       let n := length (get (technology_stack metrics) []) in
       (r = "High - Ready for comprehensive automation"%string
        <-> ((10 <= e)%Z /\ 1000000 <= rev /\ (1 <= n)%nat)
            /\ (((20 <= e)%Z /\ 5000000 <= rev)
                \/ ((20 <= e)%Z /\ (3 <= n)%nat)
                \/ (5000000 <= rev /\ (3 <= n)%nat)))
       /\ (r = "Low - Start with basic automation"%string
           \/ r = "Medium - Ready for targeted automation"%string
           \/ r = "High - Ready for comprehensive automation"%string)
       /\ ((e < 10)%Z /\ rev < 1000000 ->
           r = "Low - Start with basic automation"%string)
       /\ ((e < 10)%Z /\ (n = 0)%nat ->
           r = "Low - Start with basic automation"%string)
       /\ (rev < 1000000 /\ (n = 0)%nat ->
           r = "Low - Start with basic automation"%string).
Proof.
  unfold _assess_automation_readiness. cbv zeta.
  set (e := get (employee_count metrics) 0%Z).
  set (rev := get (annual_revenue metrics) 0).
  set (n := length (get (technology_stack metrics) [])).
  clearbody e rev n.
  destruct (20 <=? e)%Z eqn:E1; [apply Z.leb_le in E1|apply Z.leb_gt in E1];
    [|destruct (10 <=? e)%Z eqn:E1';
       [apply Z.leb_le in E1'|apply Z.leb_gt in E1']];
    (destruct (Qle_bool 5000000 rev) eqn:E2;
       [apply Qle_bool_iff in E2
       |assert (rev < 5000000)
          by (apply Qnot_le_lt; intros Hx; apply Qle_bool_iff in Hx; congruence);
        clear E2;
        destruct (Qle_bool 1000000 rev) eqn:E2';
          [apply Qle_bool_iff in E2'
          |assert (rev < 1000000)
             by (apply Qnot_le_lt; intros Hx; apply Qle_bool_iff in Hx; congruence);
           clear E2']]);
    (destruct (3 <=? n)%nat eqn:E3;
       [apply Nat.leb_le in E3
       |apply Nat.leb_gt in E3;
        destruct (1 <=? n)%nat eqn:E3';
          [apply Nat.leb_le in E3'|apply Nat.leb_gt in E3']]);
    cbn [Z.add Z.leb Z.compare Pos.compare Pos.compare_cont Pos.add Pos.succ];
    (eexists; split; [apply runs_ret|]);
    (split; [split; [discriminate || (intros _; repeat split; try lia; try lra;
                                       try (left; split; (lia || lra));
                                       try (right; left; split; (lia || lra));
                                       try (right; right; split; (lia || lra)))
                    |try (intros _; reflexivity);
                     try (intros [(He & Hr & Hn) [[? ?]|[[? ?]|[? ?]]]];
                          exfalso; (lia || lra))]
           |split; [auto|];
            repeat split; intros [? ?]; try reflexivity; exfalso; (lia || lra)]).
Qed.

Lemma _assess_growth_potential_runs (metrics : CompanyMetrics) :
  runs (_assess_growth_potential metrics)
    (Ok (if (get (employee_count metrics) 0 <? 50)%Z
         then "High - Can scale 2-3x with same headcount"
         else if (get (employee_count metrics) 0 <? 200)%Z
         then "Medium - Can scale 1.5-2x with same headcount"
         else "Moderate - Can improve efficiency 20-50%")%string) [].
Proof.
  unfold _assess_growth_potential. cbv zeta.
  destruct (_ <? 50)%Z; [apply runs_ret|].
  destruct (_ <? 200)%Z; apply runs_ret.
Qed.

End MetricAnalysis.

Section MetricAnalysisTheorems.
Import business_analyzer_metrics.

Lemma Qltb_congr (x y u v : Q) : (x < y <-> u < v) -> Qltb x y = Qltb u v.
Proof.
  intros H. destruct (Qltb x y) eqn:E1, (Qltb u v) eqn:E2; try reflexivity.
  - apply Qltb_true in E1. apply H, Qltb_true in E1. congruence.
  - apply Qltb_true in E2. apply H, Qltb_true in E2. congruence.
Qed.

Lemma analyze_business_metrics_runs (metrics : CompanyMetrics) :
  let e := get (employee_count metrics) 0%Z in
  let a :=
    revenue_per_employee
      (dict_get INDUSTRY_BENCHMARKS (lower (get (industry metrics) "default"%string))
         (INDUSTRY_BENCHMARKS !!! "default"%string)) in
  let c :=
    if (0 <? get (employee_count metrics) 1)%Z
    then get (annual_revenue metrics) 0 / inject_Z (get (employee_count metrics) 1%Z)
    else 0 in
  exists r : string,
    runs (_assess_automation_readiness metrics) (Ok r) []
    /\ runs (analyze_business_metrics metrics)
         (Ok {| company_size_category :=
                  (if (e <? 20)%Z then "Micro"
                   else if (e <? 50)%Z then "Small"
                   else if (e <? 250)%Z then "Medium"
                   else if (e <? 500)%Z then "Mid-Market" else "Enterprise")%string;
                a_revenue_per_employee := c;
                a_industry_comparison :=
                  (if Qltb (a * 1.2) c then "Outperforming industry"
                   else if Qltb (a * 0.8) c then "Industry average"
                   else "Below industry average")%string;
                automation_readiness := r;
                growth_potential :=
                  (if (e <? 50)%Z
                   then "High - Can scale 2-3x with same headcount"
                   else if (e <? 200)%Z
                   then "Medium - Can scale 1.5-2x with same headcount"
                   else "Moderate - Can improve efficiency 20-50%")%string |}) [].
Proof.
  intros e a c.
  destruct (_assess_automation_readiness_runs metrics) as (r & Hr & _).
  exists r. split; [exact Hr|].
  unfold analyze_business_metrics.
  eapply runs_bind_pure; [apply _categorize_company_size_runs|].
  eapply runs_bind_pure; [apply _calculate_revenue_per_employee_runs|].
  eapply runs_bind_pure; [apply _compare_to_industry_runs|].
  eapply runs_bind_pure; [exact Hr|].
  eapply runs_bind_pure; [apply _assess_growth_potential_runs|].
  apply runs_ret.
Qed.

(** X9.  [analyze_business_metrics] never raises and leaves the analyzer
    unchanged.  Its revenue per employee is the figure that
    [benchmark_against_industry] reports for the company, and its industry
    comparison agrees with the benchmark's performance rating:
    "Outperforming industry" iff "Above Average", "Industry average" iff
    "Average", "Below industry average" iff "Below Average". *)
Theorem analysis_agrees_with_benchmark
    (metrics : CompanyMetrics) (self : BusinessAnalyzer) :
  exists (an : Analysis) (cmp : Comparison),
    analyze_business_metrics metrics self = (Ok an, self)
    /\ benchmark_against_industry metrics self = (Ok cmp, self)
    /\ a_revenue_per_employee an = company (c_revenue_per_employee cmp)
    /\ (a_industry_comparison an = "Outperforming industry"%string
        <-> performance_rating cmp = "Above Average"%string)
    /\ (a_industry_comparison an = "Industry average"%string
        <-> performance_rating cmp = "Average"%string)
    /\ (a_industry_comparison an = "Below industry average"%string
        <-> performance_rating cmp = "Below Average"%string).
Proof.
  destruct (analyze_business_metrics_runs metrics) as (r & _ & Han).
  destruct (benchmark_against_industry_inv metrics self)
    as (cmp & Hcmp & Hc & _ & _ & Hrating & _).
  cbv zeta in *.
  eexists. exists cmp.
  split; [apply runs_pure_eq, Han|]. split; [exact Hcmp|].
  rewrite Hc, Hrating. cbn [a_revenue_per_employee a_industry_comparison].
  set (a := revenue_per_employee _).
  set (c := if (0 <? _)%Z then _ else 0).
  pose proof (benchmark_row_positive
                (lower (get (industry metrics) "default"%string))) as Ha.
  fold a in Ha.
  assert (H1 : Qltb 20 ((c - a) / a * 100) = Qltb (a * 1.2) c).
  { apply Qltb_congr. rewrite (difference_band a c 20 Ha).
    assert (E : a * (1 + 20 / 100) == a * 1.2) by field. now rewrite E. }
  assert (H2 : Qltb (-20) ((c - a) / a * 100) = Qltb (a * 0.8) c).
  { apply Qltb_congr. rewrite (difference_band a c (-20) Ha).
    assert (E : a * (1 + -20 / 100) == a * 0.8) by field. now rewrite E. }
  rewrite H1, H2.
  split; [reflexivity|].
  destruct (Qltb (a * 1.2) c), (Qltb (a * 0.8) c);
    repeat split; intros; try discriminate; reflexivity.
Qed.

(** X10.  [_assess_automation_readiness] returns one of its three levels.
    It is "High" exactly when every factor scores (at least 10 employees,
    at least 1,000,000 revenue, at least one technology) and two of them
    score fully (20 employees, 5,000,000 revenue, three technologies); it is
    "Low" whenever two of the three factors do not score. *)
Theorem automation_readiness_levels
    (metrics : CompanyMetrics) (self : BusinessAnalyzer) :
  exists r : string,
    _assess_automation_readiness metrics self = (Ok r, self)
    /\ let e := get (employee_count metrics) 0%Z in
       let rev := get (annual_revenue metrics) 0 in
       let n := length (get (technology_stack metrics) []) in
       (r = "High - Ready for comprehensive automation"%string
        <-> ((10 <= e)%Z /\ 1000000 <= rev /\ (1 <= n)%nat)
            /\ (((20 <= e)%Z /\ 5000000 <= rev)
                \/ ((20 <= e)%Z /\ (3 <= n)%nat)
                \/ (5000000 <= rev /\ (3 <= n)%nat)))
       /\ (r = "Low - Start with basic automation"%string
           \/ r = "Medium - Ready for targeted automation"%string
           \/ r = "High - Ready for comprehensive automation"%string)
       /\ ((e < 10)%Z /\ rev < 1000000 ->
           r = "Low - Start with basic automation"%string)
       /\ ((e < 10)%Z /\ (n = 0)%nat ->
           r = "Low - Start with basic automation"%string)
       /\ (rev < 1000000 /\ (n = 0)%nat ->
           r = "Low - Start with basic automation"%string).
Proof.
  destruct (_assess_automation_readiness_runs metrics) as (r & Hr & Hprops).
  exists r. split; [apply runs_pure_eq, Hr|exact Hprops].
Qed.

(** X11.  In the analysis the two labels derived from the head count are
    consistent: growth potential is "High" exactly for the size categories
    "Micro" and "Small"; "Mid-Market" and "Enterprise" companies are always
    "Moderate"; a "Medium" growth potential occurs only in the "Medium"
    size category. *)
Theorem analysis_size_and_growth
    (metrics : CompanyMetrics) (self : BusinessAnalyzer) :
  exists an : Analysis,
    analyze_business_metrics metrics self = (Ok an, self)
    /\ (growth_potential an = "High - Can scale 2-3x with same headcount"%string
        <-> company_size_category an = "Micro"%string
            \/ company_size_category an = "Small"%string)
    /\ (company_size_category an = "Mid-Market"%string
        \/ company_size_category an = "Enterprise"%string ->
        growth_potential an = "Moderate - Can improve efficiency 20-50%"%string)
    /\ (growth_potential an = "Medium - Can scale 1.5-2x with same headcount"%string ->
        company_size_category an = "Medium"%string).
Proof.
  destruct (analyze_business_metrics_runs metrics) as (r & _ & Han).
  cbv zeta in Han.
  eexists. split; [apply runs_pure_eq, Han|].
  cbn [growth_potential company_size_category].
  set (e := get (employee_count metrics) 0%Z). clearbody e.
  destruct (e <? 20)%Z eqn:E20; [apply Z.ltb_lt in E20|apply Z.ltb_ge in E20];
    (destruct (e <? 50)%Z eqn:E50; [apply Z.ltb_lt in E50|apply Z.ltb_ge in E50]);
    (destruct (e <? 200)%Z eqn:E200; [apply Z.ltb_lt in E200|apply Z.ltb_ge in E200]);
    (destruct (e <? 250)%Z eqn:E250; [apply Z.ltb_lt in E250|apply Z.ltb_ge in E250]);
    (destruct (e <? 500)%Z eqn:E500; [apply Z.ltb_lt in E500|apply Z.ltb_ge in E500]);
    try lia;
    repeat split; intros; try discriminate; try reflexivity; try tauto;
    repeat match goal with H : _ \/ _ |- _ => destruct H end; try discriminate;
    try (left; reflexivity); try (right; reflexivity).
Qed.

End MetricAnalysisTheorems.

(** ** The pipeline's processors *)

Section PipelineProcessors.
Import data_pipeline.
Variable generate_id : string -> Bottleneck -> string.

(** What [process_bottleneck] writes and what it leaves alone. *)
Lemma process_bottleneck_fields (record : DataRecord) :
  let d := data record in
  let m :=
    inject_Z (spec_occurrences 52 (get (frequency d) "weekly"%string)) in
  let d' := data (process_bottleneck generate_id record) in
  annual_hours_impact d' = Some (get (time_impact_hours d) 0 * m)
  /\ annual_cost_impact d' = Some (get (cost_impact d) 0 * m)
  /\ name d' = name d /\ frequency d' = frequency d
  /\ time_impact_hours d' = time_impact_hours d
  /\ cost_impact d' = cost_impact d
  /\ automation_potential d' = automation_potential d
  /\ solution_complexity d' = solution_complexity d
  /\ (forall p : string, priority d = Some p -> priority d' = Some p)
  /\ (exists p : string, priority d' = Some p)
  /\ record_type (process_bottleneck generate_id record) = record_type record
  /\ (id record <> ""%string ->
      id (process_bottleneck generate_id record) = id record).
Proof.
  cbv zeta. unfold process_bottleneck. cbv zeta. rewrite pipeline_frequency_get.
  destruct record as [i t d]. cbn [data id record_type].
  destruct d as [nm fq ti co ah ac ap sc pr].
  cbn [set_annual priority frequency time_impact_hours cost_impact name
       annual_hours_impact annual_cost_impact automation_potential solution_complexity].
  destruct pr as [p|].
  - repeat split; try reflexivity; try (now eexists); try (intros ? H; exact H).
    intros Hi. apply String.eqb_neq in Hi. now rewrite Hi.
  - repeat match goal with |- context [if Qltb ?x ?y then _ else _] =>
             destruct (Qltb x y) end;
      cbn [set_priority priority frequency time_impact_hours cost_impact name
           annual_hours_impact annual_cost_impact automation_potential
           solution_complexity];
      repeat split; try reflexivity; try (intros ? H; discriminate H);
      try (now eexists);
      intros Hi; apply String.eqb_neq in Hi; now rewrite Hi.
Qed.

(** X12.  [process_bottleneck] is idempotent on the data: processing a
    processed record again changes none of its fields, and changes nothing
    at all once the record has an id.  It never alters the name, the
    frequency, the per-occurrence figures, the automation potential, the
    complexity or a priority that was supplied. *)
Theorem process_bottleneck_idempotent (record : DataRecord) :
  let once := process_bottleneck generate_id record in
  data (process_bottleneck generate_id once) = data once
  /\ (id once <> ""%string -> process_bottleneck generate_id once = once)
  /\ name (data once) = name (data record)
  /\ frequency (data once) = frequency (data record)
  /\ time_impact_hours (data once) = time_impact_hours (data record)
  /\ cost_impact (data once) = cost_impact (data record)
  /\ automation_potential (data once) = automation_potential (data record)
  /\ solution_complexity (data once) = solution_complexity (data record)
  /\ (forall p : string,
        priority (data record) = Some p -> priority (data once) = Some p).
Proof.
  cbv zeta.
  pose proof (process_bottleneck_fields record) as
    (Hah & Hac & Hn & Hf & Ht & Hc & Hap & Hsc & Hp & (p & Hp') & Hrt & Hid).
  cbv zeta in *.
  assert (Hdata : data (process_bottleneck generate_id
                          (process_bottleneck generate_id record))
                  = data (process_bottleneck generate_id record)).
  { set (once := process_bottleneck generate_id record) in *.
    unfold process_bottleneck at 1. cbv zeta. rewrite pipeline_frequency_get.
    rewrite Hf, Ht, Hc.
    destruct once as [i t d]. cbn [data id record_type] in *.
    destruct d as [nm fq ti co ah ac ap sc pr].
    cbn [set_annual priority frequency time_impact_hours cost_impact name
         annual_hours_impact annual_cost_impact automation_potential
         solution_complexity] in *.
    rewrite Hp'. now rewrite Hah, Hac. }
  repeat split; try assumption.
  intros Hi.
  set (once := process_bottleneck generate_id record) in *.
  pose proof (process_bottleneck_fields once) as
    (_ & _ & _ & _ & _ & _ & _ & _ & _ & _ & Hrt2 & Hid2).
  cbv zeta in *. specialize (Hid2 Hi).
  destruct (process_bottleneck generate_id once) as [i2 t2 d2].
  destruct once as [i1 t1 d1]. cbn [data id record_type] in *. congruence.
Qed.

(** X13.  [calculate_bottleneck_roi] on the data that [process_bottleneck]
    leaves in a record: it returns, and the record has current_cost =
    time_impact_hours * occurrences * hourly cost (occurrences 250, 52, 12
    or 4 for an exactly matching frequency and 52 otherwise, missing hours
    counted as 0), improved_cost = current_cost * (1 - automation_potential)
    with the potential of the original record (0.7 when missing), and
    annual_savings = current_cost - improved_cost.  For non-negative hours
    and hourly cost and a potential between 0 and 1, the savings and the
    improved cost both lie between 0 and the current cost. *)
Theorem processed_bottleneck_roi
    (record : DataRecord) (company_metrics : CompanyMetrics) (self : BusinessAnalyzer) :
  let d := data record in
  let m := inject_Z (spec_occurrences 52 (get (frequency d) "weekly"%string)) in
  let potential := get (automation_potential d) 0.7 in
  exists (c : ROICalculation) (hourly_cost : Q),
    calculate_bottleneck_roi (data (process_bottleneck generate_id record))
      company_metrics self
    = (Ok c, {| calculations := calculations self ++ [c] |})
    /\ _get_hourly_cost company_metrics self = (Ok hourly_cost, self)
    /\ current_cost c = get (time_impact_hours d) 0 * m * hourly_cost
    /\ improved_cost c = current_cost c * (1 - potential)
    /\ annual_savings c = current_cost c - improved_cost c
    /\ (0 <= get (time_impact_hours d) 0 -> 0 <= hourly_cost ->
        0 <= potential <= 1 ->
        0 <= annual_savings c <= current_cost c
        /\ 0 <= improved_cost c <= current_cost c).
Proof.
  cbv zeta.
  pose proof (process_bottleneck_fields record) as
    (Hah & _ & _ & _ & _ & _ & Hap & _).
  cbv zeta in *.
  exists (roi_of (data (process_bottleneck generate_id record)) company_metrics),
    (hourly_cost_of company_metrics).
  split; [apply calculate_bottleneck_roi_runs|].
  split; [apply runs_pure_eq, _get_hourly_cost_runs|].
  unfold roi_of. cbv zeta. cbn [current_cost annual_savings improved_cost].
  rewrite Hah, Hap. cbn [get default from_option id].
  split; [reflexivity|]. split; [reflexivity|]. split; [reflexivity|].
  intros Ht Hh Hp. unfold Datatypes.id.
  assert (Hm : 0 <= inject_Z (spec_occurrences 52
                                (get (frequency (data record)) "weekly"%string))).
  { unfold spec_occurrences.
    repeat match goal with |- context [if ?c then _ else _] => destruct c end;
      unfold Qle; cbn; lia. }
  set (t := get (time_impact_hours (data record)) 0) in *.
  set (occurrences := inject_Z _) in *.
  set (h := hourly_cost_of company_metrics) in *.
  set (p := get (automation_potential (data record)) 0.7) in *.
  clearbody t occurrences h p.
  assert (Hc : 0 <= t * occurrences * h).
  { apply Qmult_le_0_compat; [apply Qmult_le_0_compat|]; assumption. }
  set (cur := t * occurrences * h) in *. clearbody cur.
  assert (Hi : 0 <= cur * (1 - p)) by (apply Qmult_le_0_compat; lra).
  assert (Hs : 0 <= cur * p) by (apply Qmult_le_0_compat; lra).
  assert (He : cur * (1 - p) == cur - cur * p) by ring.
  lra.
Qed.

End PipelineProcessors.

Section InsightProcessors.
Import data_pipeline_insights.
Variable generate_id : string -> Insight -> string.

Lemma effort_multiplier_get (k : string) :
  dict_get effort_multiplier k 1.0
  = if String.eqb k "low" then 1.5 else if String.eqb k "high" then 0.5 else 1.0.
Proof.
  unfold dict_get, effort_multiplier. cbn [list_to_map foldr uncurry fst snd].
  destruct (String.eqb_spec k "low") as [->|?]; [reflexivity|].
  destruct (String.eqb_spec k "high") as [->|?]; [reflexivity|].
  destruct (String.eqb_spec k "medium") as [->|?]; [reflexivity|].
  rewrite !lookup_insert_ne by congruence. now rewrite lookup_empty.
Qed.

(** X14.  An insight that [validate_insight] accepts carries a
    consultation id, a text and a confidence between 0 and 1; the priority
    score that [process_insight] then stores is potential_value *
    confidence * factor, where the factor is 1.5 for implementation_effort
    "low", 0.5 for "high" and 1.0 for "medium", for any other string and
    for a missing effort; so for a non-negative potential value the score
    lies between 0 and 1.5 times that value, and the default confidence 0.5
    is never used. *)
Theorem validated_insight_score (record : InsightRecord) :
  validate_insight record = true ->
  0 <= get (potential_value (data record)) 0 ->
  let value := get (potential_value (data record)) 0 in
  let effort := get (implementation_effort (data record)) "medium"%string in
  let factor :=
    if String.eqb effort "low" then 1.5
    else if String.eqb effort "high" then 0.5 else 1.0 in
  exists conf : Q,
    confidence (data record) = Some conf
    /\ 0 <= conf <= 1
    /\ is_present (consultation_id (data record)) = true
    /\ is_present (insight (data record)) = true
    /\ priority_score (data (process_insight generate_id record))
       = Some (value * conf * factor)
    /\ 0 <= value * conf * factor <= 1.5 * value.
Proof.
  intros Hv Hval. cbv zeta.
  unfold validate_insight in Hv. cbv zeta in Hv.
  destruct (consultation_id (data record)) as [cid|] eqn:Ecid;
    [|cbn in Hv; discriminate Hv].
  destruct (insight (data record)) as [txt|] eqn:Etxt;
    [|cbn in Hv; discriminate Hv].
  destruct (confidence (data record)) as [conf|] eqn:Econf;
    [|cbn in Hv; discriminate Hv].
  cbn [is_present negb] in Hv. change (get (Some conf) 0) with conf in Hv.
  destruct (Qle_bool 0 conf) eqn:E0; [|cbn in Hv; discriminate Hv].
  destruct (Qle_bool conf 1) eqn:E1; [|cbn in Hv; discriminate Hv].
  apply Qle_bool_iff in E0, E1.
  set (value := get (potential_value (data record)) 0) in *.
  exists conf.
  split; [reflexivity|]. split; [split; assumption|].
  split; [reflexivity|]. split; [reflexivity|].
  split.
  { unfold process_insight. cbv zeta. cbn [data set_priority_score priority_score].
    rewrite Econf, effort_multiplier_get. reflexivity. }
  assert (Hvc : 0 <= value * conf) by (apply Qmult_le_0_compat; assumption).
  assert (Hvc1 : value * conf <= value).
  { rewrite <- (Qmult_1_r value) at 2.
    rewrite (Qmult_comm value conf), (Qmult_comm value 1).
    apply Qmult_le_compat_r; assumption. }
  set (vc := value * conf) in *. clearbody vc.
  destruct (String.eqb _ "low"); [|destruct (String.eqb _ "high")]; lra.
Qed.

End InsightProcessors.

Section InsightExamples.
Import data_pipeline_insights.

(** X14, witness: an insight of low effort. *)
Lemma validated_insight_score_witness :
  exists conf : Q,
    confidence
      (data {| id := "i-1"; record_type := "insight";
               data := {| consultation_id := Some "c-1"%string; category := None;
                          insight := Some "Automate intake"%string;
                          confidence := Some 0.8; potential_value := Some 50000;
                          implementation_effort := Some "low"%string;
                          priority_score := None |} |}) = Some conf
    /\ priority_score
         (data (process_insight (fun _ _ => ""%string)
                  {| id := "i-1"; record_type := "insight";
                     data := {| consultation_id := Some "c-1"%string; category := None;
                                insight := Some "Automate intake"%string;
                                confidence := Some 0.8; potential_value := Some 50000;
                                implementation_effort := Some "low"%string;
                                priority_score := None |} |}))
       = Some (50000 * conf * 1.5)
    /\ 0 <= 50000 * conf * 1.5 <= 1.5 * 50000.
Proof.
  destruct (validated_insight_score (fun _ _ => ""%string)
              {| id := "i-1"; record_type := "insight";
                 data := {| consultation_id := Some "c-1"%string; category := None;
                            insight := Some "Automate intake"%string;
                            confidence := Some 0.8; potential_value := Some 50000;
                            implementation_effort := Some "low"%string;
                            priority_score := None |} |}
              eq_refl)
    as (conf & Hc & _ & _ & _ & Hs & Hb).
  - cbn. unfold Qle. cbn. lia.
  - exists conf. split; [exact Hc|]. split; [exact Hs|exact Hb].
Defined.

End InsightExamples.

(** ** The consultation engine *)

Section ConsultationEngine.
Import business_doctor_engine business_doctor_session.

Lemma update_challenges_fold (cs : list Challenge) (self : Engine) :
  let self' :=
    fold_left
      (fun self challenge =>
         match challenge with
         | ChallengeText text =>
             if (10 <? String.length text)%nat
             then bottlenecks_append self (challenge_bottleneck text)
             else self
         | ChallengeOther => self
         end)
      cs self in
  metrics self' = metrics self
  /\ bottlenecks self'
     = bottlenecks self ++ map challenge_bottleneck (bottleneck_challenges cs)
  /\ insights self' = insights self
  /\ conversation_history self' = conversation_history self
  /\ current_stage self' = current_stage self.
Proof.
  cbv zeta. revert self.
  induction cs as [|c cs IH]; intros self; cbn [fold_left bottleneck_challenges flat_map].
  - cbn [map]. rewrite app_nil_r. repeat split.
  - fold (bottleneck_challenges cs).
    destruct c as [text|]; [destruct (10 <? String.length text)%nat|].
    + destruct (IH (bottlenecks_append self (challenge_bottleneck text)))
        as (Hm & Hb & Hi & Hh & Hs).
      rewrite Hm, Hb, Hi, Hh, Hs. cbn [bottlenecks_append metrics bottlenecks insights
        conversation_history current_stage app map].
      rewrite <- app_assoc. repeat split.
    + apply IH.
    + apply IH.
Qed.

Lemma update_business_data_inv (extracted_data : ExtractedData) (self : Engine) :
  let self' := _update_business_data extracted_data self in
  bottlenecks self'
  = bottlenecks self
    ++ map challenge_bottleneck
         (bottleneck_challenges (default [] (challenges extracted_data)))
  /\ insights self' = insights self
  /\ conversation_history self' = conversation_history self
  /\ current_stage self' = current_stage self
  /\ main_services (metrics self') = main_services (metrics self)
  /\ technology_stack (metrics self') = technology_stack (metrics self)
  /\ current_challenges (metrics self') = current_challenges (metrics self)
  /\ company_name (metrics self')
     = default (company_name (metrics self))
         (company_info extracted_data ≫= ci_name)
  /\ employee_count (metrics self')
     = default (employee_count (metrics self))
         (company_info extracted_data ≫= ci_employee_count)
  /\ industry (metrics self')
     = default (industry (metrics self))
         (company_info extracted_data ≫= ci_industry)
  /\ annual_revenue (metrics self')
     = default (annual_revenue (metrics self))
         (financial_data extracted_data ≫= fd_revenue).
Proof.
  cbv zeta. unfold _update_business_data. cbv zeta.
  destruct extracted_data as [ci fd cs]. cbn [company_info financial_data challenges].
  match goal with
  | |- context [match cs with Some cs0 => fold_left ?f cs0 ?s | None => _ end] =>
      set (after_metrics := s);
      assert (Hfold :
        let self' := match cs with Some cs0 => fold_left f cs0 after_metrics
                                 | None => after_metrics end in
        metrics self' = metrics after_metrics
        /\ bottlenecks self'
           = bottlenecks after_metrics
             ++ map challenge_bottleneck (bottleneck_challenges (default [] cs))
        /\ insights self' = insights after_metrics
        /\ conversation_history self' = conversation_history after_metrics
        /\ current_stage self' = current_stage after_metrics)
  end.
  { cbv zeta. destruct cs as [cs0|]; cbn [default from_option id].
    - apply update_challenges_fold.
    - cbn [bottleneck_challenges flat_map map]. rewrite app_nil_r. repeat split. }
  cbv zeta in Hfold. destruct Hfold as (Hm & Hb & Hi & Hh & Hs).
  rewrite Hm, Hb, Hi, Hh, Hs. subst after_metrics.
  destruct self as [m b i h st].
  destruct ci as [[[nm|] [ec|] [ind|]]|]; destruct fd as [[[rev|]]|];
    cbn; repeat split.
Qed.

Lemma stage_set_eta (self : Engine) :
  set_current_stage self (current_stage self) = self.
Proof. now destruct self. Qed.

Lemma advance_conversation_stage_inv (self : Engine) :
  exists stage' : ConversationStage,
    _advance_conversation_stage self = Some (set_current_stage self stage')
    /\ (stage_index stage' = stage_index (current_stage self)
        \/ stage_index stage' = S (stage_index (current_stage self)))
    /\ (stage_index stage' = stage_index (current_stage self)
        \/ (stage_index stage' <= 3)%nat
        \/ (20 < length (conversation_history self))%nat)
    /\ ((20 < length (conversation_history self))%nat ->
        current_stage self <> CLOSING ->
        stage_index stage' = S (stage_index (current_stage self)))
    /\ (current_stage self = CLOSING -> stage' = CLOSING).
Proof.
  destruct self as [m b i h st]. unfold _advance_conversation_stage.
  cbn [current_stage metrics bottlenecks conversation_history set_current_stage
       insights].
  destruct (negb (String.eqb (company_name m) "")),
    (0 <? employee_count m)%Z, (0 <? length b)%nat,
    (20 <? length h)%nat eqn:E20;
    (apply Nat.ltb_lt in E20 || apply Nat.ltb_ge in E20);
    destruct st; cbn;
    eexists; (split; [reflexivity|]);
    (split; [vm_compute; auto|]);
    (split; [vm_compute; solve [auto | right; right; exact E20]|]);
    (split; [|]); try reflexivity; try discriminate;
    try (intros H20 Hne; solve [reflexivity | lia | now elim Hne]).
Qed.

(** X15.  [_advance_conversation_stage] never raises and touches only
    the stage, which stays or moves to the next one in definition order.
    With at most 20 messages the stage cannot move past PROCESS_DISCOVERY;
    with more than 20 messages every call advances it until CLOSING, which
    is final. *)
Theorem advance_stage_steps (self : Engine) :
  exists self' : Engine,
    _advance_conversation_stage self = Some self'
    /\ metrics self' = metrics self
    /\ bottlenecks self' = bottlenecks self
    /\ insights self' = insights self
    /\ conversation_history self' = conversation_history self
    /\ (stage_index (current_stage self') = stage_index (current_stage self)
        \/ stage_index (current_stage self')
           = S (stage_index (current_stage self)))
    /\ ((length (conversation_history self) <= 20)%nat ->
        current_stage self' = current_stage self
        \/ (stage_index (current_stage self') <= 3)%nat)
    /\ ((20 < length (conversation_history self))%nat ->
        current_stage self <> CLOSING ->
        stage_index (current_stage self') = S (stage_index (current_stage self)))
    /\ (current_stage self = CLOSING -> self' = self).
Proof.
  destruct (advance_conversation_stage_inv self)
    as (stage' & Hrun & Hstep & Hearly & Hlate & Hclosing).
  exists (set_current_stage self stage').
  split; [exact Hrun|]. cbn [set_current_stage metrics bottlenecks insights
                             conversation_history current_stage].
  repeat split; try assumption.
  - intros Hlen. destruct Hearly as [He|[He|He]]; [|now right|lia].
    destruct Hstep as [_|Hs]; [|lia].
    left. revert He. now destruct stage', (current_stage self).
  - intros Hc. rewrite (Hclosing Hc), <- Hc. apply stage_set_eta.
Qed.

Lemma process_input_inv (user_input : string) (env : Environment) (self : Engine) :
  exists (r : ProcessResult) (self' : Engine),
    process_input user_input env self = Some (r, self')
    /\ conversation_history self'
       = conversation_history self
         ++ [{| role := "user"; content := user_input; timestamp := now_user env |};
             {| role := "assistant"; content := ai_response env;
                timestamp := now_assistant env |}]
    /\ insights self' = insights self
    /\ bottlenecks self'
       = bottlenecks self
         ++ map challenge_bottleneck
              (bottleneck_challenges (default [] (challenges (extracted env))))
    /\ (stage_index (current_stage self') = stage_index (current_stage self)
        \/ stage_index (current_stage self')
           = S (stage_index (current_stage self)))
    /\ (stage_index (current_stage self') = stage_index (current_stage self)
        \/ (stage_index (current_stage self') <= 3)%nat
        \/ (20 < length (conversation_history self'))%nat)
    /\ response r = ai_response env
    /\ pr_current_stage r = stage_value (current_stage self')
    /\ bottlenecks_found r = length (bottlenecks self')
    /\ insights_generated r = length (insights self').
Proof.
  unfold process_input. cbv zeta.
  set (s1 := history_append self _).
  pose proof (update_business_data_inv (extracted env) s1)
    as (Hb & Hi & Hh & Hs & _).
  cbv zeta in Hb, Hi, Hh, Hs.
  set (s2 := _update_business_data (extracted env) s1) in *.
  set (s3 := history_append s2 _).
  destruct (advance_conversation_stage_inv s3)
    as (stage' & Hrun & Hstep & Hearly & _).
  rewrite Hrun. eexists. eexists. split; [reflexivity|].
  cbn [set_current_stage metrics bottlenecks insights conversation_history
       current_stage response pr_current_stage bottlenecks_found
       insights_generated].
  subst s3. cbn [history_append metrics bottlenecks insights conversation_history
                 current_stage] in *.
  rewrite Hh, Hi, Hb, Hs in *. subst s1.
  cbn [history_append metrics bottlenecks insights conversation_history
       current_stage] in *.
  rewrite <- app_assoc in Hearly. rewrite <- app_assoc. cbn [app] in *.
  repeat split; assumption.
Qed.

Lemma run_inputs_inv (inputs : list (string * Environment)) (self : Engine) :
  exists self' : Engine,
    run_inputs inputs self = Some self'
    /\ length (conversation_history self')
       = (length (conversation_history self) + 2 * length inputs)%nat
    /\ insights self' = insights self
    /\ bottlenecks self'
       = bottlenecks self ++ map challenge_bottleneck (session_challenges inputs)
    /\ (stage_index (current_stage self) <= stage_index (current_stage self'))%nat
    /\ (stage_index (current_stage self')
        <= stage_index (current_stage self) + length inputs)%nat
    /\ (forall n : nat,
          length (conversation_history self) = (2 * n)%nat ->
          (stage_index (current_stage self) <= 3)%nat
          \/ (stage_index (current_stage self) + 7 <= n)%nat ->
          (stage_index (current_stage self') <= 3)%nat
          \/ (stage_index (current_stage self') + 7 <= n + length inputs)%nat).
Proof.
  revert self. induction inputs as [|[user_input env] inputs IH]; intros self.
  - exists self. cbn [run_inputs length session_challenges flat_map map].
    rewrite app_nil_r. repeat split; try lia.
  - destruct (process_input_inv user_input env self)
      as (r & s1 & Hrun & Hh & Hi & Hb & Hstep & Hearly & _).
    destruct (IH s1) as (s2 & Hrun2 & Hh2 & Hi2 & Hb2 & Hlo & Hhi & Hinv).
    exists s2. cbn [run_inputs]. rewrite Hrun.
    split; [exact Hrun2|].
    assert (Hlen : length (conversation_history s1)
                   = (length (conversation_history self) + 2)%nat).
    { rewrite Hh, length_app. reflexivity. }
    split; [rewrite Hh2, Hlen; cbn [length]; lia|].
    split; [congruence|].
    split.
    { rewrite Hb2, Hb, <- app_assoc, <- map_app. reflexivity. }
    split; [lia|]. split; [cbn [length]; lia|].
    intros n Hn Hstage.
    destruct (Hinv (S n)) as [H|H]; [lia| |left; exact H|right; cbn [length]; lia].
    rewrite Hlen in Hearly. lia.
Qed.

(** X16.  A consultation: [process_input] called any number of times on a
    fresh engine never raises; after n calls the history holds 2n messages,
    the stage has advanced at most n times and is at most
    PROCESS_DISCOVERY unless more than ten calls were made, one more stage
    being reachable with each further call, so that CLOSING takes at least
    14 calls. *)
Theorem session_progress (inputs : list (string * Environment)) :
  exists self' : Engine,
    run_inputs inputs __init__ = Some self'
    /\ length (conversation_history self') = (2 * length inputs)%nat
    /\ (stage_index (current_stage self') <= length inputs)%nat
    /\ ((stage_index (current_stage self') <= 3)%nat
        \/ (stage_index (current_stage self') + 7 <= length inputs)%nat)
    /\ (current_stage self' = CLOSING -> (14 <= length inputs)%nat)
    /\ insights self' = []
    /\ bottlenecks self' = map challenge_bottleneck (session_challenges inputs).
Proof.
  destruct (run_inputs_inv inputs __init__)
    as (self' & Hrun & Hh & Hi & Hb & _ & Hhi & Hinv).
  exists self'. split; [exact Hrun|].
  change (stage_index (current_stage __init__)) with O in *.
  cbn [__init__ conversation_history insights bottlenecks length app] in *.
  specialize (Hinv O eq_refl (or_introl (Nat.le_0_l 3))).
  repeat split; try assumption; try lia.
  intros Hc. rewrite Hc in Hinv. change (stage_index CLOSING) with 7%nat in Hinv.
  lia.
Qed.

(** A session that reaches CLOSING in exactly 14 calls: the company name,
    the head count and a challenge in the first three, nothing new
    afterwards. *)
Example session_closing_in_14 :
  let quiet :=
    {| now_user := "t"; ai_response := "ok"; now_assistant := "t";
       extracted := {| company_info := None; financial_data := None;
                       challenges := None |} |} in
  let told (d : ExtractedData) :=
    {| now_user := "t"; ai_response := "ok"; now_assistant := "t";
       extracted := d |} in
  let inputs :=
    [("We are Smith Law"%string,
      told {| company_info :=
                Some {| ci_name := Some "Smith Law"%string;
                        ci_employee_count := None; ci_industry := None |};
              financial_data := None; challenges := None |});
     ("12 people"%string,
      told {| company_info :=
                Some {| ci_name := None; ci_employee_count := Some 12%Z;
                        ci_industry := None |};
              financial_data := None; challenges := None |});
     ("Intake is slow"%string,
      told {| company_info := None; financial_data := None;
              challenges := Some [ChallengeText "Client intake is manual"] |})]
    ++ repeat ("..."%string, quiet) 11 in
  option_map current_stage (run_inputs inputs __init__) = Some CLOSING
  /\ option_map current_stage (run_inputs (removelast inputs) __init__)
     = Some SOLUTION_EXPLORATION.
Proof. vm_compute. split; reflexivity. Qed.

(** X17.  [_update_business_data] only adds: it appends one bottleneck per
    text challenge of more than ten characters, in order, after the ones
    already there; it leaves the history, the insights, the stage and the
    three list-valued metrics alone; and each of the company name, the head
    count, the industry and the revenue keeps its value unless the
    extracted data carries the key. *)
Theorem update_business_data_appends (extracted_data : ExtractedData) (self : Engine) :
  let self' := _update_business_data extracted_data self in
  bottlenecks self'
  = bottlenecks self
    ++ map challenge_bottleneck
         (bottleneck_challenges (default [] (challenges extracted_data)))
  /\ insights self' = insights self
  /\ conversation_history self' = conversation_history self
  /\ current_stage self' = current_stage self
  /\ main_services (metrics self') = main_services (metrics self)
  /\ technology_stack (metrics self') = technology_stack (metrics self)
  /\ current_challenges (metrics self') = current_challenges (metrics self)
  /\ company_name (metrics self')
     = default (company_name (metrics self))
         (company_info extracted_data ≫= ci_name)
  /\ employee_count (metrics self')
     = default (employee_count (metrics self))
         (company_info extracted_data ≫= ci_employee_count)
  /\ industry (metrics self')
     = default (industry (metrics self))
         (company_info extracted_data ≫= ci_industry)
  /\ annual_revenue (metrics self')
     = default (annual_revenue (metrics self))
         (financial_data extracted_data ≫= fd_revenue).
Proof. exact (update_business_data_inv extracted_data self). Qed.

(** *** The diagnostic report *)

Lemma challenge_bottleneck_impact (text : string) :
  calculate_annual_impact (challenge_bottleneck text)
  = (5 * inject_Z 250, 375 * inject_Z 250).
Proof.
  unfold calculate_annual_impact. cbv zeta. rewrite engine_frequency_get.
  reflexivity.
Qed.

Lemma filter_weekly_challenges (texts : list string) :
  List.filter (fun b => String.eqb (frequency b) "weekly")
    (map challenge_bottleneck texts) = [].
Proof. induction texts as [|t texts IH]; cbn; [reflexivity|exact IH]. Qed.

Lemma filter_all {A : Type} (p : A -> bool) (l : list A) :
  Forall (fun x => p x = true) l -> List.filter p l = l.
Proof.
  induction 1 as [|x l Hx _ IH]; cbn [List.filter]; [reflexivity|].
  now rewrite Hx, IH.
Qed.

(** Sorting a list whose keys are all equal leaves it as it is. *)
Lemma sorted_reverse_equal_keys {A : Type} (key : A -> Q) (k : Q) (l : list A) :
  Forall (fun x => Qeq_bool (key x) k = true) l ->
  business_analyzer.sorted_reverse (map key l) l = l.
Proof.
  intros Hl.
  transitivity (List.filter (fun x => Qeq_bool (key x) k)
                  (business_analyzer.sorted_reverse (map key l) l)).
  - symmetry. apply filter_all.
    eapply Permutation_Forall; [symmetry; apply sorted_reverse_perm|exact Hl].
  - rewrite sorted_reverse_stable. now apply filter_all.
Qed.

Lemma imap_map_const {A B : Type} (f : nat -> A -> B) (g : A -> B) (l : list A) :
  (forall i x, f i x = g x) -> imap f l = map g l.
Proof.
  revert f. induction l as [|x l IH]; intros f Hf; cbn [imap map]; [reflexivity|].
  rewrite Hf. f_equal. apply IH. intros i y. apply Hf.
Qed.

Lemma map_imap {A B C : Type} (g : B -> C) (f : nat -> A -> B) (l : list A) :
  map g (imap f l) = imap (fun i x => g (f i x)) l.
Proof.
  revert f. induction l as [|x l IH]; intros f; cbn [imap map]; [reflexivity|].
  f_equal. apply IH.
Qed.

Lemma Forall_imap {A B : Type} (P : B -> Prop) (f : nat -> A -> B) (l : list A) :
  (forall i x, In x l -> P (f i x)) -> Forall P (imap f l).
Proof.
  revert f. induction l as [|x l IH]; intros f Hf; cbn [imap]; constructor.
  - apply Hf. now left.
  - apply IH. intros i y Hy. apply Hf. now right.
Qed.

Lemma imap_priority {A : Type} (f : nat -> A -> nat) (l : list A) (n : nat) :
  (forall i x, f i x = (n + i + 1)%nat) -> imap f l = seq (S n) (length l).
Proof.
  revert f n. induction l as [|x l IH]; intros f n Hf; cbn [imap length seq];
    [reflexivity|].
  f_equal; [rewrite Hf; lia|].
  apply IH. intros i y. cbn. rewrite Hf. lia.
Qed.

(** X18.  The report after a consultation on a fresh engine: every
    bottleneck the engine created is listed with 1250 hours and 93,750
    dollars a year, yet the three totals are zero, since the engine creates
    daily bottlenecks and the totals count weekly ones only.  The
    recommendations are the first five challenges in the order in which
    they were mentioned, with priorities 1, 2, ... *)
Theorem session_report (now : string) (inputs : list (string * Environment)) :
  exists self' : Engine,
    run_inputs inputs __init__ = Some self'
    /\ let report := generate_diagnostic_report now self' in
       let texts := session_challenges inputs in
       annual_hours_wasted (total_impact report) = 0
       /\ total_annual_cost_impact (total_impact report) = 0
       /\ potential_roi (total_impact report) == 0
       /\ map row_description (bottlenecks_identified report) = texts
       /\ Forall (fun row => annual_hours_impact row == 1250
                             /\ annual_cost_impact row == 93750)
            (bottlenecks_identified report)
       /\ map rec_bottleneck (recommendations report)
          = map (fun text => name (challenge_bottleneck text)) (slice_to 5 texts)
       /\ map rec_priority (recommendations report)
          = seq 1 (Nat.min 5 (length texts))
       /\ Forall (fun r => expected_time_savings r == 1250
                           /\ expected_cost_savings r == 93750)
            (recommendations report)
       /\ conversation_duration report = (2 * length inputs)%nat.
Proof.
  destruct (run_inputs_inv inputs __init__)
    as (self' & Hrun & Hh & _ & Hb & _).
  exists self'. split; [exact Hrun|]. cbv zeta.
  cbn [__init__ conversation_history bottlenecks length app] in Hh, Hb.
  unfold generate_diagnostic_report. cbv zeta.
  cbn [total_impact annual_hours_wasted total_annual_cost_impact potential_roi
       bottlenecks_identified recommendations conversation_duration].
  rewrite Hb, Hh, filter_weekly_challenges.
  set (texts := session_challenges inputs).
  split; [reflexivity|]. split; [reflexivity|]. split; [reflexivity|].
  split.
  { rewrite !map_map. cbn [row_description challenge_bottleneck description].
    apply map_id. }
  split.
  { apply Forall_map, Forall_map, Forall_forall. intros t _.
    cbn [annual_hours_impact annual_cost_impact].
    rewrite challenge_bottleneck_impact. cbn [fst snd]. split; reflexivity. }
  unfold _generate_recommendations. cbv zeta. rewrite Hb.
  rewrite (sorted_reverse_equal_keys
             (fun b => snd (calculate_annual_impact b)) (375 * inject_Z 250)).
  2:{ apply Forall_map, Forall_forall. intros t _.
      now rewrite challenge_bottleneck_impact. }
  unfold slice_to. rewrite firstn_map.
  split.
  { rewrite map_imap, (imap_map_const _ name) by reflexivity.
    now rewrite map_map. }
  split.
  { rewrite map_imap, (imap_priority _ _ O) by reflexivity.
    now rewrite length_map, length_firstn. }
  split; [|reflexivity].
  apply Forall_imap. intros i b Hb'.
  cbn [expected_time_savings expected_cost_savings].
  apply in_map_iff in Hb' as (t & <- & _).
  rewrite challenge_bottleneck_impact. cbn [fst snd]. split; reflexivity.
Qed.

Lemma StronglySorted_imap {A B : Type} (R : A -> A -> Prop) (R' : B -> B -> Prop)
    (f : nat -> A -> B) (l : list A) :
  (forall i j x y, R x y -> R' (f i x) (f j y)) ->
  StronglySorted R l -> StronglySorted R' (imap f l).
Proof.
  intros Hf Hl. revert f Hf.
  induction Hl as [|x l _ IH Hx]; intros f Hf; cbn [imap]; constructor.
  - apply IH. intros i j a b. apply Hf.
  - apply Forall_imap. intros i y Hy. apply Hf.
    rewrite List.Forall_forall in Hx. now apply Hx.
Qed.

Lemma StronglySorted_app_cross {A : Type} (R : A -> A -> Prop) (l1 l2 : list A) :
  StronglySorted R (l1 ++ l2) ->
  forall a b, In a l1 -> In b l2 -> R a b.
Proof.
  induction l1 as [|x l1 IH]; cbn [app]; intros Hs a b Ha Hb; [destruct Ha|].
  apply StronglySorted_inv in Hs as [Hs Hx].
  destruct Ha as [<-|Ha]; [|now apply (IH Hs)].
  rewrite List.Forall_forall in Hx. apply Hx, in_or_app. now right.
Qed.

(** X19.  The engine's recommendations: the bottlenecks of highest annual
    cost, at most five, highest first and numbered 1, 2, ...; no bottleneck
    left out costs more than one that is recommended, and none is left out
    when there are five or fewer.  The field implementation_effort carries
    the bottleneck's automation potential. *)
Theorem engine_recommendations_ranked (self : Engine) :
  let cost := fun b => snd (calculate_annual_impact b) in
  let recs := _generate_recommendations self in
  exists chosen rest : list ProcessBottleneck,
    Permutation (bottlenecks self) (chosen ++ rest)
    /\ length recs = Nat.min 5 (length (bottlenecks self))
    /\ map rec_priority recs = seq 1 (length recs)
    /\ map rec_bottleneck recs = map name chosen
    /\ map expected_time_savings recs
       = map (fun b => fst (calculate_annual_impact b)) chosen
    /\ map expected_cost_savings recs = map cost chosen
    /\ map rec_implementation_effort recs = map automation_potential chosen
    /\ StronglySorted
         (fun r1 r2 => expected_cost_savings r2 <= expected_cost_savings r1) recs
    /\ (forall c b, In c chosen -> In b rest -> cost b <= cost c)
    /\ ((length (bottlenecks self) <= 5)%nat -> rest = []).
Proof.
  cbv zeta. unfold _generate_recommendations. cbv zeta. unfold slice_to.
  set (cost := fun b => snd (calculate_annual_impact b)).
  set (ranked := business_analyzer.sorted_reverse (map cost (bottlenecks self))
                   (bottlenecks self)).
  assert (Hperm : Permutation ranked (bottlenecks self))
    by apply sorted_reverse_perm.
  assert (Hsorted : StronglySorted (fun a b => cost b <= cost a) ranked)
    by apply (sorted_reverse_descending cost).
  exists (firstn 5 ranked), (skipn 5 ranked).
  assert (Hlen : length (firstn 5 ranked) = Nat.min 5 (length (bottlenecks self))).
  { rewrite length_firstn. now rewrite (Permutation_length Hperm). }
  split; [rewrite firstn_skipn; now symmetry|].
  split; [now rewrite length_imap|].
  split.
  { rewrite map_imap, (imap_priority _ _ O) by reflexivity.
    now rewrite length_imap. }
  split; [rewrite map_imap; now apply imap_map_const|].
  split; [rewrite map_imap; now apply imap_map_const|].
  split; [rewrite map_imap; now apply imap_map_const|].
  split; [rewrite map_imap; now apply imap_map_const|].
  split.
  { apply (StronglySorted_imap (fun a b => cost b <= cost a)).
    - intros i j x y Hxy. exact Hxy.
    - now apply StronglySorted_firstn. }
  split.
  { intros c b Hc Hb.
    apply (StronglySorted_app_cross (fun a b => cost b <= cost a)
             (firstn 5 ranked) (skipn 5 ranked)); try assumption.
    now rewrite firstn_skipn. }
  intros Hn. apply skipn_all2. now rewrite (Permutation_length Hperm).
Qed.

Lemma annual_impact_nonneg (b : ProcessBottleneck) :
  0 <= time_impact_hours b -> 0 <= cost_impact b ->
  0 <= fst (calculate_annual_impact b) /\ 0 <= snd (calculate_annual_impact b).
Proof.
  intros Ht Hc. unfold calculate_annual_impact. cbv zeta. cbn [fst snd].
  rewrite engine_frequency_get.
  assert (Hm : 0 <= inject_Z (spec_occurrences 12 (lower (frequency b)))).
  { unfold spec_occurrences.
    repeat match goal with |- context [if ?c then _ else _] => destruct c end;
      unfold Qle; cbn; lia. }
  split; apply Qmult_le_0_compat; assumption.
Qed.

Lemma annual_impact_weekly (b : ProcessBottleneck) :
  String.eqb (frequency b) "weekly" = true ->
  calculate_annual_impact b = (time_impact_hours b * 52, cost_impact b * 52).
Proof.
  intros Hw. apply String.eqb_eq in Hw.
  unfold calculate_annual_impact. cbv zeta. rewrite Hw. reflexivity.
Qed.

Lemma py_sum_filter_le {A : Type} (p : A -> bool) (f g : A -> Q) (l : list A) :
  Forall (fun x => 0 <= g x /\ (p x = true -> f x == g x)) l ->
  py_sum (map f (List.filter p l)) <= py_sum (map g l).
Proof.
  induction 1 as [|x l [Hx Hfg] _ IH]; cbn [List.filter map].
  - apply Qle_refl.
  - rewrite (py_sum_cons (g x)).
    destruct (p x).
    + cbn [map]. rewrite py_sum_cons, (Hfg eq_refl). lra.
    + lra.
Qed.

Lemma weekly_sums (l : list ProcessBottleneck) :
  Forall (fun b => String.eqb (frequency b) "weekly" = true) l ->
  py_sum (map (fun b => time_impact_hours b * 52) l)
  == py_sum (map (fun b => fst (calculate_annual_impact b)) l)
  /\ py_sum (map (fun b => cost_impact b * 52) l)
     == py_sum (map (fun b => snd (calculate_annual_impact b)) l).
Proof.
  induction 1 as [|b l Hb _ [IHh IHc]]; [split; reflexivity|].
  cbn [map]. rewrite !py_sum_cons, IHh, IHc, (annual_impact_weekly b Hb).
  split; reflexivity.
Qed.

(** X20.  The totals of the diagnostic report count the bottlenecks whose
    frequency is exactly "weekly" and no others: each total is the sum of
    the listed annual impacts of those bottlenecks, the potential ROI is 70
    percent of the cost total, and, impacts being non-negative, a total
    never exceeds the sum of all the rows listed and equals it when every
    bottleneck is weekly. *)
Theorem report_totals (now : string) (self : Engine) :
  Forall (fun b => 0 <= time_impact_hours b /\ 0 <= cost_impact b)
    (bottlenecks self) ->
  let report := generate_diagnostic_report now self in
  let weekly :=
    List.filter (fun b => String.eqb (frequency b) "weekly") (bottlenecks self) in
  annual_hours_wasted (total_impact report)
  == py_sum (map (fun b => fst (calculate_annual_impact b)) weekly)
  /\ total_annual_cost_impact (total_impact report)
     == py_sum (map (fun b => snd (calculate_annual_impact b)) weekly)
  /\ potential_roi (total_impact report)
     == 0.7 * total_annual_cost_impact (total_impact report)
  /\ annual_hours_wasted (total_impact report)
     <= py_sum (map annual_hours_impact (bottlenecks_identified report))
  /\ total_annual_cost_impact (total_impact report)
     <= py_sum (map annual_cost_impact (bottlenecks_identified report))
  /\ (weekly = bottlenecks self ->
      annual_hours_wasted (total_impact report)
      == py_sum (map annual_hours_impact (bottlenecks_identified report))
      /\ total_annual_cost_impact (total_impact report)
         == py_sum (map annual_cost_impact (bottlenecks_identified report)))
  /\ length (bottlenecks_identified report) = length (bottlenecks self)
  /\ conversation_duration report = length (conversation_history self).
Proof.
  intros Hpos. cbv zeta. unfold generate_diagnostic_report. cbv zeta.
  cbn [total_impact annual_hours_wasted total_annual_cost_impact potential_roi
       bottlenecks_identified conversation_duration].
  set (weekly := List.filter _ (bottlenecks self)).
  assert (Hw : Forall (fun b => String.eqb (frequency b) "weekly" = true) weekly).
  { apply List.Forall_forall. intros b Hb. now apply filter_In in Hb. }
  destruct (weekly_sums weekly Hw) as [Hh Hc].
  rewrite !map_map. cbn [annual_hours_impact annual_cost_impact].
  split; [exact Hh|]. split; [exact Hc|]. split; [ring|].
  split.
  { subst weekly. apply py_sum_filter_le.
    eapply Forall_impl; [exact Hpos|]. intros b [Ht Hcost].
    split; [now apply annual_impact_nonneg|].
    intros Hb. now rewrite (annual_impact_weekly b Hb). }
  split.
  { subst weekly. apply py_sum_filter_le.
    eapply Forall_impl; [exact Hpos|]. intros b [Ht Hcost].
    split; [now apply annual_impact_nonneg|].
    intros Hb. now rewrite (annual_impact_weekly b Hb). }
  split.
  { intros Hall. rewrite Hh, Hc, Hall. split; reflexivity. }
  split; [now rewrite length_map|reflexivity].
Qed.

(** X20, witness: one weekly and one monthly bottleneck; the monthly one
    is listed but not counted. *)
Lemma report_totals_witness :
  let self :=
    {| metrics := metrics __init__;
       bottlenecks :=
         [{| name := "Invoice entry"; description := "Invoices are typed by hand";
             department := "Finance"; frequency := "weekly";
             time_impact_hours := 6; cost_impact := 450;
             automation_potential := 0.8; priority := "high" |};
          {| name := "Month-end close"; description := "Reconciled by hand";
             department := "Finance"; frequency := "monthly";
             time_impact_hours := 10; cost_impact := 750;
             automation_potential := 0.5; priority := "medium" |}];
       insights := []; conversation_history := []; current_stage := CLOSING |} in
  let report := generate_diagnostic_report "2024-01-01T00:00:00" self in
  total_annual_cost_impact (total_impact report) == 23400
  /\ py_sum (map annual_cost_impact (bottlenecks_identified report)) == 32400
  /\ total_annual_cost_impact (total_impact report)
     <= py_sum (map annual_cost_impact (bottlenecks_identified report)).
Proof.
  cbv zeta. split; [reflexivity|]. split; [reflexivity|].
  refine (proj1 (proj2 (proj2 (proj2 (proj2
    (report_totals "2024-01-01T00:00:00" _ _)))))).
  repeat constructor; unfold Qle; cbn; lia.
Defined.

End ConsultationEngine.

(** ** The portfolio's advice *)

Lemma Permutation_filter {A : Type} (p : A -> bool) (l l' : list A) :
  Permutation l l' -> Permutation (List.filter p l) (List.filter p l').
Proof.
  induction 1 as [|x l l' _ IH|x y l|l l' l'' _ IH1 _ IH2]; cbn [List.filter].
  - constructor.
  - destruct (p x); [now constructor|exact IH].
  - destruct (p x), (p y); try reflexivity. constructor.
  - now rewrite IH1.
Qed.

Lemma filter_map_comm {A B : Type} (f : A -> B) (p : B -> bool) (l : list A) :
  List.filter p (map f l) = map f (List.filter (fun x => p (f x)) l).
Proof.
  induction l as [|x l IH]; cbn [map List.filter]; [reflexivity|].
  destruct (p (f x)); cbn [map]; now rewrite IH.
Qed.

Lemma _generate_recommendations_closed
    (calculations : list ROICalculation) (self : BusinessAnalyzer) :
  let quick_wins :=
    List.filter
      (fun calc => Qltb 100 (roi_percentage calc)
                   && (time_to_implement_days calc <=? 30)%Z)
      calculations in
  let high_impact :=
    List.filter (fun calc => Qltb 50000 (annual_savings calc)) calculations in
  _generate_recommendations calculations self
  = (Ok (match quick_wins with
         | [] => []
         | _ => [QuickWins (length quick_wins)
                   (py_sum (map annual_savings quick_wins))]
         end
         ++ match high_impact with
            | [] => []
            | _ => [HighImpact (length high_impact)
                      (py_sum (map annual_savings high_impact))]
            end
         ++ (if (5 <? length calculations)%nat then [PhasedApproach] else [])),
     self).
Proof.
  cbv zeta. unfold _generate_recommendations. cbv zeta.
  destruct (List.filter _ calculations), (List.filter _ calculations),
    (5 <? length calculations)%nat; reflexivity.
Qed.

Lemma calculate_portfolio_roi_returns_advice
    (bottlenecks : list Bottleneck) (company_metrics : CompanyMetrics) :
  let ranked := ranked_calcs bottlenecks company_metrics in
  (0 < py_sum (map implementation_cost ranked) ->
   ~ py_sum (map annual_savings ranked) == 0) ->
  exists pf : Portfolio,
    runs (calculate_portfolio_roi bottlenecks company_metrics) (Ok pf)
      (portfolio_calcs bottlenecks company_metrics)
    /\ forall self0 : BusinessAnalyzer,
         _generate_recommendations ranked self0 = (Ok (recommendations pf), self0).
Proof.
  intros ranked Hsav. unfold calculate_portfolio_roi.
  destruct (Qltb 0 (py_sum (map implementation_cost ranked))) eqn:Ecost.
  - apply Qltb_true in Ecost. specialize (Hsav Ecost).
    eexists. split.
    + eapply runs_bind_ext; [apply portfolio_loop_runs|].
      cbv zeta. fold (ranked_calcs bottlenecks company_metrics). fold ranked.
      apply Qltb_true in Ecost. rewrite Ecost. apply Qltb_true in Ecost.
      eapply runs_bind_pure.
      { eapply runs_bind_pure.
        { apply runs_div_ok. intros H0. rewrite H0 in Ecost. lra. }
        eapply runs_bind_pure; [apply (runs_div_ok _ _ Hsav)|]. apply runs_ret. }
      eapply runs_bind_pure; [apply runs_ret|].
      eapply runs_bind_pure; [apply _create_implementation_phases_runs|].
      apply runs_ret.
    + intros self0. reflexivity.
  - eexists. split.
    + eapply runs_bind_ext; [apply portfolio_loop_runs|].
      cbv zeta. fold (ranked_calcs bottlenecks company_metrics). fold ranked.
      rewrite Ecost.
      eapply runs_bind_pure; [apply runs_ret|].
      eapply runs_bind_pure; [apply runs_ret|].
      eapply runs_bind_pure; [apply _create_implementation_phases_runs|].
      apply runs_ret.
    + intros self0. reflexivity.
Qed.

Lemma time_multiplier_get (k : string) :
  dict_get time_multiplier k 60%Z
  = if String.eqb k "low" then 30%Z else if String.eqb k "high" then 90%Z else 60%Z.
Proof.
  unfold dict_get, time_multiplier. cbn [list_to_map foldr uncurry fst snd].
  destruct (String.eqb_spec k "low") as [->|?]; [reflexivity|].
  destruct (String.eqb_spec k "high") as [->|?]; [reflexivity|].
  destruct (String.eqb_spec k "medium") as [->|?]; [reflexivity|].
  rewrite !lookup_insert_ne by congruence. now rewrite lookup_empty.
Qed.

Lemma quick_win_test (b : Bottleneck) (company_metrics : CompanyMetrics) :
  let calc := roi_of b company_metrics in
  Qltb 100 (roi_percentage calc) && (time_to_implement_days calc <=? 30)%Z
  = (time_to_implement_days calc =? 30)%Z && Qltb 20000 (annual_savings calc).
Proof.
  cbv zeta. unfold roi_of. cbv zeta.
  cbn [annual_savings roi_percentage time_to_implement_days].
  rewrite complexity_multiplier_get, time_multiplier_get.
  set (s := _ - _). clearbody s.
  destruct (String.eqb (get (solution_complexity b) "medium"%string) "low").
  - cbn [andb Z.leb Z.eqb Z.compare Pos.compare Pos.compare_cont Pos.eqb].
    rewrite andb_true_r. apply Qltb_congr.
    destruct (Qltb 0 s) eqn:E.
    + apply Qltb_true in E. change (inject_Z 10000) with 10000.
      assert (Hroi : (s - 10000) / 10000 * 100 == (s - 10000) * (1 # 100))
        by (field; discriminate).
      rewrite Hroi. lra.
    + apply Qltb_false in E. lra.
  - destruct (String.eqb _ "high"); cbn; apply andb_false_r.
Qed.

Lemma days_30_is_low (b : Bottleneck) (company_metrics : CompanyMetrics) :
  (time_to_implement_days (roi_of b company_metrics) =? 30)%Z
  = String.eqb (get (solution_complexity b) "medium"%string) "low".
Proof.
  unfold roi_of. cbv zeta. cbn [time_to_implement_days].
  rewrite time_multiplier_get.
  destruct (String.eqb _ "low"); [reflexivity|].
  destruct (String.eqb _ "high"); reflexivity.
Qed.

(** X21.  The advice of a portfolio that [calculate_portfolio_roi]
    returns, read off the per-item records: a sentence on quick wins when
    some record takes 30 days to implement (complexity "low") and has
    annual savings above 20,000, giving the number of those records and the
    sum of their savings; then a sentence on high-impact projects when some
    record saves more than 50,000, again with number and sum; then the
    advice to phase the work when there are more than five bottlenecks.
    Nothing else, and in that order.  Each sum is taken over the records in
    ranked order. *)
Theorem portfolio_advice
    (bottlenecks : list Bottleneck) (company_metrics : CompanyMetrics)
    (self self' : BusinessAnalyzer) (pf : Portfolio) (calcs : list ROICalculation) :
  calculate_portfolio_roi bottlenecks company_metrics self = (Ok pf, self') ->
  Forall2
    (fun b c => calculate_bottleneck_roi b company_metrics __init__
                = (Ok c, {| calculations := [c] |}))
    bottlenecks calcs ->
  let quick :=
    List.filter
      (fun c => (time_to_implement_days c =? 30)%Z && Qltb 20000 (annual_savings c))
      calcs in
  let big := List.filter (fun c => Qltb 50000 (annual_savings c)) calcs in
  exists quick_ranked big_ranked : list ROICalculation,
    Permutation quick_ranked quick
    /\ Permutation big_ranked big
    /\ recommendations pf
       = match quick with
         | [] => []
         | _ => [QuickWins (length quick) (py_sum (map annual_savings quick_ranked))]
         end
         ++ match big with
            | [] => []
            | _ => [HighImpact (length big) (py_sum (map annual_savings big_ranked))]
            end
         ++ (if (5 <? length bottlenecks)%nat then [PhasedApproach] else [])
    /\ Forall2
         (fun b c =>
            (time_to_implement_days c =? 30)%Z
            = String.eqb (get (solution_complexity b) "medium"%string) "low")
         bottlenecks calcs.
Proof.
  intros Hrun Hcalcs quick big. apply per_item_records in Hcalcs.
  pose proof (calculate_portfolio_roi_inv _ _ _ _ _ Hrun) as [Hsav _].
  destruct (calculate_portfolio_roi_returns_advice bottlenecks company_metrics Hsav)
    as (pf' & Hret & Hadv).
  rewrite Hret in Hrun. inversion Hrun; subst pf'. clear Hrun Hret.
  specialize (Hadv self). rewrite _generate_recommendations_closed in Hadv.
  injection Hadv as Hadv. rewrite <- Hadv. clear Hadv.
  set (ranked := ranked_calcs bottlenecks company_metrics).
  set (quick_wins := List.filter _ ranked).
  set (high_impact := List.filter _ ranked).
  assert (Hq : Permutation quick_wins quick).
  { subst quick_wins quick ranked calcs.
    etransitivity; [apply Permutation_filter, ranked_calcs_perm|].
    unfold portfolio_calcs. rewrite !filter_map_comm.
    erewrite List.filter_ext; [reflexivity|].
    intros b. apply quick_win_test. }
  assert (Hh : Permutation high_impact big).
  { subst high_impact big ranked calcs.
    apply Permutation_filter, ranked_calcs_perm. }
  assert (Hn : length ranked = length bottlenecks).
  { subst ranked. rewrite (Permutation_length (ranked_calcs_perm _ _)).
    unfold portfolio_calcs. apply length_map. }
  exists quick_wins, high_impact.
  split; [exact Hq|]. split; [exact Hh|].
  split.
  { rewrite Hn. f_equal; [|f_equal].
    - pose proof (Permutation_length Hq) as Hl.
      clearbody quick_wins quick.
      destruct quick_wins, quick; try discriminate Hl; [reflexivity|].
      now rewrite Hl.
    - pose proof (Permutation_length Hh) as Hl.
      clearbody high_impact big.
      destruct high_impact, big; try discriminate Hl; [reflexivity|].
      now rewrite Hl. }
  subst calcs. unfold portfolio_calcs. clear.
  induction bottlenecks as [|b bs IH]; cbn [map]; constructor; [|exact IH].
  apply days_30_is_low.
Qed.

(** X21, witness: the twelve sample bottlenecks at Smith Law. *)
Lemma portfolio_advice_witness :
  exists pf : Portfolio,
    fst (calculate_portfolio_roi twelve_bottlenecks smith_law_firm __init__) = Ok pf
    /\ length (recommendations pf) = 3%nat
    /\ nth_error (recommendations pf) 2 = Some PhasedApproach.
Proof.
  destruct (calculate_portfolio_roi twelve_bottlenecks smith_law_firm __init__)
    as [[pf|] self'] eqn:Hrun; [|vm_compute in Hrun; discriminate Hrun].
  destruct (portfolio_advice twelve_bottlenecks smith_law_firm __init__ self' pf
              (portfolio_calcs twelve_bottlenecks smith_law_firm) Hrun
              (per_item_records_exist twelve_bottlenecks smith_law_firm))
    as (qs & hs & _ & _ & Hrecs & _).
  exists pf. split; [reflexivity|].
  rewrite Hrecs. split; reflexivity.
Defined.

(** ** The hourly cost *)


